(** * SyncEverything: profile synchronisation over a gist store

    A shallow embedding of the two core classes of the extension,
    [GistService] (src/core/gist.ts) and [SyncEverything]
    (src/core/synceverything.ts), and the properties of the
    synchronisation protocol that are checked against them.

    Every [async] method is a sequential pipeline of awaited calls, so a
    method is embedded as a function from the state it can touch to an
    outcome (a returned value or a thrown exception) and the state it
    leaves behind.  Calls that leave the process (HTTP requests, file
    writes, editor commands, prompts, logger calls) are recorded, in
    order, in a trace carried by the state.

    Around the two classes the development also embeds the discovery of
    the configuration files (utils.ts), the start-up of the local side
    ([SyncEverything.initialize]), and from extension.ts the block of
    [activate] that finds or creates the master record and the naming of
    profiles in the commands. *)

From Stdlib Require Import ZArith Ascii.
From stdpp Require Import base strings list gmap pretty.

Local Open Scope string_scope.
Local Open Scope list_scope.

(** ** Outcomes and programs *)

(** What JavaScript code can throw here. *)
Inductive exn : Type :=
  | AxiosError (response : option (Z * option string)) (request : bool)
               (message : string)
  | Error (message : string)
  | TypeError (message : string)
  | FileSystemError (message : string).

Inductive outcome (A : Type) : Type :=
  | Returned (a : A)
  | Thrown (e : exn).
Arguments Returned {A} a.
Arguments Thrown {A} e.

Definition Prog (St A : Type) : Type := St → outcome A * St.

Definition ret {St A} (a : A) : Prog St A := λ s, (Returned a, s).

Definition bind {St A B} (m : Prog St A) (k : A → Prog St B) : Prog St B :=
  λ s, match m s with
       | (Returned a, s') => k a s'
       | (Thrown e, s') => (Thrown e, s')
       end.

Definition throw {St A} (e : exn) : Prog St A := λ s, (Thrown e, s).

(** [try { m } catch (error) { h error }] *)
Definition try_catch {St A} (m : Prog St A) (h : exn → Prog St A) : Prog St A :=
  λ s, match m s with
       | (Returned a, s') => (Returned a, s')
       | (Thrown e, s') => h e s'
       end.

Definition gets {St A} (f : St → A) : Prog St A := λ s, (Returned (f s), s).
Definition modify {St} (f : St → St) : Prog St unit := λ s, (Returned tt, f s).

Declare Scope prog_scope.
Delimit Scope prog_scope with prog.
Notation "x <- m ;; k" := (bind m (λ x, k))
  (at level 100, m at next level, right associativity) : prog_scope.
Notation "m ;; k" := (bind m (λ _, k))
  (at level 100, right associativity) : prog_scope.
Local Open Scope prog_scope.

(** ** JavaScript conventions used by the source *)

(** A template literal prints an undefined value as [undefined]. *)
Definition interpolate (o : option string) : string := default "undefined" o.

(** Truthiness of a [string | undefined]. *)
Definition truthy (o : option string) : bool :=
  match o with
  | Some s => bool_decide (s ≠ EmptyString)
  | None => false
  end.

(** [a || b] on strings that may be undefined. *)
Definition or_else (a : option string) (b : string) : string :=
  if truthy a then default b a else b.

(** ** Observable calls *)

Inductive method : Type := GET | POST | PATCH.

Inductive event : Type :=
  | Request (m : method) (url : string) (files : option (gmap string string))
  | LoggerInfo (message : string)
  | LoggerError (message origin : string) (showUser : bool)
  | LoggerDebugObject (origin : string)
  | ShowInformationMessage (message : string) (modal : bool) (items : list string)
  | ShowWarningMessage (message : string) (items : list string)
  | WriteFile (path content : string)
  | ProgressReport (message : string) (completed total : nat)
  | ExecuteCommand (command : string) (arg : option string).

(** ** The gist store *)

Module GistService.

(** One record of the store, with the fields the class reads ([IGist] is
    declared in models/interfaces).  [files] maps a file name to its
    content. *)
Record IGist : Type := mkGist {
  id : string;
  description : string;
  files : gmap string string
}.

(** The user's account at the store: the records in the order the
    collection request lists them, and, when the store or the network
    is out of order, the rejection every request meets. *)
Record Store : Type := mkStore {
  gists : list IGist;
  fault : option exn
}.

(** The service object together with what it talks to. *)
Record t : Type := mkService {
  masterId : option string;
  store : Store;
  trace : list event
}.

Definition description_ : string := "SyncEverything".
Definition baseUrl : string := "https://api.github.com/gists".

Definition emit (e : event) : Prog t unit :=
  modify (λ s, mkService (masterId s) (store s) (trace s ++ [e])).
Definition set_masterId (i : option string) : Prog t unit :=
  modify (λ s, mkService i (store s) (trace s)).
Definition set_store (r : Store) : Prog t unit :=
  modify (λ s, mkService (masterId s) r (trace s)).

(** *** The transport, as the wire format has it *)

Definition not_found : exn :=
  AxiosError (Some (404%Z, Some "Not Found")) true
             "Request failed with status code 404".

(** [PATCH] of a record's files: an entry with empty content removes the
    file of that name, any other entry adds or overwrites it, files the
    request does not name stay. *)
Definition patch_files (request current : gmap string string)
  : gmap string string :=
  merge (λ r c, match r with
                | Some content => if decide (content = EmptyString) then None
                                  else Some content
                | None => c
                end) request current.

Definition has_id (i : string) (g : IGist) : Prop := id g = i.
#[global] Instance has_id_dec i g : Decision (has_id i g).
Proof. unfold has_id. apply _. Defined.

(** [axios.get(baseUrl)] *)
Definition axios_get_collection : Prog t (list IGist) :=
  emit (Request GET baseUrl None);;
  r <- gets store;;
  match fault r with
  | Some e => throw e
  | None => ret (gists r)
  end.

(** [axios.get(`${baseUrl}/${gistId}`)] *)
Definition axios_get_gist (gistId : string) : Prog t IGist :=
  emit (Request GET (baseUrl +:+ "/" +:+ gistId) None);;
  r <- gets store;;
  match fault r with
  | Some e => throw e
  | None =>
      match list_find (has_id gistId) (gists r) with
      | Some (_, g) => ret g
      | None => throw not_found
      end
  end.

(** [axios.patch(`${baseUrl}/${gistId}`, { files })] *)
Definition axios_patch_gist (gistId : string) (request : gmap string string)
  : Prog t IGist :=
  emit (Request PATCH (baseUrl +:+ "/" +:+ gistId) (Some request));;
  r <- gets store;;
  match fault r with
  | Some e => throw e
  | None =>
      match list_find (has_id gistId) (gists r) with
      | Some (i, g) =>
          let g' := mkGist (id g) (description g)
                           (patch_files request (files g)) in
          set_store (mkStore (<[i := g']> (gists r)) None);;
          ret g'
      | None => throw not_found
      end
  end.

(** *** handleGistError *)

Definition error_message (error : exn) (operation : string) : string :=
  match error with
  | AxiosError (Some (status, data_message)) _ message =>
      match status with
      | 401%Z => "Authentication failed during " +:+ operation +:+
               ". Please check your GitHub token."
      | 403%Z => "Access forbidden during " +:+ operation +:+
               ". Check your GitHub permissions."
      | 404%Z => "Resource not found during " +:+ operation +:+
               ". The gist may have been deleted."
      | 422%Z => "Invalid data during " +:+ operation +:+ ": " +:+
               or_else data_message "Unknown validation error"
      | 429%Z => "Rate limit exceeded during " +:+ operation +:+
               ". Please try again later."
      | _ => "GitHub API error during " +:+ operation +:+ ": " +:+
             or_else data_message message
      end
  | AxiosError None true _ =>
      "Network error during " +:+ operation +:+
      ". Please check your internet connection."
  | _ => "Failed to " +:+ operation
  end.

Definition handleGistError {A} (error : exn) (operation origin : string)
  : Prog t A :=
  let message := error_message error operation in
  emit (LoggerDebugObject origin);;
  emit (LoggerError message origin true);;
  throw (Error message).

(** *** The methods *)

Definition getCollection : Prog t (list IGist) :=
  try_catch axios_get_collection
    (λ err, handleGistError err "fetching all gists"
                            "GistService.getCollection").

Definition getGist (gistId : string) : Prog t IGist :=
  try_catch (axios_get_gist gistId)
    (λ err, handleGistError err ("fetch gist " +:+ gistId)
                            "GistService.getGist").

(** The scan of [getMaster]: [find] returns the first record whose
    description is the service's. *)
Definition scan (collection : list IGist) : option IGist :=
  List.find (λ gist, bool_decide (description gist = description_))
            collection.

Definition find_in_collection : Prog t (option IGist) :=
  collection <- getCollection;;
  let master := scan collection in
  match master with
  | Some m => set_masterId (Some (id m))
  | None => ret tt
  end;;
  ret master.

(** A record is an object, hence truthy: once the fetch by id has
    returned, the [if (master)] takes its [return]. *)
Definition getMaster : Prog t (option IGist) :=
  i <- gets masterId;;
  by_id <- (if truthy i then
              master <- getGist (interpolate i);;
              ret (Some master)
            else ret None);;
  match by_id with
  | Some master => ret (Some master)
  | None => find_in_collection
  end.

Section WithJSON.
(** The profile as it is uploaded; [JSON.stringify(profile, null, 2)]
    is taken as given. *)
Context {IProfile : Type}.
Variable profileName : IProfile → string.
Variable JSON_stringify : IProfile → string.

Definition createProfile (profile : IProfile) : Prog t IGist :=
  try_catch
    (i <- gets masterId;;
     axios_patch_gist (interpolate i)
       {[ profileName profile +:+ ".json" := JSON_stringify profile ]})
    (λ error, handleGistError error
                ("update/create profile " +:+ profileName profile)
                "GistService.createProfile").
End WithJSON.

Definition deleteProfile (profileName : string) : Prog t unit :=
  try_catch
    (i <- gets masterId;;
     axios_patch_gist (interpolate i) {[ profileName +:+ ".json" := EmptyString ]};;
     ret tt)
    (λ error, handleGistError error ("delete profile " +:+ profileName)
                              "GistService.deleteProfile").

(** *** createMaster and getProfile *)

(** [axios.post(baseUrl, { description, public: false, files })]: the
    store files a new record under the id it assigns, [assigned]; where
    the collection lists it is of no consequence below.  The files follow
    the convention of [patch_files]. *)
Definition axios_post_gist (assigned description : string)
    (request : gmap string string) : Prog t IGist :=
  emit (Request POST baseUrl (Some request));;
  r <- gets store;;
  match fault r with
  | Some e => throw e
  | None =>
      let g := mkGist assigned description (patch_files request ∅) in
      set_store (mkStore (gists r ++ [g]) None);;
      ret g
  end.

Section WithProfile.
(** The profile as the store carries it.  [raw_content] is what the store
    answers to a request for a content URL: the text of the file, or the
    object the transport has already parsed, or nothing when the URL is
    not one of its own.  [JSON.parse] throws on malformed text. *)
Context {IProfile : Type}.
Variable profileName : IProfile → string.
Variable JSON_stringify : IProfile → string.
Variable JSON_parse : string → option IProfile.
Variable raw_content : Store → string → option (string + IProfile).

(** [assigned] is the id in the store's response. *)
Definition createMaster (assigned : string) (profile : IProfile)
  : Prog t IGist :=
  try_catch
    (axios_post_gist assigned description_
       {[ profileName profile +:+ ".json" := JSON_stringify profile ]})
    (λ err, handleGistError err "create new gist" "GistService.createMaster").

(** [axios.get(rawUrl)] *)
Definition axios_get_raw (rawUrl : string) : Prog t (string + IProfile) :=
  emit (Request GET rawUrl None);;
  r <- gets store;;
  match fault r with
  | Some e => throw e
  | None =>
      match raw_content r rawUrl with
      | Some data => ret data
      | None => throw not_found
      end
  end.

Definition getProfile (rawUrl : option string) : Prog t IProfile :=
  try_catch
    ((if truthy rawUrl then ret tt
      else throw (Error "Raw URL is required"));;
     data <- axios_get_raw (interpolate rawUrl);;
     match data with
     | inl text =>
         match JSON_parse text with
         | Some profile => ret profile
         | None => throw (Error "Unexpected token in JSON")
         end
     | inr profile => ret profile
     end)
    (λ error, handleGistError error "fetch profile content"
                              "GistService.getFullProfile").
End WithProfile.

(** *** Reading an outcome *)

(** A run that throws has thrown an [Error] whose message is the last
    thing logged, and shown to the user. *)
Definition reported {A} (r : outcome A * t) : Prop :=
  ∀ e, r.1 = Thrown e →
       ∃ message origin tr,
         e = Error message ∧
         trace r.2 = tr ++ [LoggerError message origin true].

End GistService.

(** ** The local side *)

Module SyncEverything.

Record Extension : Type := mkExtension {
  ext_id : string;
  isBuiltin : bool
}.

(** The editor and the machine as the class sees them: the persisted
    key-value state, the files on disk and the paths the file system
    refuses to write, the installed extensions, the two configuration
    options, the identifiers on which the editor's install and uninstall
    commands reject, and the replies the user will give to the prompts
    still to come (a dismissed prompt answers [None]). *)
Record t : Type := mk {
  globalState : gmap string string;
  fs : gmap string string;
  readonly : gset string;
  all : list Extension;
  excludeExtensions : option (list string);
  confirmBeforeSync : option bool;
  rejecting : gset string;
  user : list (option string);
  trace : list event
}.

Definition with_fs (f : gmap string string) (s : t) : t :=
  mk (globalState s) f (readonly s) (all s) (excludeExtensions s)
     (confirmBeforeSync s) (rejecting s) (user s) (trace s).
Definition with_all (a : list Extension) (s : t) : t :=
  mk (globalState s) (fs s) (readonly s) a (excludeExtensions s)
     (confirmBeforeSync s) (rejecting s) (user s) (trace s).
Definition with_user (u : list (option string)) (s : t) : t :=
  mk (globalState s) (fs s) (readonly s) (all s) (excludeExtensions s)
     (confirmBeforeSync s) (rejecting s) u (trace s).
Definition with_trace (tr : list event) (s : t) : t :=
  mk (globalState s) (fs s) (readonly s) (all s) (excludeExtensions s)
     (confirmBeforeSync s) (rejecting s) (user s) tr.

Definition emit (e : event) : Prog t unit :=
  modify (λ s, with_trace (trace s ++ [e]) s).

(** *** The host's calls *)

Definition logger_info (message : string) : Prog t unit :=
  emit (LoggerInfo message).
Definition logger_error (message origin : string) (showUser : bool)
  : Prog t unit :=
  emit (LoggerError message origin showUser).

(** [readFile(path, "utf-8")] *)
Definition readFile (path : option string) : Prog t string :=
  match path with
  | None => throw (TypeError "The path argument must be of type string")
  | Some p =>
      f <- gets fs;;
      match f !! p with
      | Some text => ret text
      | None => throw (Error ("ENOENT: no such file or directory, open " +:+ p))
      end
  end.

(** [workspace.fs.writeFile(Uri.file(path), Buffer.from(content))]: the
    whole content replaces the file, or the write rejects and the file
    is as it was. *)
Definition writeFile (path : option string) (content : string)
  : Prog t unit :=
  match path with
  | None => throw (TypeError "The path argument must be of type string")
  | Some p =>
      emit (WriteFile p content);;
      ro <- gets readonly;;
      if decide (p ∈ ro) then
        throw (FileSystemError ("Unable to write file " +:+ p))
      else modify (λ s, with_fs (<[p := content]> (fs s)) s)
  end.

Definition next_reply : Prog t (option string) :=
  u <- gets user;;
  match u with
  | [] => ret None
  | r :: rest => modify (with_user rest);; ret r
  end.

(** A message that offers no items can only be dismissed. *)
Definition showInformationMessage (message : string) (modal : bool)
    (items : list string) : Prog t (option string) :=
  emit (ShowInformationMessage message modal items);;
  match items with
  | [] => ret None
  | _ => next_reply
  end.

Definition showWarningMessage (message : string) (items : list string)
  : Prog t (option string) :=
  emit (ShowWarningMessage message items);;
  next_reply.

Definition uninstallExtension : string :=
  "workbench.extensions.uninstallExtension".
Definition installExtension : string :=
  "workbench.extensions.installExtension".
Definition reloadWindow : string := "workbench.action.reloadWindow".

(** [commands.executeCommand(command, id)] *)
Definition executeCommand (command : string) (arg : option string)
  : Prog t unit :=
  emit (ExecuteCommand command arg);;
  match arg with
  | None => ret tt
  | Some i =>
      rj <- gets rejecting;;
      if decide (i ∈ rj) then
        throw (Error ("Cannot run " +:+ command +:+ " on " +:+ i))
      else if decide (command = uninstallExtension) then
        modify (λ s, with_all (filter (λ e, ext_id e ≠ i) (all s)) s)
      else if decide (command = installExtension) then
        modify (λ s, with_all (all s ++ [mkExtension i false]) s)
      else ret tt
  end.

(** *** Helpers of the messages *)

Definition nl : string := String "010"%char EmptyString.

(** [Array.prototype.join] *)
Fixpoint join (sep : string) (l : list string) : string :=
  match l with
  | [] => EmptyString
  | [x] => x
  | x :: rest => x +:+ sep +:+ join sep rest
  end.

(** *** getExtensions *)

Definition getExtensions (s : t) : list string :=
  let excludeList := default [] (excludeExtensions s) in
  filter (λ i, i ∉ excludeList)
         (ext_id <$> filter (λ ext, ¬ isBuiltin ext) (all s)).

(** *** installExtensions *)

Definition toInstall (localList remoteList : list string) : list string :=
  let localSet : gset string := list_to_set localList in
  filter (λ i, i ∉ localSet) remoteList.

Definition toDelete (localList remoteList : list string) : list string :=
  let remoteSet : gset string := list_to_set remoteList in
  filter (λ i, i ∉ remoteSet) localList.

Definition confirm_message (toInstall toDelete : list string) : string :=
  "Sync will:" +:+ nl +:+
  "• Install " +:+ pretty (length toInstall) +:+ " extensions" +:+ nl +:+
  "• Remove " +:+ pretty (length toDelete) +:+ " extensions" +:+ nl +:+ nl +:+
  "Continue?".

Definition details (toInstall toDelete : list string) : string :=
  join (nl +:+ nl)
    (filter (λ x, x ≠ EmptyString)
       [ if bool_decide (0 < length toInstall)%nat
         then "To Install:" +:+ nl +:+ join nl toInstall else EmptyString;
         if bool_decide (0 < length toDelete)%nat
         then "To Remove:" +:+ nl +:+ join nl toDelete else EmptyString ]).

(** [for (const x of l) { v = body(x, v) }], the loop's variables
    threaded through the iterations. *)
Fixpoint for_of {A V} (l : list A) (body : A → V → Prog t V) (v : V)
  : Prog t V :=
  match l with
  | [] => ret v
  | x :: rest => v' <- body x v;; for_of rest body v'
  end.

(** One iteration of either loop; the loop's variables are [completed]
    and [needsReload].  The increment of [completed] is the first thing
    the [try] block does, so it is kept when the command rejects. *)
Definition mutate (command verb done failed : string) (total : nat)
    (i : string) (v : nat * bool) : Prog t (nat * bool) :=
  let completed := S v.1 in
  try_catch
    (emit (ProgressReport (verb +:+ " " +:+ i +:+ "...") completed total);;
     executeCommand command (Some i);;
     logger_info (done +:+ " extension: " +:+ i);;
     ret (completed, true))
    (λ error,
       logger_error ("Failed to " +:+ failed +:+ " " +:+ i)
                    "SyncEverything.installExtensions" false;;
       ret (completed, v.2)).

(** From [let needsReload = false] to the end of the method. *)
Definition execute (toInstall toDelete : list string) : Prog t unit :=
  let total := (length toInstall + length toDelete)%nat in
  v <- for_of toDelete
         (mutate uninstallExtension "Uninstalling" "Uninstalled" "uninstall"
                 total) (0%nat, false);;
  v <- for_of toInstall
         (mutate installExtension "Installing" "Installed" "install" total)
         v;;
  if v.2 : bool then
    reload <- showInformationMessage
                "Extension sync complete. Reload window to apply all changes?"
                false ["Reload"; "Later"];;
    if decide (reload = Some "Reload") then executeCommand reloadWindow None
    else ret tt
  else ret tt.

Definition installExtensions (remoteList : list string) : Prog t unit :=
  localList <- gets getExtensions;;
  let toInstall := toInstall localList remoteList in
  let toDelete := toDelete localList remoteList in
  if bool_decide (length toInstall = 0%nat) && bool_decide (length toDelete = 0%nat)
  then emit (ShowInformationMessage "Extensions are already in sync" false [])
  else
    confirm <- gets (λ s, default true (confirmBeforeSync s));;
    if confirm : bool then
      action <- showWarningMessage (confirm_message toInstall toDelete)
                  ["Yes"; "Show Details"; "Cancel"];;
      if decide (action = Some "Show Details") then
        showInformationMessage (details toInstall toDelete) true [];;
        ret tt
      else if decide (action ≠ Some "Yes") then ret tt
      else execute toInstall toDelete
    else execute toInstall toDelete.

(** *** The configuration files *)

Inductive ConfigFile : Type := Keybindings | Settings.

Definition name (f : ConfigFile) : string :=
  match f with
  | Keybindings => "keybindings"
  | Settings => "settings"
  end.

Section WithJSON.
(** Parsed JSON is kept opaque; [JSON5.parse], which throws on
    malformed text, and [JSON.stringify(data, null, 2)] are taken as
    given. *)
Context {J : Type}.
Variable JSON5_parse : string → option J.
Variable JSON_stringify : J → string.

(** [string | any] *)
Inductive any : Type :=
  | Str (s : string)
  | Obj (j : J).

Record IProfile : Type := mkProfile {
  profileName : string;
  settings : any;
  keybindings : any;
  extensions : list string
}.

(** [Partial<IProfile>]: an absent field is [None]. *)
Record Partial_IProfile : Type := mkPartial {
  profileName_opt : option string;
  settings_opt : option J;
  extensions_opt : option (list string);
  keybindings_opt : option J
}.

(** [globalState.get] does not throw, so the first [try] of the method
    always reaches its end. *)
Definition readConfigFile (f : ConfigFile) : Prog t (option J) :=
  path <- gets (λ s, globalState s !! (name f +:+ "Path"));;
  try_catch
    (buffer <- readFile path;;
     match JSON5_parse buffer with
     | Some v => ret (Some v)
     | None => throw (Error "JSON5: invalid character")
     end)
    (λ error,
       logger_error ("Failed to read " +:+ name f +:+ " file: " +:+
                     interpolate path)
                    "SyncEverything.readConfigFile" true;;
       ret None).

(** What a configuration file holds, parsed: nothing when its path is
    not set, the file is missing or its text does not parse. *)
Definition on_disk (f : ConfigFile) (s : t) : option J :=
  path ← globalState s !! (name f +:+ "Path");
  text ← fs s !! path;
  JSON5_parse text.

Definition getActiveProfile : Prog t Partial_IProfile :=
  settings <- readConfigFile Settings;;
  keybinds <- readConfigFile Keybindings;;
  exts <- gets getExtensions;;
  ret (mkPartial None settings (Some exts) keybinds).

(** [typeof data === "string" ? data : JSON.stringify(data, null, 2)] *)
Definition content_of (data : any) : string :=
  match data with
  | Str text => text
  | Obj j => JSON_stringify j
  end.

Definition writeConfigFile (path : option string) (data : any)
  : Prog t unit :=
  try_catch
    (let content := content_of data in
     writeFile path content;;
     logger_info ("Configuration file updated: " +:+ interpolate path))
    (λ error,
       logger_error ("Failed to write settings file: " +:+
                     interpolate path)
                    "SyncEverything.writeConfigFile" true;;
       throw error).

Definition updateLocalProfile (profile : IProfile) : Prog t unit :=
  settingsPath <- gets (λ s, globalState s !! "settingsPath");;
  writeConfigFile settingsPath (settings profile);;
  keybindingsPath <- gets (λ s, globalState s !! "keybindingsPath");;
  writeConfigFile keybindingsPath (keybindings profile);;
  installExtensions (extensions profile).

End WithJSON.

(** *** Reading a trace *)

(** What a run adds to the trace it starts from. *)
Definition new_events {A} (m : Prog t A) (s : t) : list event :=
  drop (length (trace s)) (trace (m s).2).

(** The editor commands of a trace, in the order they were issued. *)
Definition commands (tr : list event) : list (string * option string) :=
  omap (λ e, match e with
             | ExecuteCommand command arg => Some (command, arg)
             | _ => None
             end) tr.

(** The file writes attempted in a trace. *)
Definition writes (tr : list event) : list (string * string) :=
  omap (λ e, match e with
             | WriteFile path content => Some (path, content)
             | _ => None
             end) tr.

(** [s'] is [s] after a run that appended [evs] to the trace and left
    the files and the persisted state alone. *)
Definition appended (s s' : t) (evs : list event) : Prop :=
  trace s' = trace s ++ evs ∧ writes evs = [] ∧
  fs s' = fs s ∧ globalState s' = globalState s ∧
  readonly s' = readonly s ∧ rejecting s' = rejecting s.

(** The confirmation prompt of a batch. *)
Definition prompt (localList remoteList : list string) : event :=
  ShowWarningMessage
    (confirm_message (toInstall localList remoteList)
                     (toDelete localList remoteList))
    ["Yes"; "Show Details"; "Cancel"].

Definition uninstall (i : string) : string * option string :=
  (uninstallExtension, Some i).
Definition install (i : string) : string * option string :=
  (installExtension, Some i).

(** The progress reports of a trace, as [(completed, total)]. *)
Definition progress (tr : list event) : list (nat * nat) :=
  omap (λ e, match e with
             | ProgressReport _ completed total => Some (completed, total)
             | _ => None
             end) tr.

(** The errors logged in a trace, with whether the user is shown them. *)
Definition errors (tr : list event) : list (string * bool) :=
  omap (λ e, match e with
             | LoggerError message _ showUser => Some (message, showUser)
             | _ => None
             end) tr.

(** The information messages of a trace. *)
Definition shown (tr : list event) : list string :=
  omap (λ e, match e with
             | ShowInformationMessage message _ _ => Some message
             | _ => None
             end) tr.

(** The warnings put before the user, each with its buttons. *)
Definition warnings (tr : list event) : list (string * list string) :=
  omap (λ e, match e with
             | ShowWarningMessage message items => Some (message, items)
             | _ => None
             end) tr.

(** What a batch puts in the trace before its commands and after them:
    the prompt, if confirmation is asked for, and the question about the
    reload, if [needsReload] is set, with the reload when that is the
    reply. *)
Definition opening (remoteList : list string) (s : t) : list event :=
  if default true (confirmBeforeSync s)
  then [prompt (getExtensions s) remoteList] else [].

Definition closing (needsReload : bool) (reply : option string) : list event :=
  if needsReload then
    ShowInformationMessage
      "Extension sync complete. Reload window to apply all changes?"
      false ["Reload"; "Later"]
    :: (if decide (reply = Some "Reload")
        then [ExecuteCommand reloadWindow None] else [])
  else [].

(** [x] is part of the text [text]. *)
Definition occurs (x text : string) : Prop :=
  ∃ pre post, text = pre +:+ x +:+ post.

(** A batch goes on to its commands when no confirmation is asked for or
    the reply to the prompt is [Yes]. *)
Definition confirmed (s : t) : Prop :=
  default true (confirmBeforeSync s) = false ∨
  default None (head (user s)) = Some "Yes".

(** The state in which the commands then start: after the prompt, if
    there was one. *)
Definition at_start (remoteList : list string) (s : t) : t :=
  if default true (confirmBeforeSync s) then
    with_user (tail (user s))
      (with_trace (trace s ++ [prompt (getExtensions s) remoteList]) s)
  else s.

End SyncEverything.

(** ** Finding the configuration files *)

(** utils.ts, on the state of the local side. *)
Module Utils.
Import SyncEverything.

(** What the module reads of [os] and [process.env]. *)
Record Process : Type := mkProcess {
  platform : string;
  APPDATA : option string;
  USERPROFILE : option string;
  HOME : option string;
  XDG_CONFIG_HOME : option string;
  homedir : string
}.

Definition backslash : string := String (ascii_of_nat 92) EmptyString.

Definition getConfigPaths (p : Process) (appName file : string) : list string :=
  if decide (platform p = "win32") then
    [ interpolate (APPDATA p) +:+ backslash +:+ appName +:+ backslash +:+
      "User" +:+ backslash +:+ file;
      interpolate (USERPROFILE p) +:+ backslash +:+ "AppData" +:+ backslash +:+
      "Roaming" +:+ backslash +:+ appName +:+ backslash +:+ "User" +:+
      backslash +:+ file ]
  else if decide (platform p = "darwin") then
    [ interpolate (HOME p) +:+ "/Library/Application Support/" +:+ appName +:+
      "/User/" +:+ file;
      homedir p +:+ "/Library/Application Support/" +:+ appName +:+
      "/User/" +:+ file ]
  else
    [ interpolate (HOME p) +:+ "/.config/" +:+ appName +:+ "/User/" +:+ file;
      or_else (XDG_CONFIG_HOME p) (homedir p +:+ "/.config") +:+ "/" +:+
      appName +:+ "/User/" +:+ file;
      homedir p +:+ "/.config/" +:+ appName +:+ "/User/" +:+ file ].

(** [workspace.fs.stat] succeeds on a path that is there. *)
Definition pathExists (path : string) : Prog t bool :=
  f <- gets fs;;
  match f !! path with
  | Some _ => emit (LoggerInfo ("Found file at: " +:+ path));; ret true
  | None => ret false
  end.

Section WithPath.
(** [path.join] and [Uri.file(path).fsPath] are taken as given. *)
Variable join : string → string → string.
Variable fsPath : string → string.

Definition possiblePaths (p : Process) (appName file : string)
    (preferredUserDir : option string) : list string :=
  if truthy preferredUserDir
  then join (interpolate preferredUserDir) file :: getConfigPaths p appName file
  else getConfigPaths p appName file.

(** The [for] loop of [findConfigFile], which returns from the function at
    the first path that exists. *)
Fixpoint search (paths : list string) : Prog t (option string) :=
  match paths with
  | [] => ret None
  | path :: rest =>
      found <- pathExists path;;
      if found : bool then ret (Some (fsPath path)) else search rest
  end.

Definition findConfigFile (p : Process) (appName file : string)
    (preferredUserDir : option string) : Prog t string :=
  found <- search (possiblePaths p appName file preferredUserDir);;
  match found with
  | Some path => ret path
  | None =>
      logger_error ("Could not find " +:+ file +:+ " in any default location")
                   "utils.findConfigFile" true;;
      throw (FileSystemError
               (file +:+ " does not exist in any of the configuration directories"))
  end.
End WithPath.

End Utils.

(** ** Start-up *)

(** [SyncEverything.initialize] and what it calls. *)
Module Startup.
Import SyncEverything Utils.

(** [String.prototype.includes] *)
Fixpoint includes (sub s : string) : bool :=
  String.prefix sub s ||
  match s with
  | EmptyString => false
  | String _ rest => includes sub rest
  end.

(** The application's directory name, from [env.appName]. *)
Definition appName (env_appName : string) : string :=
  if includes "Code" env_appName then
    if includes "Insiders" env_appName then "Code - Insiders" else "Code"
  else "Cursor".

Definition globalState_update (key value : string) : Prog t unit :=
  modify (λ s, mk (<[key := value]> (globalState s)) (fs s) (readonly s)
                  (all s) (excludeExtensions s) (confirmBeforeSync s)
                  (rejecting s) (user s) (trace s)).

(** [setManualPath]: the reply to the file dialog is the file picked, or
    nothing when the dialog is cancelled, and then [manualPath[0]] throws.
    The dialog itself leaves nothing in the trace. *)
Definition setManualPath (f : ConfigFile) : Prog t string :=
  try_catch
    (manualPath <- next_reply;;
     match manualPath with
     | Some path => ret path
     | None => throw (TypeError "Cannot read properties of undefined")
     end)
    (λ error, throw error).

Section WithPath.
Variable join : string → string → string.
Variable fsPath : string → string.
(** [path.resolve(globalStorageUri.fsPath, "..", "..")] *)
Variable resolve_up_two : string → string.

Definition getUserConfigDir (globalStorage : string) : option string :=
  Some (resolve_up_two globalStorage).

(** One of the two blocks of [initialize], which differ in the name of the
    file only; [false] stands for the block's [return undefined]. *)
Definition locate (p : Process) (app : string) (userConfigDir : option string)
    (f : ConfigFile) : Prog t bool :=
  existing <- gets (λ s, globalState s !! (name f +:+ "Path"));;
  if truthy existing then ret true
  else
    try_catch
      (path <- findConfigFile join fsPath p app (name f +:+ ".json")
                              userConfigDir;;
       globalState_update (name f +:+ "Path") path;;
       ret true)
      (λ error,
         logger_error ("Failed to automatically find " +:+ name f +:+
                       ".json file - opening file picker")
                      "SyncEverything.initialize" true;;
         try_catch
           (path <- setManualPath f;;
            globalState_update (name f +:+ "Path") path;;
            ret true)
           (λ error,
              logger_error
                "Configuration files are required for SyncEverything to work, please reactivate extension and select correct configuration files."
                "SyncEverything.initialize" true;;
              ret false)).

(** [Some tt] is the new instance, [None] is [undefined]. *)
Definition initialize (p : Process) (env_appName globalStorage : string)
  : Prog t (option unit) :=
  let userConfigDir := getUserConfigDir globalStorage in
  let app := appName env_appName in
  settled <- locate p app userConfigDir Settings;;
  if settled : bool then
    settled <- locate p app userConfigDir Keybindings;;
    if settled : bool then ret (Some tt) else ret None
  else ret None.
End WithPath.

End Startup.

(** ** Activation *)

(** The part of [activate] (extension.ts) that finds or creates the
    master record, on the service and the local side together. *)
Module Activation.

Record App : Type := mkApp {
  gist : GistService.t;
  local : SyncEverything.t
}.

Definition on_gist {A} (m : Prog GistService.t A) : Prog App A :=
  λ s, let r := m (gist s) in (r.1, mkApp r.2 (local s)).
Definition on_local {A} (m : Prog SyncEverything.t A) : Prog App A :=
  λ s, let r := m (local s) in (r.1, mkApp (gist s) r.2).

Section WithJSON.
Context {J : Type}.
Variable JSON5_parse : string → option J.
(** [JSON.stringify(profile, null, 2)] of the default profile. *)
Variable JSON_stringify : SyncEverything.Partial_IProfile (J := J) → string.

Definition profileName (profile : SyncEverything.Partial_IProfile (J := J))
  : string :=
  interpolate (SyncEverything.profileName_opt profile).

(** From [let masterList = await gistService.getMaster()] to the check
    that the master id was stored; [assigned] is the id the store gives
    to a record it creates, [false] the [return] after [deactivate]. *)
Definition find_or_create_master (assigned : string) : Prog App bool :=
  found <- on_gist GistService.getMaster;;
  match found with
  | None =>
      defaultProfile <- on_local (SyncEverything.getActiveProfile JSON5_parse);;
      let defaultProfile :=
        SyncEverything.mkPartial (Some "Origin")
          (SyncEverything.settings_opt defaultProfile)
          (SyncEverything.extensions_opt defaultProfile)
          (SyncEverything.keybindings_opt defaultProfile) in
      masterList <- on_gist (GistService.createMaster profileName JSON_stringify
                                                      assigned defaultProfile);;
      on_local (Startup.globalState_update "masterId" (GistService.id masterList));;
      on_gist (GistService.set_masterId (Some (GistService.id masterList)))
  | Some masterList =>
      stored <- on_local (gets (λ s, SyncEverything.globalState s !! "masterId"));;
      if decide (Some (GistService.id masterList) ≠ stored)
      then on_local (Startup.globalState_update "masterId"
                                                (GistService.id masterList))
      else ret tt
  end;;
  stored <- on_local (gets (λ s, SyncEverything.globalState s !! "masterId"));;
  if truthy stored then ret true
  else
    on_local (SyncEverything.logger_error
                "Something failed when attempting to find master list Gist ID, check logs for more details"
                "activate" true);;
    ret false.
End WithJSON.

End Activation.

(** ** The commands' names and labels *)

(** The pure parts of the commands of extension.ts: the check of a new
    profile's name and the labels under which the profiles of the master
    record are offered.  A string is the bytes of its UTF-8 encoding; the
    pattern's class is ASCII, so every byte of a character outside it
    fails the test. *)
Module Commands.

(** The white space and the line terminators that
    [String.prototype.trim] strips, each code point as the bytes of its
    UTF-8 encoding: U+0009 to U+000D, U+0020, U+00A0, U+1680, U+2000 to
    U+200A, U+2028, U+2029, U+202F, U+205F, U+3000 and U+FEFF. *)
Definition white_space : list (list nat) :=
  [ [9]; [10]; [11]; [12]; [13]; [32]; [194; 160]; [225; 154; 128] ] ++
  ((λ b, [226; 128; b]) <$> seq 128 11) ++
  [ [226; 128; 168]; [226; 128; 169]; [226; 128; 175]; [226; 129; 159];
    [227; 128; 128]; [239; 187; 191] ].

(** What follows the bytes [point] in [l], when [l] starts with them. *)
Fixpoint after (point : list nat) (l : list ascii) : option (list ascii) :=
  match point, l with
  | [], _ => Some l
  | b :: point', c :: l' =>
      if Nat.eqb (nat_of_ascii c) b then after point' l' else None
  | _ :: _, [] => None
  end.

(** What follows the first of [points] that [l] starts with. *)
Fixpoint after_any (points : list (list nat)) (l : list ascii)
  : option (list ascii) :=
  match points with
  | [] => None
  | point :: rest =>
      match after point l with
      | Some l' => Some l'
      | None => after_any rest l
      end
  end.

(** [l] without the [points] it starts with; every round takes at least
    one byte, so the length of [l] is fuel enough. *)
Fixpoint strip (points : list (list nat)) (fuel : nat) (l : list ascii)
  : list ascii :=
  match fuel with
  | O => l
  | S fuel' =>
      match after_any points l with
      | Some l' => strip points fuel' l'
      | None => l
      end
  end.

Definition trimStart (l : list ascii) : list ascii :=
  strip white_space (length l) l.

Definition trimEnd (l : list ascii) : list ascii :=
  rev (strip (rev (A:=nat) <$> white_space) (length l) (rev l)).

(** [String.prototype.trim] *)
Definition trim (s : string) : string :=
  String.string_of_list_ascii
    (trimEnd (trimStart (String.list_ascii_of_string s))).

(** The class [[a-zA-Z0-9_-]]. *)
Definition in_class (c : ascii) : bool :=
  let n := nat_of_ascii c in
  bool_decide ((97 ≤ n ≤ 122) ∨ (65 ≤ n ≤ 90) ∨ (48 ≤ n ≤ 57) ∨
               n = 95 ∨ n = 45)%nat.

(** No code point of [points] starts with a byte of the class. *)
Definition guarded (points : list (list nat)) : bool :=
  forallb (λ point, match point with
                    | [] => false
                    | b :: _ => negb (in_class (ascii_of_nat b))
                    end) points.

(** [/^[a-zA-Z0-9_-]+$/.test(value)] *)
Definition test (value : string) : bool :=
  match value with
  | EmptyString => false
  | _ => forallb in_class (String.list_ascii_of_string value)
  end.

(** [validateInput] of the prompt for a profile's name; [None] is the
    [null] that accepts the input. *)
Definition validateInput (value : string) : option string :=
  if negb (truthy (Some value)) ||
     bool_decide (String.length (trim value) = 0%nat)
  then Some "Profile name cannot be empty"
  else if negb (test value)
  then Some "Profile name can only contain letters, numbers, hyphens, and underscores"
  else None.

(** [String.prototype.endsWith] *)
Fixpoint endsWith (suffix s : string) : bool :=
  String.eqb s suffix ||
  match s with
  | EmptyString => false
  | String _ rest => endsWith suffix rest
  end.

Fixpoint skip (n : nat) (s : string) : string :=
  match n, s with
  | S m, String _ rest => skip m rest
  | _, _ => s
  end.

(** [s.replace(pattern, '')]: the first occurrence of the pattern is cut
    out. *)
Fixpoint remove_first (pattern s : string) : string :=
  if String.prefix pattern s then skip (String.length pattern) s
  else match s with
       | EmptyString => EmptyString
       | String c rest => String c (remove_first pattern rest)
       end.

(** The names offered by the pull, update and delete commands: the files
    of the master record that end in [.json]. *)
Definition profileNames (files : gmap string string) : list string :=
  filter (λ name, endsWith ".json" name = true) (map_to_list files).*1.

(** The label a file is offered under, and the file a label selects. *)
Definition label (name : string) : string := remove_first ".json" name.
Definition selected_file (label : string) : string := label +:+ ".json".

End Commands.

(** ** Sample data *)

Module GistSamples.
Import GistService.

(** An account holding an unrelated record and the master record with
    two profiles. *)
Definition account : Store :=
  mkStore [ mkGist "a1f0" "dotfiles" {[ "vimrc" := "set nu" ]};
            mkGist "b2e9" "SyncEverything"
                   {[ "Origin.json" := "{}"; "Work.json" := "{ }" ]} ]
          None.


(** The same account while the store turns requests away. *)
Definition throttled : Store :=
  mkStore (gists account)
          (Some (AxiosError (Some (429%Z, Some "API rate limit exceeded")) true
                            "Request failed with status code 429")).

(** Stand-ins for a profile and its JSON functions: a name and a body,
    written as [name:body]. *)
Definition profile_name (p : string * string) : string := p.1.
Definition profile_text (p : string * string) : string :=
  p.1 +:+ ":" +:+ p.2.
Definition profile_parse (text : string) : option (string * string) :=
  match String.index 0 ":" text with
  | Some n => Some (String.substring 0 n text,
                    String.substring (S n) (String.length text - S n) text)
  | None => None
  end.
Definition no_raw (r : Store) (url : string)
  : option (string + string * string) := None.
Definition raw_text (text : string) (r : Store) (url : string)
  : option (string + string * string) := Some (inl text).
End GistSamples.

Module SyncSamples.
Import SyncEverything.

Definition settings_json : string := "/home/dev/.config/Code/User/settings.json".
Definition keybindings_json : string := "/home/dev/.config/Code/User/keybindings.json".

(** A machine with three extensions of the user's and a built-in one,
    both configuration files in place and no option set. *)
Definition desk : t :=
  mk {[ "settingsPath" := settings_json; "keybindingsPath" := keybindings_json ]}
     {[ settings_json := "{ }"; keybindings_json := "[ ]" ]}
     ∅
     [ mkExtension "A" false; mkExtension "B" false; mkExtension "C" false;
       mkExtension "vscode.git" true ]
     None None ∅ [] [].

Definition with_readonly (ro : gset string) (s : t) : t :=
  mk (globalState s) (fs s) ro (all s) (excludeExtensions s)
     (confirmBeforeSync s) (rejecting s) (user s) (trace s).
Definition with_options (exclude : option (list string))
    (confirm : option bool) (s : t) : t :=
  mk (globalState s) (fs s) (readonly s) (all s) exclude confirm
     (rejecting s) (user s) (trace s).

(** Stand-ins for the JSON functions: text is kept as it is, and text
    that does not start like a JSON value does not parse. *)
Definition parse (text : string) : option string :=
  match text with
  | String "{" _ | String "[" _ => Some text
  | _ => None
  end.
Definition stringify (j : string) : string := j.

Definition remote_profile : IProfile (J := string) :=
  mkProfile "Work" (Obj "{ tabSize: 2 }") (Obj "[ ]") ["B"; "C"; "D"].
End SyncSamples.

Module StartupSamples.
Import SyncEverything Utils Startup SyncSamples.

Definition linux : Process :=
  mkProcess "linux" None None (Some "/home/dev") None "/home/dev".

(** Stand-ins for the path functions on a machine with forward slashes. *)
Definition join (dir file : string) : string := dir +:+ "/" +:+ file.
Definition fsPath (path : string) : string := path.
Definition user_data_dir : string := "/tmp/user-data-e2e/User".
Definition resolve_up_two (path : string) : string := user_data_dir.

(** A fresh installation started with its own user data directory: the
    configuration files exist there and in the default place, and no
    path has been stored yet. *)
Definition fresh : t :=
  mk ∅
     {[ user_data_dir +:+ "/settings.json" := "{ }";
        user_data_dir +:+ "/keybindings.json" := "[ ]";
        settings_json := "{ }"; keybindings_json := "[ ]" ]}
     ∅ [] None None ∅ [] [].

(** A machine on which nothing is where it is looked for. *)
Definition bare : t := mk ∅ ∅ ∅ [] None None ∅ [] [].
End StartupSamples.

Module ActivationSamples.
Import Activation.

(** Stand-in for the serialisation of the default profile. *)
Definition stringify_partial
    (p : SyncEverything.Partial_IProfile (J := string)) : string :=
  "{ Origin }".

(** A first activation: a service that has cached nothing, an account
    without a master record, a machine that has stored no master id. *)
Definition first_run : App :=
  mkApp (GistService.mkService None
           (GistService.mkStore
              [GistService.mkGist "a1f0" "dotfiles" ∅] None) [])
        SyncSamples.desk.
End ActivationSamples.

(** * Properties *)

(** ** Programs *)

Section Prog.
Context {St A B : Type}.
Implicit Types (m : Prog St A) (k : A → Prog St B).

Lemma bind_gets (f : St → A) k s : bind (gets f) k s = k (f s) s.
Proof. reflexivity. Qed.

Lemma bind_returned m k s a s' :
  m s = (Returned a, s') → bind m k s = k a s'.
Proof. intros H. unfold bind. by rewrite H. Qed.

Lemma bind_thrown m k s e s' :
  m s = (Thrown e, s') → bind m k s = (Thrown e, s').
Proof. intros H. unfold bind. by rewrite H. Qed.
End Prog.

(** ** The gist store *)

Module GistFacts.
Import GistService GistSamples.

Lemma trace_snoc3 (tr : list event) a b c :
  ((tr ++ [a]) ++ [b]) ++ [c] = tr ++ [a; b; c].
Proof. by rewrite <- !app_assoc. Qed.

(** The message a 404 gets, whatever the operation. *)
Lemma error_message_not_found operation :
  error_message not_found operation =
  "Resource not found during " +:+ operation +:+
  ". The gist may have been deleted.".
Proof. reflexivity. Qed.

(** With no cached id the collection is scanned, the first record with
    the description is returned and its id cached. *)
Lemma getMaster_scans_without_id s m :
  masterId s = None →
  fault (store s) = None →
  scan (gists (store s)) = Some m →
  getMaster s =
    (Returned (Some m),
     mkService (Some (id m)) (store s)
               (trace s ++ [Request GET baseUrl None])).
Proof.
  destruct s as [mi st tr]; simpl. intros -> Hf Hm.
  unfold getMaster, find_in_collection, getCollection, axios_get_collection.
  unfold bind, try_catch, gets, emit, modify, ret; simpl.
  rewrite Hf; simpl. by rewrite Hm.
Qed.

(** C1. With a cached id that the store no longer knows (the fetch by
    id answers 404) and a record with the description in the
    collection, [getMaster] does not fall back to the scan: [getGist]
    turns the 404 into a thrown [Error], which [getMaster] lets through;
    the collection is never requested and the cached id stays. *)
Theorem getMaster_stale_id_throws s mid m :
  masterId s = Some mid →
  mid ≠ EmptyString →
  fault (store s) = None →
  mid ∉ id <$> gists (store s) →
  scan (gists (store s)) = Some m →
  let message := "Resource not found during fetch gist " +:+ mid +:+
                 ". The gist may have been deleted." in
  getMaster s =
    (Thrown (Error message),
     mkService (Some mid) (store s)
       (trace s ++ [Request GET (baseUrl +:+ "/" +:+ mid) None;
                    LoggerDebugObject "GistService.getGist";
                    LoggerError message "GistService.getGist" true])).
Proof.
  destruct s as [mi st tr]; simpl. intros -> Hne Hf Hstale _.
  assert (list_find (has_id mid) (gists st) = None) as Hfind.
  { apply list_find_None, Forall_forall. intros g Hg Hid.
    apply Hstale, list_elem_of_fmap. by exists g. }
  unfold getMaster, getGist, axios_get_gist, handleGistError.
  unfold bind, try_catch, gets, emit, modify, ret, throw; simpl.
  rewrite bool_decide_eq_true_2 by done; simpl.
  rewrite Hf, Hfind; simpl.
  by rewrite trace_snoc3.
Qed.

Lemma getMaster_stale_id_throws_witness :
  getMaster (mkService (Some "c3d8") account []) =
    (Thrown (Error "Resource not found during fetch gist c3d8. The gist may have been deleted."),
     mkService (Some "c3d8") account
       [ Request GET "https://api.github.com/gists/c3d8" None;
         LoggerDebugObject "GistService.getGist";
         LoggerError "Resource not found during fetch gist c3d8. The gist may have been deleted."
                     "GistService.getGist" true ]).
Proof.
  apply (getMaster_stale_id_throws (mkService (Some "c3d8") account [])
           "c3d8"
           (mkGist "b2e9" "SyncEverything"
                   {[ "Origin.json" := "{}"; "Work.json" := "{ }" ]})).
  - reflexivity.
  - discriminate.
  - reflexivity.
  - apply (bool_decide_unpack _). vm_compute. exact I.
  - reflexivity.
Defined.

(** The files of a record after a [PATCH] that names one file with
    empty content. *)
Lemma patch_files_remove file current :
  patch_files {[ file := EmptyString ]} current = delete file current.
Proof.
  apply map_eq. intros k. unfold patch_files. rewrite lookup_merge.
  destruct (decide (k = file)) as [->|Hk].
  - rewrite lookup_singleton_eq, lookup_delete_eq. simpl.
    by destruct (current !! file).
  - rewrite lookup_singleton_ne, lookup_delete_ne by done.
    by destruct (current !! k).
Qed.

(** C8. When the cached id is the master record's and the store answers,
    [deleteProfile name] sends one [PATCH] of that record whose only
    file entry is [name.json] with empty content; afterwards the record
    has no [name.json], every other file of it is as before, and it
    keeps its id, description and place in the collection. *)
Theorem deleteProfile_removes_named_file_only s mid i g name :
  masterId s = Some mid →
  fault (store s) = None →
  list_find (has_id mid) (gists (store s)) = Some (i, g) →
  let file := name +:+ ".json" in
  let r := deleteProfile name s in
  r.1 = Returned tt ∧
  masterId r.2 = Some mid ∧
  trace r.2 = trace s ++ [Request PATCH (baseUrl +:+ "/" +:+ mid)
                                  (Some {[ file := EmptyString ]})] ∧
  ∃ g', gists (store r.2) = <[i := g']> (gists (store s)) ∧
        id g' = id g ∧ description g' = description g ∧
        files g' !! file = None ∧
        ∀ other, other ≠ file → files g' !! other = files g !! other.
Proof.
  destruct s as [mi st tr]; simpl. intros -> Hf Hfind.
  unfold deleteProfile, axios_patch_gist.
  unfold bind, try_catch, gets, emit, set_store, modify, ret, throw; simpl.
  rewrite Hf, Hfind; simpl.
  repeat split.
  exists (mkGist (id g) (description g)
                 (patch_files {[ name +:+ ".json" := EmptyString ]} (files g))).
  simpl. repeat split.
  - rewrite patch_files_remove. apply lookup_delete_eq.
  - intros other Hne. rewrite patch_files_remove.
    by apply lookup_delete_ne.
Qed.

Lemma deleteProfile_removes_named_file_only_witness :
  let r := deleteProfile "Work" (mkService (Some "b2e9") account []) in
  r.1 = Returned tt ∧
  (∃ g', gists (store r.2) = <[1%nat := g']> (gists account) ∧
         files g' !! "Work.json" = None ∧
         files g' !! "Origin.json" = Some "{}").
Proof.
  destruct (deleteProfile_removes_named_file_only
              (mkService (Some "b2e9") account []) "b2e9" 1%nat
              (mkGist "b2e9" "SyncEverything"
                      {[ "Origin.json" := "{}"; "Work.json" := "{ }" ]})
              "Work" eq_refl eq_refl eq_refl)
    as (Hr & _ & _ & g' & Hg & _ & _ & Hgone & Hrest).
  split; [exact Hr|].
  exists g'. split; [exact Hg|]. split; [exact Hgone|].
  rewrite (Hrest "Origin.json"); [reflexivity | discriminate].
Defined.

Section WithJSON.
Context {IProfile : Type}.
Variable profileName : IProfile → string.
Variable JSON_stringify : IProfile → string.

(** C3, as the code has it.  [createProfile] checks no precondition:
    with no master id it sends [PATCH {baseUrl}/undefined] carrying
    the profile's file, and what the caller gets is the store's
    answer: a rejection is classified by its status and thrown as the
    [Error] of that class, a 404 when the store is up and has no
    record of that id. *)
Theorem createProfile_without_master_id s profile :
  masterId s = None →
  let file := profileName profile +:+ ".json" in
  let operation := "update/create profile " +:+ profileName profile in
  let r := createProfile profileName JSON_stringify profile s in
  (∃ rest, trace r.2 =
             trace s ++
             Request PATCH (baseUrl +:+ "/undefined")
                     (Some {[ file := JSON_stringify profile ]}) :: rest) ∧
  (∀ e, fault (store s) = Some e →
        r.1 = Thrown (Error (error_message e operation))) ∧
  (fault (store s) = None → "undefined" ∉ id <$> gists (store s) →
   r.1 = Thrown (Error (error_message not_found operation))).
Proof.
  destruct s as [mi st tr]; simpl. intros ->.
  unfold createProfile, axios_patch_gist, handleGistError.
  unfold bind, try_catch, gets, emit, set_store, modify, ret, throw; simpl.
  split; [|split].
  - destruct (fault st); simpl.
    + rewrite <- !app_assoc. eauto.
    + destruct (list_find _ _) as [[j g]|]; simpl.
      * eauto.
      * rewrite <- !app_assoc. eauto.
  - by intros e ->.
  - intros -> Hno.
    assert (list_find (has_id "undefined") (gists st) = None) as ->; [|done].
    apply list_find_None, Forall_forall. intros g Hg Hid.
    apply Hno, list_elem_of_fmap. by exists g.
Qed.
End WithJSON.

(** C3, as stated, fails: with no master id a request is sent and the
    caller gets the store's 404. *)
Lemma createProfile_without_master_id_sends_request :
  let s := mkService None account [] in
  let r := createProfile (λ p : string, p) (λ _, "{}") "Work" s in
  masterId s = None ∧
  Request PATCH "https://api.github.com/gists/undefined"
          (Some {[ "Work.json" := "{}" ]}) ∈ trace r.2 ∧
  r.1 = Thrown (Error "Resource not found during update/create profile Work. The gist may have been deleted.").
Proof.
  split; [reflexivity|]. split; [|reflexivity].
  apply list_elem_of_here.
Qed.

Lemma createProfile_without_master_id_witness :
  let r := createProfile (λ p : string, p) (λ _, "{}") "Work"
                         (mkService None account []) in
  r.1 = Thrown (Error "Resource not found during update/create profile Work. The gist may have been deleted.").
Proof.
  apply (createProfile_without_master_id (λ p : string, p) (λ _, "{}")
           (mkService None account []) "Work" eq_refl).
  - reflexivity.
  - apply (bool_decide_unpack _). vm_compute. exact I.
Defined.

End GistFacts.

(** ** The local side *)

Module SyncFacts.
Import SyncEverything SyncSamples.

Ltac solve_appended :=
  unfold appended; simpl; rewrite <- ?app_assoc; simpl;
  repeat split; reflexivity.

Lemma appended_trans s1 s2 s3 evs1 evs2 :
  appended s1 s2 evs1 → appended s2 s3 evs2 →
  appended s1 s3 (evs1 ++ evs2).
Proof.
  intros (Ht1 & Hw1 & Hf1 & Hg1 & Hr1 & Hj1) (Ht2 & Hw2 & Hf2 & Hg2 & Hr2 & Hj2).
  repeat split; try congruence.
  - by rewrite Ht2, Ht1, app_assoc.
  - unfold writes in *. by rewrite omap_app, Hw1, Hw2.
Qed.

Lemma new_events_appended {A} (m : Prog t A) s evs :
  trace (m s).2 = trace s ++ evs → new_events m s = evs.
Proof. intros H. unfold new_events. rewrite H. apply drop_app_length. Qed.

Lemma commands_app l1 l2 : commands (l1 ++ l2) = commands l1 ++ commands l2.
Proof. apply omap_app. Qed.

(** One iteration issues its command once, whether it succeeds or not. *)
Lemma mutate_spec command verb done failed total i v s :
  ∃ v' s' evs,
    mutate command verb done failed total i v s = (Returned v', s') ∧
    appended s s' evs ∧ commands evs = [(command, Some i)].
Proof.
  unfold mutate, executeCommand, logger_info, logger_error.
  unfold bind, try_catch, gets, emit, modify, ret, throw; simpl.
  destruct (decide (i ∈ rejecting s)); simpl;
    [|destruct (decide (command = uninstallExtension)); simpl;
      [|destruct (decide (command = installExtension)); simpl]];
    eexists _, _, _; (split; [reflexivity|]); (split; [solve_appended|]);
    reflexivity.
Qed.

(** A loop issues its command once per element, in the order of the
    list. *)
Lemma for_of_mutate_spec command verb done failed total l : ∀ v s,
  ∃ v' s' evs,
    for_of l (mutate command verb done failed total) v s = (Returned v', s') ∧
    appended s s' evs ∧ commands evs = (λ i, (command, Some i)) <$> l.
Proof.
  induction l as [|i l IH]; intros v s; simpl.
  - exists v, s, []. unfold ret, appended. rewrite app_nil_r. done.
  - destruct (mutate_spec command verb done failed total i v s)
      as (v1 & s1 & evs1 & Hm & Ha1 & Hc1).
    destruct (IH v1 s1) as (v2 & s2 & evs2 & Hl & Ha2 & Hc2).
    exists v2, s2, (evs1 ++ evs2). unfold bind. rewrite Hm, Hl.
    split; [done|]. split; [by eapply appended_trans|].
    by rewrite commands_app, Hc1, Hc2.
Qed.

(** Once past the confirmation the batch runs to its end: it issues the
    uninstall commands for [toDelete], then the install commands for
    [toInstall], then at most the reload the user asked for. *)
Lemma execute_spec toInstall toDelete s :
  ∃ s' evs reload,
    execute toInstall toDelete s = (Returned tt, s') ∧
    appended s s' evs ∧
    commands evs = (uninstall <$> toDelete) ++ (install <$> toInstall) ++ reload ∧
    (reload = [] ∨ reload = [(reloadWindow, None)]).
Proof.
  unfold execute.
  destruct (for_of_mutate_spec uninstallExtension "Uninstalling" "Uninstalled"
              "uninstall" (length toInstall + length toDelete) toDelete
              (0%nat, false) s) as (v1 & s1 & evs1 & H1 & Ha1 & Hc1).
  destruct (for_of_mutate_spec installExtension "Installing" "Installed"
              "install" (length toInstall + length toDelete) toInstall
              v1 s1) as (v2 & s2 & evs2 & H2 & Ha2 & Hc2).
  pose proof (appended_trans _ _ _ _ _ Ha1 Ha2) as Ha.
  unfold bind at 1. rewrite H1. unfold bind at 1. rewrite H2.
  destruct v2 as [completed [|]]; simpl.
  - unfold showInformationMessage, next_reply, executeCommand.
    unfold bind, gets, emit, modify, ret; simpl.
    destruct (user s2) as [|reply rest]; simpl.
    + eexists _, _, []. split; [reflexivity|].
      split; [|split; [|by left]].
      * eapply appended_trans; [exact Ha|]. solve_appended.
      * rewrite !commands_app, Hc1, Hc2. simpl. by rewrite !app_nil_r.
    + destruct (decide (reply = Some "Reload")); simpl.
      * eexists _, _, [(reloadWindow, None)]. split; [reflexivity|].
        split; [|split; [|by right]].
        -- eapply appended_trans; [exact Ha|]. solve_appended.
        -- rewrite !commands_app, Hc1, Hc2. simpl. by rewrite <- app_assoc.
      * eexists _, _, []. split; [reflexivity|].
        split; [|split; [|by left]].
        -- eapply appended_trans; [exact Ha|]. solve_appended.
        -- rewrite !commands_app, Hc1, Hc2. simpl. by rewrite !app_nil_r.
  - exists s2, (evs1 ++ evs2), []. unfold ret. split; [done|].
    split; [done|]. split; [|by left].
    by rewrite commands_app, Hc1, Hc2, app_nil_r.
Qed.

(** *** The equations of [installExtensions] *)

Arguments execute : simpl never.

Lemma in_sync_test (I D : list string) :
  bool_decide (length I = 0%nat) && bool_decide (length D = 0%nat) = true
  ↔ I = [] ∧ D = [].
Proof.
  rewrite andb_true_iff, !bool_decide_eq_true.
  by rewrite !length_zero_iff_nil.
Qed.

Lemma installExtensions_in_sync R w :
  toInstall (getExtensions w) R = [] →
  toDelete (getExtensions w) R = [] →
  installExtensions R w =
    (Returned tt,
     with_trace (trace w ++ [ShowInformationMessage
                               "Extensions are already in sync" false []]) w).
Proof.
  intros HI HD. unfold installExtensions.
  unfold bind at 1, gets at 1. rewrite HI, HD. reflexivity.
Qed.

Lemma installExtensions_unconfirmed R w :
  ¬ (toInstall (getExtensions w) R = [] ∧ toDelete (getExtensions w) R = []) →
  default true (confirmBeforeSync w) = false →
  installExtensions R w =
    execute (toInstall (getExtensions w) R) (toDelete (getExtensions w) R) w.
Proof.
  intros Hne Hc. unfold installExtensions.
  unfold bind at 1, gets at 1.
  destruct (_ && _) eqn:Hsync; [by apply in_sync_test in Hsync|].
  unfold bind at 1, gets at 1. by rewrite Hc.
Qed.

Lemma installExtensions_confirmed R w :
  ¬ (toInstall (getExtensions w) R = [] ∧ toDelete (getExtensions w) R = []) →
  default true (confirmBeforeSync w) = true →
  let I := toInstall (getExtensions w) R in
  let D := toDelete (getExtensions w) R in
  let reply := default None (head (user w)) in
  let asked := with_user (tail (user w))
                 (with_trace (trace w ++ [prompt (getExtensions w) R]) w) in
  installExtensions R w =
    if decide (reply = Some "Show Details") then
      (Returned tt,
       with_trace (trace asked ++
                   [ShowInformationMessage (details I D) true []]) asked)
    else if decide (reply ≠ Some "Yes") then (Returned tt, asked)
    else execute I D asked.
Proof.
  intros Hne Hc. unfold installExtensions.
  unfold bind at 1, gets at 1.
  destruct (_ && _) eqn:Hsync; [by apply in_sync_test in Hsync|].
  unfold bind at 1, gets at 1. rewrite Hc.
  unfold showWarningMessage, next_reply.
  destruct w as [gs f ro a ex cf rj [|reply rest] tr];
    unfold bind, gets, emit, modify, ret; simpl;
    repeat case_decide; try done.
Qed.

(** *** The diff *)

Lemma elem_of_toInstall L R x : x ∈ toInstall L R ↔ x ∈ R ∧ x ∉ L.
Proof.
  unfold toInstall. rewrite list_elem_of_filter, elem_of_list_to_set. tauto.
Qed.

Lemma elem_of_toDelete L R x : x ∈ toDelete L R ↔ x ∈ L ∧ x ∉ R.
Proof.
  unfold toDelete. rewrite list_elem_of_filter, elem_of_list_to_set. tauto.
Qed.

Lemma nil_no_elem (l : list string) : (∀ x, x ∉ l) → l = [].
Proof.
  destruct l as [|x l]; [done|]. intros H. destruct (H x). left.
Qed.

(** C4. [toInstall] is, as a set, the remote list minus the local one,
    and [toDelete] the local list minus the remote one; the two never
    share an identifier.  [installExtensions] acts on these two lists:
    when both lists hold the same identifiers both are empty and the
    method only reports that the extensions are already in sync, issuing
    no command; when they differ, the prompt, if confirmation is asked
    for, is the one for these two lists, and a batch that goes on issues
    exactly the uninstall commands for [toDelete] and the install
    commands for [toInstall], and then at most the reload. *)
Theorem reconcile_is_set_difference (L R : list string) :
  let I := toInstall L R in
  let D := toDelete L R in
  (list_to_set I : gset string) = list_to_set R ∖ list_to_set L ∧
  (list_to_set D : gset string) = list_to_set L ∖ list_to_set R ∧
  (list_to_set I : gset string) ## list_to_set D ∧
  ((list_to_set L : gset string) = list_to_set R →
   I = [] ∧ D = [] ∧
   ∀ w, getExtensions w = L →
        installExtensions R w =
          (Returned tt,
           with_trace (trace w ++ [ShowInformationMessage
                                     "Extensions are already in sync"
                                     false []]) w) ∧
        commands (new_events (installExtensions R) w) = []) ∧
  ((list_to_set L : gset string) ≠ list_to_set R →
   ¬ (I = [] ∧ D = []) ∧
   ∀ w, getExtensions w = L →
        (default true (confirmBeforeSync w) = true →
         head (new_events (installExtensions R) w) =
           Some (ShowWarningMessage (confirm_message I D)
                                    ["Yes"; "Show Details"; "Cancel"])) ∧
        (confirmed w →
         ∃ reload,
           commands (new_events (installExtensions R) w) =
             (uninstall <$> D) ++ (install <$> I) ++ reload ∧
           (reload = [] ∨ reload = [(reloadWindow, None)]))).
Proof.
  simpl.
  assert ((∀ x, x ∈ L ↔ x ∈ R) ↔
          (list_to_set L : gset string) = list_to_set R) as Hsets.
  { split.
    - intros Hiff. apply set_eq. intros x. by rewrite !elem_of_list_to_set.
    - intros Heq x. by rewrite <- !(elem_of_list_to_set (C := gset string)), Heq. }
  split; [|split; [|split; [|split]]].
  - apply set_eq. intros x.
    rewrite elem_of_difference, !elem_of_list_to_set. apply elem_of_toInstall.
  - apply set_eq. intros x.
    rewrite elem_of_difference, !elem_of_list_to_set. apply elem_of_toDelete.
  - intros x. rewrite !elem_of_list_to_set.
    rewrite elem_of_toInstall, elem_of_toDelete. tauto.
  - intros Heq. pose proof (proj2 Hsets Heq) as Hiff.
    assert (toInstall L R = []) as HI.
    { apply nil_no_elem. intros x. rewrite elem_of_toInstall, Hiff. tauto. }
    assert (toDelete L R = []) as HD.
    { apply nil_no_elem. intros x. rewrite elem_of_toDelete, Hiff. tauto. }
    split; [done|]. split; [done|].
    intros w <-.
    pose proof (installExtensions_in_sync R w HI HD) as Hrun.
    split; [done|].
    erewrite new_events_appended; [|by rewrite Hrun]. reflexivity.
  - intros Hneq.
    assert (¬ (toInstall L R = [] ∧ toDelete L R = [])) as Hne.
    { intros [HI HD]. apply Hneq, (proj1 Hsets). intros x. split; intros Hx.
      - destruct (decide (x ∈ R)) as [|Hn]; [done|].
        assert (x ∈ toDelete L R) as Hd by (by apply elem_of_toDelete).
        rewrite HD in Hd. by apply elem_of_nil in Hd.
      - destruct (decide (x ∈ L)) as [|Hn]; [done|].
        assert (x ∈ toInstall L R) as Hi by (by apply elem_of_toInstall).
        rewrite HI in Hi. by apply elem_of_nil in Hi. }
    split; [done|]. intros w <-. split.
    + intros Hc.
      pose proof (installExtensions_confirmed R w Hne Hc) as Hrun.
      simpl in Hrun. repeat case_decide.
      * erewrite new_events_appended;
          [|by rewrite Hrun; simpl; rewrite <- app_assoc]. reflexivity.
      * erewrite new_events_appended; [|by rewrite Hrun]. reflexivity.
      * destruct (execute_spec (toInstall (getExtensions w) R)
                    (toDelete (getExtensions w) R)
                    (with_user (tail (user w))
                       (with_trace (trace w ++ [prompt (getExtensions w) R]) w)))
          as (s' & evs & reload & He & (Ht & _) & _).
        erewrite new_events_appended;
          [|by rewrite Hrun, He; simpl; rewrite Ht; simpl; rewrite <- app_assoc].
        reflexivity.
    + intros Hgo. unfold confirmed in Hgo.
      destruct (default true (confirmBeforeSync w)) eqn:Hc.
      * destruct Hgo as [?|Hyes]; [done|].
        pose proof (installExtensions_confirmed R w Hne Hc) as Hrun.
        simpl in Hrun. rewrite Hyes in Hrun.
        rewrite decide_False in Hrun by done.
        rewrite decide_False in Hrun by auto.
        destruct (execute_spec (toInstall (getExtensions w) R)
                    (toDelete (getExtensions w) R)
                    (with_user (tail (user w))
                       (with_trace (trace w ++ [prompt (getExtensions w) R]) w)))
          as (s' & evs & reload & He & (Ht & _) & Hcmds & Hreload).
        exists reload. split; [|done].
        erewrite new_events_appended;
          [|by rewrite Hrun, He; simpl; rewrite Ht; simpl; rewrite <- app_assoc].
        by rewrite commands_app.
      * destruct (execute_spec (toInstall (getExtensions w) R)
                    (toDelete (getExtensions w) R) w)
          as (s' & evs & reload & He & (Ht & _) & Hcmds & Hreload).
        exists reload. split; [|done].
        unfold new_events.
        rewrite (installExtensions_unconfirmed R w Hne Hc), He. simpl.
        by rewrite Ht, drop_app_length.
Qed.

Lemma reconcile_is_set_difference_witness :
  (toInstall ["A"; "B"; "C"] ["C"; "B"; "A"; "A"] = [] ∧
   toDelete ["A"; "B"; "C"] ["C"; "B"; "A"; "A"] = [] ∧
   commands (new_events (installExtensions ["C"; "B"; "A"; "A"]) desk) = []) ∧
  (toInstall ["A"; "B"; "C"] ["B"; "C"; "D"] = ["D"] ∧
   toDelete ["A"; "B"; "C"] ["B"; "C"; "D"] = ["A"] ∧
   ∃ reload,
     commands (new_events (installExtensions ["B"; "C"; "D"])
                          (with_user [Some "Yes"] desk)) =
       [uninstall "A"; install "D"] ++ reload).
Proof.
  split.
  - destruct (reconcile_is_set_difference ["A"; "B"; "C"] ["C"; "B"; "A"; "A"])
      as (_ & _ & _ & Hsync & _).
    destruct Hsync as (HI & HD & Hrun).
    + apply (bool_decide_unpack _). vm_compute. exact I.
    + split; [exact HI|]. split; [exact HD|].
      destruct (Hrun desk) as [_ Hc]; [reflexivity | exact Hc].
  - split; [reflexivity|]. split; [reflexivity|].
    destruct (reconcile_is_set_difference ["A"; "B"; "C"] ["B"; "C"; "D"])
      as (_ & _ & _ & _ & Hdiffer).
    destruct Hdiffer as (_ & Hrun).
    + apply (bool_decide_unpack _). vm_compute. exact I.
    + destruct (Hrun (with_user [Some "Yes"] desk)) as [_ Hgo]; [reflexivity|].
      destruct Hgo as (reload & Hc & _); [right; reflexivity|].
      exists reload. exact Hc.
Defined.

(** *** The batch *)

(** What a batch issues: nothing, or the uninstall commands for
    [toDelete], the install commands for [toInstall] and at most a
    reload, in that order. *)
Lemma installExtensions_commands R w :
  let I := toInstall (getExtensions w) R in
  let D := toDelete (getExtensions w) R in
  let cmds := commands (new_events (installExtensions R) w) in
  cmds = [] ∨
  ∃ reload, cmds = (uninstall <$> D) ++ (install <$> I) ++ reload ∧
            (reload = [] ∨ reload = [(reloadWindow, None)]).
Proof.
  simpl.
  destruct (decide (toInstall (getExtensions w) R = [] ∧
                    toDelete (getExtensions w) R = [])) as [[HI HD]|Hne].
  { left. erewrite new_events_appended;
      [|by rewrite (installExtensions_in_sync R w HI HD)]. reflexivity. }
  destruct (default true (confirmBeforeSync w)) eqn:Hc.
  - pose proof (installExtensions_confirmed R w Hne Hc) as Hrun. simpl in Hrun.
    repeat case_decide.
    + left. erewrite new_events_appended;
        [|by rewrite Hrun; simpl; rewrite <- app_assoc]. reflexivity.
    + left. erewrite new_events_appended; [|by rewrite Hrun]. reflexivity.
    + right.
      destruct (execute_spec (toInstall (getExtensions w) R)
                  (toDelete (getExtensions w) R)
                  (with_user (tail (user w))
                     (with_trace (trace w ++ [prompt (getExtensions w) R]) w)))
        as (s' & evs & reload & He & (Ht & _) & Hcmds & Hreload).
      exists reload. split; [|done].
      erewrite new_events_appended;
        [|by rewrite Hrun, He; simpl; rewrite Ht; simpl; rewrite <- app_assoc].
      by rewrite commands_app.
  - right.
    destruct (execute_spec (toInstall (getExtensions w) R)
                (toDelete (getExtensions w) R) w)
      as (s' & evs & reload & He & (Ht & _) & Hcmds & Hreload).
    exists reload. split; [|done].
    unfold new_events.
    rewrite (installExtensions_unconfirmed R w Hne Hc), He. simpl.
    by rewrite Ht, drop_app_length.
Qed.

(** The three commands differ. *)
Ltac clash H :=
  unfold install, uninstall, installExtension, uninstallExtension,
         reloadWindow in H;
  discriminate H.

(** C5. In the sequence of editor commands a batch issues, every
    uninstall call comes strictly before any install call, and by the
    time of an install call the uninstall calls for all of [toDelete]
    have been issued: they are the first commands of the batch. *)
Theorem uninstalls_before_installs w R i j a b :
  let D := toDelete (getExtensions w) R in
  let cmds := commands (new_events (installExtensions R) w) in
  cmds !! i = Some (install a) →
  cmds !! j = Some (uninstall b) →
  (j < i)%nat ∧ (length D ≤ i)%nat ∧
  take (length D) cmds = uninstall <$> D.
Proof.
  simpl. intros Hi Hj.
  destruct (installExtensions_commands R w) as [Hnil|(reload & Hcmds & Hreload)];
    simpl in *.
  { by rewrite Hnil in Hi. }
  rewrite Hcmds in Hi, Hj. rewrite Hcmds.
  set (D := toDelete (getExtensions w) R) in *.
  assert (length (uninstall <$> D) = length D) as Hlen by apply length_fmap.
  assert (length D ≤ i)%nat as HDi.
  { destruct (decide (i < length D)%nat) as [Hlt|]; [|lia].
    rewrite lookup_app_l in Hi by lia.
    apply list_lookup_fmap_Some in Hi as (x & Hx & _). clash Hx. }
  assert (j < length D)%nat as HjD.
  { destruct (decide (j < length D)%nat) as [|Hge]; [done|].
    rewrite lookup_app_r in Hj by lia.
    apply list_elem_of_lookup_2, elem_of_app in Hj as [Hj|Hj].
    - apply list_elem_of_fmap in Hj as (x & Hx & _). clash Hx.
    - destruct Hreload as [-> | ->].
      + by apply elem_of_nil in Hj.
      + apply list_elem_of_singleton in Hj. clash Hj. }
  split; [lia|]. split; [done|].
  by apply take_app_length'.
Qed.

Lemma uninstalls_before_installs_witness :
  let cmds := commands (new_events (installExtensions ["B"; "C"; "D"])
                                   (with_user [Some "Yes"] desk)) in
  cmds = [uninstall "A"; install "D"] ∧ (0 < 1)%nat ∧
  take 1 cmds = [uninstall "A"].
Proof.
  split; [reflexivity|].
  destruct (uninstalls_before_installs (with_user [Some "Yes"] desk)
              ["B"; "C"; "D"] 1%nat 0%nat "D" "A" eq_refl eq_refl)
    as (Hlt & _ & Htake).
  split; [exact Hlt | exact Htake].
Defined.

(** An excluded identifier is never in the local list. *)
Lemma excluded_not_local w x :
  x ∈ default [] (excludeExtensions w) → x ∉ getExtensions w.
Proof.
  intros Hx Hin. unfold getExtensions in Hin.
  apply list_elem_of_filter in Hin as [Hnot _]. by apply Hnot.
Qed.

(** Hence it is never scheduled for removal. *)
Lemma excluded_not_removed w R x :
  x ∈ default [] (excludeExtensions w) → x ∉ toDelete (getExtensions w) R.
Proof.
  intros Hx Hin. apply elem_of_toDelete in Hin as [Hin _].
  by apply (excluded_not_local w x).
Qed.

(** C6, where the code departs from it.  The exclusion list filters the
    local list only: an excluded identifier that the remote profile
    lists is in [toInstall], installed locally or not, and a batch that
    runs issues the install command for it. *)
Theorem excluded_remote_id_is_installed w R x :
  x ∈ default [] (excludeExtensions w) →
  x ∈ R →
  confirmBeforeSync w = Some false →
  x ∈ toInstall (getExtensions w) R ∧
  install x ∈ commands (new_events (installExtensions R) w).
Proof.
  intros Hx HR Hc.
  assert (x ∈ toInstall (getExtensions w) R) as HI.
  { apply elem_of_toInstall. split; [done|]. by apply excluded_not_local. }
  split; [done|].
  assert (¬ (toInstall (getExtensions w) R = [] ∧
             toDelete (getExtensions w) R = [])) as Hne.
  { intros [Hnil _]. rewrite Hnil in HI. by apply elem_of_nil in HI. }
  destruct (execute_spec (toInstall (getExtensions w) R)
              (toDelete (getExtensions w) R) w)
    as (s' & evs & reload & He & (Ht & _) & Hcmds & _).
  unfold new_events.
  rewrite (installExtensions_unconfirmed R w Hne) by by rewrite Hc.
  rewrite He. simpl. rewrite Ht, drop_app_length, Hcmds.
  apply elem_of_app. right. apply elem_of_app. left.
  by apply list_elem_of_fmap_2.
Qed.

Lemma excluded_remote_id_is_installed_witness :
  let w := with_options (Some ["B"]) (Some false) desk in
  "B" ∈ ext_id <$> all w ∧
  toInstall (getExtensions w) ["A"; "B"; "C"] = ["B"] ∧
  install "B" ∈ commands (new_events (installExtensions ["A"; "B"; "C"]) w).
Proof.
  split; [|split; [reflexivity|]].
  - apply (bool_decide_unpack _). vm_compute. exact I.
  - apply (excluded_remote_id_is_installed
             (with_options (Some ["B"]) (Some false) desk) ["A"; "B"; "C"] "B").
    + apply (bool_decide_unpack _). vm_compute. exact I.
    + apply (bool_decide_unpack _). vm_compute. exact I.
    + reflexivity.
Defined.

(** A declined prompt ends the batch: when confirmation is asked for
    and the reply is neither [Yes] nor [Show Details] (a [Cancel], or
    the prompt dismissed), the method returns with the prompt as its
    only event and the reply consumed. *)
Lemma installExtensions_declined w R :
  ¬ (toInstall (getExtensions w) R = [] ∧ toDelete (getExtensions w) R = []) →
  default true (confirmBeforeSync w) = true →
  default None (head (user w)) ≠ Some "Yes" →
  default None (head (user w)) ≠ Some "Show Details" →
  installExtensions R w =
    (Returned tt,
     with_user (tail (user w))
       (with_trace (trace w ++ [prompt (getExtensions w) R]) w)).
Proof.
  intros Hne Hc Hyes Hdetails.
  pose proof (installExtensions_confirmed R w Hne Hc) as Hrun. simpl in Hrun.
  rewrite decide_False in Hrun by done.
  by rewrite decide_True in Hrun by done.
Qed.

(** *** The itemised lists *)

Lemma string_append_empty (x : string) : x +:+ EmptyString = x.
Proof.
  induction x as [|c x IH]; [done|].
  change (String c (x +:+ EmptyString) = String c x). by rewrite IH.
Qed.

Lemma string_append_assoc (a b c : string) :
  (a +:+ b) +:+ c = a +:+ b +:+ c.
Proof.
  induction a as [|ch a IH]; [done|].
  change (String ch ((a +:+ b) +:+ c) = String ch (a +:+ b +:+ c)).
  by rewrite IH.
Qed.

Lemma occurs_refl x : occurs x x.
Proof. exists EmptyString, EmptyString. by rewrite string_append_empty. Qed.

Lemma occurs_app_l x a b : occurs x a → occurs x (a +:+ b).
Proof.
  intros (pre & post & ->). exists pre, (post +:+ b).
  by rewrite !string_append_assoc.
Qed.

Lemma occurs_app_r x a b : occurs x b → occurs x (a +:+ b).
Proof.
  intros (pre & post & ->). exists (a +:+ pre), post.
  by rewrite string_append_assoc.
Qed.

(** Every element of a joined list is part of the result. *)
Lemma join_occurs sep l x : x ∈ l → occurs x (join sep l).
Proof.
  induction l as [|y rest IH]; [by intros ?%elem_of_nil|].
  destruct rest as [|z rest].
  - intros ->%list_elem_of_singleton. apply occurs_refl.
  - change (join sep (y :: z :: rest))
      with (y +:+ sep +:+ join sep (z :: rest)).
    intros [->|Hin]%elem_of_cons.
    + apply occurs_app_l, occurs_refl.
    + apply occurs_app_r, occurs_app_r, IH, Hin.
Qed.

(** The text of the details, by which of the two lists are empty. *)
Lemma details_both I D :
  I ≠ [] → D ≠ [] →
  details I D =
    ("To Install:" +:+ nl +:+ join nl I) +:+ (nl +:+ nl) +:+
    ("To Remove:" +:+ nl +:+ join nl D).
Proof.
  intros HI HD. destruct I as [|i I]; [done|]. destruct D as [|d D]; [done|].
  unfold details.
  rewrite !bool_decide_eq_true_2 by (simpl; lia).
  rewrite filter_cons_True by (intros H; discriminate H).
  rewrite filter_cons_True by (intros H; discriminate H).
  reflexivity.
Qed.

Lemma details_install_only I :
  I ≠ [] → details I [] = "To Install:" +:+ nl +:+ join nl I.
Proof.
  intros HI. destruct I as [|i I]; [done|].
  unfold details.
  rewrite bool_decide_eq_true_2 by (simpl; lia).
  rewrite bool_decide_eq_false_2 by (simpl; lia).
  rewrite filter_cons_True by (intros H; discriminate H).
  rewrite filter_cons_False by (intros H; by apply H).
  reflexivity.
Qed.

Lemma details_remove_only D :
  D ≠ [] → details [] D = "To Remove:" +:+ nl +:+ join nl D.
Proof.
  intros HD. destruct D as [|d D]; [done|].
  unfold details.
  rewrite bool_decide_eq_false_2 by (simpl; lia).
  rewrite bool_decide_eq_true_2 by (simpl; lia).
  rewrite filter_cons_False by (intros H; by apply H).
  rewrite filter_cons_True by (intros H; discriminate H).
  reflexivity.
Qed.

(** Every identifier of either list is part of the text. *)
Lemma details_itemises I D x : x ∈ I ++ D → occurs x (details I D).
Proof.
  intros Hin.
  assert (I ≠ [] → x ∈ I → occurs x ("To Install:" +:+ nl +:+ join nl I))
    as Hinstall.
  { intros _ Hx. by apply occurs_app_r, occurs_app_r, join_occurs. }
  assert (D ≠ [] → x ∈ D → occurs x ("To Remove:" +:+ nl +:+ join nl D))
    as Hremove.
  { intros _ Hx. by apply occurs_app_r, occurs_app_r, join_occurs. }
  destruct (decide (I = [])) as [->|HI]; destruct (decide (D = [])) as [->|HD].
  - by apply elem_of_nil in Hin.
  - rewrite details_remove_only by done. by apply Hremove.
  - rewrite details_install_only by done. rewrite app_nil_r in Hin.
    by apply Hinstall.
  - rewrite details_both by done.
    apply elem_of_app in Hin as [Hx|Hx].
    + by apply occurs_app_l, Hinstall.
    + by apply occurs_app_r, occurs_app_r, Hremove.
Qed.

(** C10. When a batch asks for confirmation and the reply is
    [Show Details], the itemised lists are shown and the method returns:
    the trace is the prompt and the details, no command is issued and
    the installed extensions are what they were.  Nothing leads from the
    details back to the prompt or on to the commands.  The text shown
    is the identifiers to install, one a line under [To Install:], and
    after an empty line those to remove under [To Remove:], a heading
    with an empty list left out; every identifier that is on one side
    only is part of it. *)
Theorem show_details_abandons_batch w R :
  let I := toInstall (getExtensions w) R in
  let D := toDelete (getExtensions w) R in
  let r := installExtensions R w in
  ¬ (I = [] ∧ D = []) →
  default true (confirmBeforeSync w) = true →
  default None (head (user w)) = Some "Show Details" →
  r.1 = Returned tt ∧
  new_events (installExtensions R) w =
    [prompt (getExtensions w) R;
     ShowInformationMessage (details I D) true []] ∧
  commands (new_events (installExtensions R) w) = [] ∧
  all r.2 = all w ∧ fs r.2 = fs w ∧ user r.2 = tail (user w) ∧
  (I ≠ [] → D ≠ [] →
   details I D =
     ("To Install:" +:+ nl +:+ join nl I) +:+ (nl +:+ nl) +:+
     ("To Remove:" +:+ nl +:+ join nl D)) ∧
  (I ≠ [] → D = [] → details I D = "To Install:" +:+ nl +:+ join nl I) ∧
  (I = [] → D ≠ [] → details I D = "To Remove:" +:+ nl +:+ join nl D) ∧
  (∀ x, (x ∈ R ∧ x ∉ getExtensions w) ∨ (x ∈ getExtensions w ∧ x ∉ R) →
        occurs x (details I D)).
Proof.
  simpl. intros Hne Hc Hreply.
  pose proof (installExtensions_confirmed R w Hne Hc) as Hrun. simpl in Hrun.
  rewrite decide_True in Hrun by done.
  assert (new_events (installExtensions R) w =
          [prompt (getExtensions w) R;
           ShowInformationMessage
             (details (toInstall (getExtensions w) R)
                      (toDelete (getExtensions w) R)) true []]) as Hnew.
  { apply new_events_appended. rewrite Hrun. simpl. by rewrite <- app_assoc. }
  rewrite Hnew, Hrun.
  split; [done|]. split; [done|]. split; [done|]. split; [done|].
  split; [done|]. split; [done|].
  split; [apply details_both|].
  split; [intros HI ->; by apply details_install_only|].
  split; [intros -> HD; by apply details_remove_only|].
  intros x Hx. apply details_itemises, elem_of_app.
  rewrite elem_of_toInstall, elem_of_toDelete. exact Hx.
Qed.

Lemma show_details_abandons_batch_witness :
  let w := with_user [Some "Show Details"; Some "Yes"] desk in
  let r := installExtensions ["B"; "C"; "D"] w in
  r.1 = Returned tt ∧
  new_events (installExtensions ["B"; "C"; "D"]) w =
    [ShowWarningMessage (confirm_message ["D"] ["A"])
                        ["Yes"; "Show Details"; "Cancel"];
     ShowInformationMessage
       ("To Install:" +:+ nl +:+ "D" +:+ nl +:+ nl +:+
        "To Remove:" +:+ nl +:+ "A") true []] ∧
  commands (new_events (installExtensions ["B"; "C"; "D"]) w) = [] ∧
  all r.2 = all w ∧ user r.2 = [Some "Yes"] ∧
  occurs "D" (details ["D"] ["A"]) ∧ occurs "A" (details ["D"] ["A"]).
Proof.
  destruct (show_details_abandons_batch
              (with_user [Some "Show Details"; Some "Yes"] desk)
              ["B"; "C"; "D"])
    as (Hr & Hnew & Hcmds & Hall & _ & Huser & _ & _ & _ & Hitems).
  - vm_compute. intros [H _]. discriminate H.
  - reflexivity.
  - reflexivity.
  - split; [exact Hr|]. split; [exact Hnew|]. split; [exact Hcmds|].
    split; [exact Hall|]. split; [exact Huser|]. split.
    + apply (Hitems "D"). left. split.
      * apply (bool_decide_unpack _). vm_compute. exact I.
      * apply (bool_decide_unpack _). vm_compute. exact I.
    + apply (Hitems "A"). right. split.
      * apply (bool_decide_unpack _). vm_compute. exact I.
      * apply (bool_decide_unpack _). vm_compute. exact I.
Defined.

(** *** The configuration files *)

Section WithJSON.
Context {J : Type}.
Variable JSON5_parse : string → option J.
Variable JSON_stringify : J → string.

(** A read returns what the file holds; when it holds nothing the
    failure is logged, shown to the user, and [undefined] returned. *)
Lemma readConfigFile_spec f s :
  readConfigFile JSON5_parse f s =
    match on_disk JSON5_parse f s with
    | Some v => (Returned (Some v), s)
    | None =>
        (Returned None,
         with_trace
           (trace s ++
            [LoggerError
               ("Failed to read " +:+ name f +:+ " file: " +:+
                interpolate (globalState s !! (name f +:+ "Path")))
               "SyncEverything.readConfigFile" true]) s)
    end.
Proof.
  unfold readConfigFile, on_disk, readFile, logger_error.
  unfold bind, try_catch, gets, emit, modify, ret, throw; simpl.
  destruct (globalState s !! (name f +:+ "Path")) as [path|]; simpl; [|done].
  destruct (fs s !! path) as [text|]; simpl; [|done].
  by destruct (JSON5_parse text).
Qed.

Lemma on_disk_with_trace f tr s :
  on_disk JSON5_parse f (with_trace tr s) = on_disk JSON5_parse f s.
Proof. reflexivity. Qed.

(** C9. When the settings file cannot be read (its path is not set,
    the file is missing or its text does not parse) and the
    keybindings file can, [getActiveProfile] returns: the profile has
    the keybindings and the extensions and no settings, and the
    failed read is logged and shown to the user. *)
Theorem getActiveProfile_without_settings w kb :
  on_disk JSON5_parse Settings w = None →
  on_disk JSON5_parse Keybindings w = Some kb →
  getActiveProfile JSON5_parse w =
    (Returned (mkPartial None None (Some (getExtensions w)) (Some kb)),
     with_trace
       (trace w ++
        [LoggerError
           ("Failed to read settings file: " +:+
            interpolate (globalState w !! "settingsPath"))
           "SyncEverything.readConfigFile" true]) w).
Proof.
  intros Hs Hk. unfold getActiveProfile.
  unfold bind at 1. rewrite readConfigFile_spec, Hs.
  unfold bind at 1. rewrite readConfigFile_spec, on_disk_with_trace, Hk.
  reflexivity.
Qed.

Lemma writeConfigFile_readonly path data s :
  path ∈ readonly s →
  writeConfigFile JSON_stringify (Some path) data s =
    (Thrown (FileSystemError ("Unable to write file " +:+ path)),
     with_trace
       (trace s ++
        [WriteFile path (content_of JSON_stringify data);
         LoggerError ("Failed to write settings file: " +:+ path)
                     "SyncEverything.writeConfigFile" true]) s).
Proof.
  intros Hro. unfold writeConfigFile, writeFile, logger_error, logger_info.
  unfold bind, try_catch, gets, emit, modify, ret, throw; simpl.
  rewrite decide_True by done. simpl. by rewrite <- app_assoc.
Qed.

Lemma writeConfigFile_writable path data s :
  path ∉ readonly s →
  writeConfigFile JSON_stringify (Some path) data s =
    (Returned tt,
     with_trace
       (trace s ++
        [WriteFile path (content_of JSON_stringify data);
         LoggerInfo ("Configuration file updated: " +:+ path)])
       (with_fs (<[path := content_of JSON_stringify data]> (fs s)) s)).
Proof.
  intros Hro. unfold writeConfigFile, writeFile, logger_error, logger_info.
  unfold bind, try_catch, gets, emit, modify, ret, throw; simpl.
  rewrite decide_False by done. simpl. by rewrite <- app_assoc.
Qed.

(** C2, as the code has it.  The three steps run in order and the first
    failure ends the method: a write that fails is logged with the path
    of the file and thrown on to the caller.  The keybindings file is
    written only once the settings file has been, and the extensions
    are reconciled only once both have been. *)
Theorem updateLocalProfile_stops_at_first_failure w profile sp kp :
  globalState w !! "settingsPath" = Some sp →
  globalState w !! "keybindingsPath" = Some kp →
  let c1 := content_of JSON_stringify (settings profile) in
  let c2 := content_of JSON_stringify (keybindings profile) in
  let r := updateLocalProfile JSON_stringify profile w in
  (sp ∈ readonly w →
   r = (Thrown (FileSystemError ("Unable to write file " +:+ sp)),
        with_trace
          (trace w ++
           [WriteFile sp c1;
            LoggerError ("Failed to write settings file: " +:+ sp)
                        "SyncEverything.writeConfigFile" true]) w)) ∧
  (sp ∉ readonly w → kp ∈ readonly w →
   r = (Thrown (FileSystemError ("Unable to write file " +:+ kp)),
        with_trace
          (trace w ++
           [WriteFile sp c1;
            LoggerInfo ("Configuration file updated: " +:+ sp);
            WriteFile kp c2;
            LoggerError ("Failed to write settings file: " +:+ kp)
                        "SyncEverything.writeConfigFile" true])
          (with_fs (<[sp := c1]> (fs w)) w))) ∧
  (sp ∉ readonly w → kp ∉ readonly w →
   r = installExtensions (extensions profile)
         (with_trace
            (trace w ++
             [WriteFile sp c1;
              LoggerInfo ("Configuration file updated: " +:+ sp);
              WriteFile kp c2;
              LoggerInfo ("Configuration file updated: " +:+ kp)])
            (with_fs (<[kp := c2]> (<[sp := c1]> (fs w))) w))).
Proof.
  intros Hsp Hkp. simpl. unfold updateLocalProfile.
  rewrite bind_gets, Hsp.
  split; [|split].
  - intros Hro.
    erewrite bind_thrown; [done|]. by apply writeConfigFile_readonly.
  - intros Hs Hk.
    erewrite bind_returned; [|by apply writeConfigFile_writable].
    rewrite bind_gets. simpl globalState. rewrite Hkp.
    erewrite bind_thrown; [|by apply writeConfigFile_readonly].
    simpl. by rewrite <- app_assoc.
  - intros Hs Hk.
    erewrite bind_returned; [|by apply writeConfigFile_writable].
    rewrite bind_gets. simpl globalState. rewrite Hkp.
    erewrite bind_returned; [|by apply writeConfigFile_writable].
    simpl. by rewrite <- app_assoc.
Qed.

(** With both paths stored and both files writable the batch starts
    from the state the two writes leave. *)
Lemma updateLocalProfile_reaches_batch w profile sp kp :
  globalState w !! "settingsPath" = Some sp →
  globalState w !! "keybindingsPath" = Some kp →
  sp ∉ readonly w → kp ∉ readonly w →
  let c1 := content_of JSON_stringify (settings profile) in
  let c2 := content_of JSON_stringify (keybindings profile) in
  updateLocalProfile JSON_stringify profile w =
    installExtensions (extensions profile)
      (with_trace
         (trace w ++
          [WriteFile sp c1;
           LoggerInfo ("Configuration file updated: " +:+ sp);
           WriteFile kp c2;
           LoggerInfo ("Configuration file updated: " +:+ kp)])
         (with_fs (<[kp := c2]> (<[sp := c1]> (fs w))) w)).
Proof.
  intros Hsp Hkp Hs Hk. simpl. unfold updateLocalProfile.
  rewrite bind_gets, Hsp.
  erewrite bind_returned; [|by apply writeConfigFile_writable].
  rewrite bind_gets. simpl globalState. rewrite Hkp.
  erewrite bind_returned; [|by apply writeConfigFile_writable].
  simpl. by rewrite <- app_assoc.
Qed.

(** C7, as the code has it.  The prompt is the last of the three steps
    of [updateLocalProfile]: when it is shown both configuration files
    have been written.  Declining it (a reply that is neither [Yes] nor
    [Show Details]) ends the method with no install and no uninstall
    command and the installed extensions as they were, but the two
    files keep the profile's content: nothing is rolled back. *)
Theorem declined_prompt_keeps_written_files w profile sp kp :
  let R := extensions profile in
  let c1 := content_of JSON_stringify (settings profile) in
  let c2 := content_of JSON_stringify (keybindings profile) in
  let reply := default None (head (user w)) in
  let r := updateLocalProfile JSON_stringify profile w in
  globalState w !! "settingsPath" = Some sp →
  globalState w !! "keybindingsPath" = Some kp →
  sp ∉ readonly w → kp ∉ readonly w →
  ¬ (toInstall (getExtensions w) R = [] ∧ toDelete (getExtensions w) R = []) →
  default true (confirmBeforeSync w) = true →
  reply ≠ Some "Yes" →
  reply ≠ Some "Show Details" →
  r.1 = Returned tt ∧
  new_events (updateLocalProfile JSON_stringify profile) w =
    [WriteFile sp c1;
     LoggerInfo ("Configuration file updated: " +:+ sp);
     WriteFile kp c2;
     LoggerInfo ("Configuration file updated: " +:+ kp);
     prompt (getExtensions w) R] ∧
  commands (new_events (updateLocalProfile JSON_stringify profile) w) = [] ∧
  all r.2 = all w ∧
  fs r.2 = <[kp := c2]> (<[sp := c1]> (fs w)) ∧
  fs r.2 !! kp = Some c2 ∧
  (sp ≠ kp → fs r.2 !! sp = Some c1).
Proof.
  simpl. intros Hsp Hkp Hs Hk Hne Hc Hyes Hdetails.
  pose proof (updateLocalProfile_reaches_batch w profile sp kp Hsp Hkp Hs Hk)
    as Hrun. simpl in Hrun.
  rewrite installExtensions_declined in Hrun by done.
  assert (new_events (updateLocalProfile JSON_stringify profile) w =
          [WriteFile sp (content_of JSON_stringify (settings profile));
           LoggerInfo ("Configuration file updated: " +:+ sp);
           WriteFile kp (content_of JSON_stringify (keybindings profile));
           LoggerInfo ("Configuration file updated: " +:+ kp);
           prompt (getExtensions w) (extensions profile)]) as Hnew.
  { apply new_events_appended. rewrite Hrun. simpl. by rewrite <- app_assoc. }
  rewrite Hnew, Hrun. simpl.
  split; [done|]. split; [done|]. split; [done|]. split; [done|].
  split; [done|]. split.
  - by rewrite lookup_insert_eq.
  - intros Hdiff. rewrite lookup_insert_ne by done. by rewrite lookup_insert_eq.
Qed.
End WithJSON.

Lemma getActiveProfile_without_settings_witness :
  let w := with_fs {[ keybindings_json := "[ ]" ]} desk in
  getActiveProfile parse w =
    (Returned (mkPartial None None (Some ["A"; "B"; "C"]) (Some "[ ]")),
     with_trace
       [LoggerError
          "Failed to read settings file: /home/dev/.config/Code/User/settings.json"
          "SyncEverything.readConfigFile" true] w).
Proof.
  apply (getActiveProfile_without_settings parse
           (with_fs {[ keybindings_json := "[ ]" ]} desk) "[ ]").
  - reflexivity.
  - reflexivity.
Defined.

(** C2, as stated, fails: when the settings file cannot be written the
    method throws after that one attempt; the keybindings file is not
    written and the extensions are not looked at. *)
Lemma failed_settings_write_ends_updateLocalProfile :
  let w := with_readonly {[ settings_json ]} desk in
  let r := updateLocalProfile stringify remote_profile w in
  r.1 = Thrown (FileSystemError
                  "Unable to write file /home/dev/.config/Code/User/settings.json") ∧
  trace r.2 =
    [WriteFile settings_json "{ tabSize: 2 }";
     LoggerError
       "Failed to write settings file: /home/dev/.config/Code/User/settings.json"
       "SyncEverything.writeConfigFile" true] ∧
  ¬ (∃ content, WriteFile keybindings_json content ∈ trace r.2) ∧
  fs r.2 !! keybindings_json = Some "[ ]" ∧
  toDelete (getExtensions w) (extensions remote_profile) = ["A"].
Proof.
  assert (trace (updateLocalProfile stringify remote_profile
                   (with_readonly {[ settings_json ]} desk)).2 =
          [WriteFile settings_json "{ tabSize: 2 }";
           LoggerError
             "Failed to write settings file: /home/dev/.config/Code/User/settings.json"
             "SyncEverything.writeConfigFile" true]) as Htrace.
  { vm_compute. reflexivity. }
  simpl. split; [vm_compute; reflexivity|]. split; [exact Htrace|].
  split; [|split; vm_compute; reflexivity].
  intros [content Hin]. rewrite Htrace in Hin.
  apply elem_of_cons in Hin as [Hin|Hin]; [discriminate Hin|].
  apply list_elem_of_singleton in Hin. discriminate Hin.
Qed.

(** C7, as stated, fails: with confirmation asked for and the prompt
    answered [Cancel], no command is issued, yet the settings file no
    longer holds what it held: it was overwritten before the prompt. *)
Lemma declined_prompt_leaves_settings_overwritten :
  let w := with_user [Some "Cancel"] desk in
  let r := updateLocalProfile stringify remote_profile w in
  default true (confirmBeforeSync w) = true ∧
  r.1 = Returned tt ∧
  trace r.2 =
    [WriteFile settings_json "{ tabSize: 2 }";
     LoggerInfo
       "Configuration file updated: /home/dev/.config/Code/User/settings.json";
     WriteFile keybindings_json "[ ]";
     LoggerInfo
       "Configuration file updated: /home/dev/.config/Code/User/keybindings.json";
     ShowWarningMessage (confirm_message ["D"] ["A"])
                        ["Yes"; "Show Details"; "Cancel"]] ∧
  commands (trace r.2) = [] ∧
  fs w !! settings_json = Some "{ }" ∧
  fs r.2 !! settings_json = Some "{ tabSize: 2 }".
Proof.
  simpl. repeat split; vm_compute; reflexivity.
Qed.

Lemma declined_prompt_keeps_written_files_witness :
  let w := with_user [Some "Cancel"] desk in
  let r := updateLocalProfile stringify remote_profile w in
  r.1 = Returned tt ∧
  commands (new_events (updateLocalProfile stringify remote_profile) w) = [] ∧
  all r.2 = all w ∧
  fs r.2 !! settings_json = Some "{ tabSize: 2 }".
Proof.
  destruct (declined_prompt_keeps_written_files stringify
              (with_user [Some "Cancel"] desk) remote_profile
              settings_json keybindings_json)
    as (Hr & _ & Hcmds & Hall & _ & _ & Hsettings).
  - reflexivity.
  - reflexivity.
  - apply (bool_decide_unpack _). vm_compute. exact I.
  - apply (bool_decide_unpack _). vm_compute. exact I.
  - vm_compute. intros [H _]. discriminate H.
  - reflexivity.
  - vm_compute. discriminate.
  - vm_compute. discriminate.
  - split; [exact Hr|]. split; [exact Hcmds|]. split; [exact Hall|].
    apply Hsettings. vm_compute. discriminate.
Defined.

Lemma updateLocalProfile_stops_at_first_failure_witness :
  let w := with_readonly {[ keybindings_json ]} desk in
  let r := updateLocalProfile stringify remote_profile w in
  r.1 = Thrown (FileSystemError
                  "Unable to write file /home/dev/.config/Code/User/keybindings.json") ∧
  commands (new_events (updateLocalProfile stringify remote_profile) w) = [].
Proof.
  destruct (updateLocalProfile_stops_at_first_failure stringify
              (with_readonly {[ keybindings_json ]} desk) remote_profile
              settings_json keybindings_json eq_refl eq_refl)
    as (_ & Hkb & _).
  simpl. rewrite Hkb.
  - split; reflexivity.
  - apply (bool_decide_unpack _). vm_compute. exact I.
  - apply (bool_decide_unpack _). vm_compute. exact I.
Defined.

End SyncFacts.

(** ** More of the gist store *)

Module GistMore.
Import GistService GistSamples.

Lemma getMaster_nothing s :
  truthy (masterId s) = false →
  fault (store s) = None →
  scan (gists (store s)) = None →
  getMaster s =
    (Returned None,
     mkService (masterId s) (store s) (trace s ++ [Request GET baseUrl None])).
Proof.
  destruct s as [mi st tr]; simpl. intros Hid Hf Hm.
  unfold getMaster, find_in_collection, getCollection, axios_get_collection.
  rewrite bind_gets. simpl. rewrite Hid.
  unfold bind, try_catch, gets, emit, modify, ret; simpl.
  rewrite Hf; simpl. by rewrite Hm.
Qed.

(** With no cached id and no record of the description in the collection
    [getMaster] returns [undefined] after the one collection request, and
    caches nothing. *)
Theorem getMaster_finds_nothing s :
  truthy (masterId s) = false →
  fault (store s) = None →
  scan (gists (store s)) = None →
  getMaster s =
    (Returned None,
     mkService (masterId s) (store s) (trace s ++ [Request GET baseUrl None])).
Proof.
  destruct s as [mi st tr]; simpl. intros Hid Hf Hm.
  unfold getMaster, find_in_collection, getCollection, axios_get_collection.
  rewrite bind_gets. simpl. rewrite Hid.
  unfold bind, try_catch, gets, emit, modify, ret; simpl.
  rewrite Hf; simpl. by rewrite Hm.
Qed.

Lemma getMaster_finds_nothing_witness :
  getMaster (mkService (Some EmptyString)
               (mkStore [mkGist "a1f0" "dotfiles" ∅] None) []) =
    (Returned None,
     mkService (Some EmptyString) (mkStore [mkGist "a1f0" "dotfiles" ∅] None)
               [Request GET "https://api.github.com/gists" None]).
Proof.
  apply (getMaster_finds_nothing
           (mkService (Some EmptyString)
              (mkStore [mkGist "a1f0" "dotfiles" ∅] None) [])); reflexivity.
Defined.

Lemma getMaster_by_id s mid i g :
  masterId s = Some mid →
  mid ≠ EmptyString →
  fault (store s) = None →
  list_find (has_id mid) (gists (store s)) = Some (i, g) →
  getMaster s =
    (Returned (Some g),
     mkService (Some mid) (store s)
               (trace s ++ [Request GET (baseUrl +:+ "/" +:+ mid) None])).
Proof.
  destruct s as [mi st tr]; simpl. intros -> Hne Hf Hfind.
  unfold getMaster, getGist, axios_get_gist.
  unfold bind, try_catch, gets, emit, modify, ret, throw; simpl.
  rewrite bool_decide_eq_true_2 by done; simpl.
  by rewrite Hf, Hfind.
Qed.

(** With a cached id the store knows, [getMaster] returns the record of
    that id after the one request by id: the collection is not requested
    and the record's description is not looked at. *)
Theorem getMaster_trusts_cached_id s mid i g :
  masterId s = Some mid →
  mid ≠ EmptyString →
  fault (store s) = None →
  list_find (has_id mid) (gists (store s)) = Some (i, g) →
  getMaster s =
    (Returned (Some g),
     mkService (Some mid) (store s)
               (trace s ++ [Request GET (baseUrl +:+ "/" +:+ mid) None])).
Proof.
  destruct s as [mi st tr]; simpl. intros -> Hne Hf Hfind.
  unfold getMaster, getGist, axios_get_gist.
  unfold bind, try_catch, gets, emit, modify, ret, throw; simpl.
  rewrite bool_decide_eq_true_2 by done; simpl.
  by rewrite Hf, Hfind.
Qed.

Lemma getMaster_trusts_cached_id_witness :
  getMaster (mkService (Some "a1f0") account []) =
    (Returned (Some (mkGist "a1f0" "dotfiles" {[ "vimrc" := "set nu" ]})),
     mkService (Some "a1f0") account
               [Request GET "https://api.github.com/gists/a1f0" None]).
Proof.
  apply (getMaster_trusts_cached_id (mkService (Some "a1f0") account [])
           "a1f0" 0%nat).
  - reflexivity.
  - discriminate.
  - reflexivity.
  - reflexivity.
Defined.

(** Two calls in a row: the first finds the master record by the scan and
    caches its id, the second fetches it by that id and returns the same
    record. *)
Theorem getMaster_twice s m i :
  masterId s = None →
  fault (store s) = None →
  scan (gists (store s)) = Some m →
  id m ≠ EmptyString →
  list_find (has_id (id m)) (gists (store s)) = Some (i, m) →
  bind getMaster (λ _, getMaster) s =
    (Returned (Some m),
     mkService (Some (id m)) (store s)
       (trace s ++ [Request GET baseUrl None;
                    Request GET (baseUrl +:+ "/" +:+ id m) None])).
Proof.
  intros Hid Hf Hm Hne Hfind.
  erewrite bind_returned;
    [|by apply GistFacts.getMaster_scans_without_id].
  rewrite (getMaster_by_id _ (id m) i m); simpl; try done.
  by rewrite <- app_assoc.
Qed.

Lemma getMaster_twice_witness :
  (bind getMaster (λ _, getMaster) (mkService None account [])).1 =
    Returned (Some (mkGist "b2e9" "SyncEverything"
                      {[ "Origin.json" := "{}"; "Work.json" := "{ }" ]})).
Proof.
  rewrite (getMaster_twice (mkService None account [])
             (mkGist "b2e9" "SyncEverything"
                     {[ "Origin.json" := "{}"; "Work.json" := "{ }" ]}) 1%nat).
  - reflexivity.
  - reflexivity.
  - reflexivity.
  - reflexivity.
  - discriminate.
  - reflexivity.
Defined.

(** With no cached id [getMaster] asks for the collection once, returns
    the first record whose description is the service's, and caches that
    record's id. *)
Theorem getMaster_scans_and_caches s m :
  masterId s = None →
  fault (store s) = None →
  scan (gists (store s)) = Some m →
  getMaster s =
    (Returned (Some m),
     mkService (Some (id m)) (store s)
               (trace s ++ [Request GET baseUrl None])).
Proof.
  destruct s as [mi st tr]; simpl. intros -> Hf Hm.
  unfold getMaster, find_in_collection, getCollection, axios_get_collection.
  unfold bind, try_catch, gets, emit, modify, ret; simpl.
  rewrite Hf; simpl. by rewrite Hm.
Qed.

Lemma getMaster_scans_and_caches_witness :
  getMaster (mkService None account []) =
    (Returned (Some (mkGist "b2e9" "SyncEverything"
                       {[ "Origin.json" := "{}"; "Work.json" := "{ }" ]})),
     mkService (Some "b2e9") account
               [Request GET "https://api.github.com/gists" None]).
Proof.
  apply (getMaster_scans_and_caches (mkService None account [])
           (mkGist "b2e9" "SyncEverything"
                   {[ "Origin.json" := "{}"; "Work.json" := "{ }" ]}));
    reflexivity.
Defined.

(** *** Failures *)

(** What a [catch] that ends in [handleGistError] lets out. *)
Lemma handled {A} (m : Prog t A) operation origin s e s' :
  try_catch m (λ err, handleGistError err operation origin) s = (Thrown e, s') →
  ∃ err s0,
    m s = (Thrown err, s0) ∧
    e = Error (error_message err operation) ∧
    s' = mkService (masterId s0) (store s0)
           (trace s0 ++ [LoggerDebugObject origin;
                         LoggerError (error_message err operation) origin true]).
Proof.
  unfold try_catch. destruct (m s) as [[a|err] s0]; [done|].
  unfold handleGistError, bind, emit, modify, throw; simpl.
  intros [= <- <-]. exists err, s0. by rewrite <- app_assoc.
Qed.

Lemma handled_reported {A} (m : Prog t A) operation origin s :
  reported (try_catch m (λ err, handleGistError err operation origin) s).
Proof.
  intros e He.
  destruct (try_catch _ _ s) as [o s'] eqn:Hrun. simpl in He. subst o.
  apply handled in Hrun as (err & s0 & _ & -> & ->).
  exists (error_message err operation), origin,
         (trace s0 ++ [LoggerDebugObject origin]).
  split; [done|]. simpl. by rewrite <- app_assoc.
Qed.

Lemma append_empty_r (x : string) : x +:+ EmptyString = x.
Proof.
  induction x as [|c x IH]; [done|].
  change (String c (x +:+ EmptyString) = String c x). by f_equal.
Qed.

(** Whatever went wrong, the message of [handleGistError] names the
    operation that was attempted. *)
Theorem error_message_names_operation error operation :
  ∃ before after, error_message error operation = before +:+ operation +:+ after.
Proof.
  assert (∃ before after,
            "Failed to " +:+ operation = before +:+ operation +:+ after) as Hdefault.
  { exists "Failed to ", EmptyString. by rewrite append_empty_r. }
  destruct error as [[[status data]|] [|] message|message|message|message];
    try exact Hdefault; [| |by eexists _, _].
  all: unfold error_message;
    repeat match goal with
           | |- context [match ?p with _ => _ end] => is_var p; destruct p
           end;
    by eexists _, _.
Qed.

Section WithProfile.
Context {IProfile : Type}.
Variable profileName : IProfile → string.
Variable JSON_stringify : IProfile → string.
Variable JSON_parse : string → option IProfile.
Variable raw_content : Store → string → option (string + IProfile).

(** No method lets a transport error out as it is: whatever a method
    throws is an [Error] with the classified message, logged and shown to
    the user just before. *)
Theorem failures_are_reported s :
  reported (getMaster s) ∧
  reported (getCollection s) ∧
  (∀ gistId, reported (getGist gistId s)) ∧
  (∀ assigned profile,
     reported (createMaster profileName JSON_stringify assigned profile s)) ∧
  (∀ rawUrl, reported (getProfile JSON_parse raw_content rawUrl s)) ∧
  (∀ profile, reported (createProfile profileName JSON_stringify profile s)) ∧
  (∀ name, reported (deleteProfile name s)).
Proof.
  split; [|repeat split; intros; apply handled_reported].
  unfold getMaster. rewrite bind_gets.
  destruct (truthy (masterId s)).
  - intros e He.
    pose proof (handled_reported
                  (axios_get_gist (interpolate (masterId s)))
                  ("fetch gist " +:+ interpolate (masterId s))
                  "GistService.getGist" s e) as Hgist.
    fold (getGist (interpolate (masterId s))) in Hgist.
    unfold bind in He |- *.
    destruct (getGist (interpolate (masterId s)) s) as [[g|e0] s0]; [done|].
    simpl in *. assert (e0 = e) as -> by congruence. by apply Hgist.
  - intros e He. unfold find_in_collection, bind, ret in He |- *.
    pose proof (handled_reported axios_get_collection "fetching all gists"
                  "GistService.getCollection" s e) as Hcoll.
    fold getCollection in Hcoll.
    destruct (getCollection s) as [[c|e0] s0]; simpl in *.
    + destruct (scan c); simpl in *; done.
    + assert (e0 = e) as -> by congruence. by apply Hcoll.
Qed.

(** *** Writing and reading profiles *)

Lemma patch_files_upsert file content current :
  content ≠ EmptyString →
  patch_files {[ file := content ]} current = <[ file := content ]> current.
Proof.
  intros Hne. apply map_eq. intros k. unfold patch_files. rewrite lookup_merge.
  destruct (decide (k = file)) as [->|Hk].
  - rewrite lookup_singleton_eq, lookup_insert_eq. simpl.
    rewrite decide_False by done. by destruct (current !! file).
  - rewrite lookup_singleton_ne, lookup_insert_ne by done.
    by destruct (current !! k).
Qed.

(** The record that answers to an id still does once it has been replaced
    by one of the same id. *)
Lemma list_find_replaced mid (l : list IGist) i g g' :
  list_find (has_id mid) l = Some (i, g) →
  id g' = mid →
  list_find (has_id mid) (<[i := g']> l) = Some (i, g').
Proof.
  intros (Hi & _ & Hfirst)%list_find_Some Hid.
  apply list_find_Some. split; [|split; [done|]].
  - apply list_lookup_insert_eq. by eapply lookup_lt_Some.
  - intros j y Hj Hlt. rewrite list_lookup_insert_ne in Hj by lia.
    by eapply Hfirst.
Qed.

Lemma scan_snoc l g :
  scan l = None → description g = description_ → scan (l ++ [g]) = Some g.
Proof.
  unfold scan. intros Hl Hg.
  induction l as [|x l IH]; simpl in *.
  - by rewrite bool_decide_eq_true_2.
  - destruct (bool_decide _); [done|]. by apply IH.
Qed.

Lemma createProfile_run s mid i g profile :
  masterId s = Some mid →
  fault (store s) = None →
  list_find (has_id mid) (gists (store s)) = Some (i, g) →
  JSON_stringify profile ≠ EmptyString →
  let file := profileName profile +:+ ".json" in
  let g' := mkGist (id g) (description g)
                   (<[ file := JSON_stringify profile ]> (files g)) in
  createProfile profileName JSON_stringify profile s =
    (Returned g',
     mkService (Some mid) (mkStore (<[i := g']> (gists (store s))) None)
       (trace s ++ [Request PATCH (baseUrl +:+ "/" +:+ mid)
                            (Some {[ file := JSON_stringify profile ]})])).
Proof.
  destruct s as [mi st tr]; simpl. intros -> Hf Hfind Hne.
  unfold createProfile, axios_patch_gist.
  unfold bind, try_catch, gets, emit, set_store, modify, ret, throw; simpl.
  rewrite Hf, Hfind; simpl. by rewrite patch_files_upsert.
Qed.

(** [createProfile] on an established master record adds the profile's
    file or overwrites it: afterwards [name.json] holds the serialised
    profile and every other file of the record, and every other record,
    is as before.  The updated record is what the method returns. *)
Theorem createProfile_upserts s mid i g profile :
  masterId s = Some mid →
  fault (store s) = None →
  list_find (has_id mid) (gists (store s)) = Some (i, g) →
  JSON_stringify profile ≠ EmptyString →
  let file := profileName profile +:+ ".json" in
  let g' := mkGist (id g) (description g)
                   (<[ file := JSON_stringify profile ]> (files g)) in
  createProfile profileName JSON_stringify profile s =
    (Returned g',
     mkService (Some mid) (mkStore (<[i := g']> (gists (store s))) None)
       (trace s ++ [Request PATCH (baseUrl +:+ "/" +:+ mid)
                            (Some {[ file := JSON_stringify profile ]})])).
Proof.
  destruct s as [mi st tr]; simpl. intros -> Hf Hfind Hne.
  unfold createProfile, axios_patch_gist.
  unfold bind, try_catch, gets, emit, set_store, modify, ret, throw; simpl.
  rewrite Hf, Hfind; simpl. by rewrite patch_files_upsert.
Qed.

Lemma deleteProfile_run s mid i g name :
  masterId s = Some mid →
  fault (store s) = None →
  list_find (has_id mid) (gists (store s)) = Some (i, g) →
  deleteProfile name s =
    (Returned tt,
     mkService (Some mid)
       (mkStore (<[i := mkGist (id g) (description g)
                           (delete (name +:+ ".json") (files g))]>
                   (gists (store s))) None)
       (trace s ++ [Request PATCH (baseUrl +:+ "/" +:+ mid)
                            (Some {[ name +:+ ".json" := EmptyString ]})])).
Proof.
  destruct s as [mi st tr]; simpl. intros -> Hf Hfind.
  unfold deleteProfile, axios_patch_gist.
  unfold bind, try_catch, gets, emit, set_store, modify, ret, throw; simpl.
  rewrite Hf, Hfind; simpl. by rewrite GistFacts.patch_files_remove.
Qed.

(** Creating a profile and then deleting it leaves the master record
    without the profile's file and with its other files untouched; a
    record that did not have the file has its files back as they were. *)
Theorem deleteProfile_undoes_createProfile s mid i g profile :
  masterId s = Some mid →
  fault (store s) = None →
  list_find (has_id mid) (gists (store s)) = Some (i, g) →
  JSON_stringify profile ≠ EmptyString →
  let file := profileName profile +:+ ".json" in
  let r := bind (createProfile profileName JSON_stringify profile)
                (λ _, deleteProfile (profileName profile)) s in
  r.1 = Returned tt ∧
  gists (store r.2) =
    <[i := mkGist (id g) (description g) (delete file (files g))]>
      (gists (store s)) ∧
  (files g !! file = None → gists (store r.2) = gists (store s)).
Proof.
  intros Hid Hf Hfind Hne. simpl.
  erewrite bind_returned; [|by eapply createProfile_run].
  assert (id g = mid) as Hg.
  { by apply list_find_Some in Hfind as (_ & Hg & _). }
  erewrite deleteProfile_run; [|reflexivity|reflexivity|].
  2: { simpl. by apply (list_find_replaced mid _ i g). }
  simpl. rewrite list_insert_insert_eq, delete_insert_eq.
  split; [done|]. split; [done|].
  intros Hnew. rewrite delete_id by done.
  apply list_insert_id. apply list_find_Some in Hfind as (Hi & _).
  rewrite Hi. by destruct g.
Qed.

(** After [createMaster] on an account without a master record, a
    [getMaster] that has no cached id finds the new record by the scan:
    it has the description, the assigned id, which is cached, and the
    profile's file as its only file. *)
Theorem getMaster_finds_created_master s assigned profile :
  masterId s = None →
  fault (store s) = None →
  scan (gists (store s)) = None →
  JSON_stringify profile ≠ EmptyString →
  let g := mkGist assigned description_
             {[ profileName profile +:+ ".json" := JSON_stringify profile ]} in
  bind (createMaster profileName JSON_stringify assigned profile)
       (λ _, getMaster) s =
    (Returned (Some g),
     mkService (Some assigned) (mkStore (gists (store s) ++ [g]) None)
       (trace s ++
        [Request POST baseUrl
                 (Some {[ profileName profile +:+ ".json" :=
                            JSON_stringify profile ]});
         Request GET baseUrl None])).
Proof.
  destruct s as [mi st tr]; simpl. intros -> Hf Hscan Hne.
  set (g := mkGist assigned description_
              {[ profileName profile +:+ ".json" := JSON_stringify profile ]}).
  assert (createMaster profileName JSON_stringify assigned profile
            (mkService None st tr) =
          (Returned g,
           mkService None (mkStore (gists st ++ [g]) None)
             (tr ++ [Request POST baseUrl
                       (Some {[ profileName profile +:+ ".json" :=
                                  JSON_stringify profile ]})]))) as Hcreate.
  { unfold createMaster, axios_post_gist.
    unfold bind, try_catch, gets, emit, set_store, modify, ret, throw; simpl.
    rewrite Hf; simpl. rewrite patch_files_upsert by done.
    by rewrite insert_empty. }
  erewrite bind_returned; [|exact Hcreate].
  rewrite (GistFacts.getMaster_scans_without_id _ g); simpl; try done.
  - by rewrite <- app_assoc.
  - by apply scan_snoc.
Qed.

(** [getProfile] gives the same message for a missing URL, for which no
    request is made, and for content that is not JSON: the cause goes to
    the debug log only. *)
Theorem getProfile_hides_the_cause s :
  let message := "Failed to fetch profile content" in
  let origin := "GistService.getFullProfile" in
  (∀ rawUrl,
     truthy rawUrl = false →
     getProfile JSON_parse raw_content rawUrl s =
       (Thrown (Error message),
        mkService (masterId s) (store s)
          (trace s ++ [LoggerDebugObject origin;
                       LoggerError message origin true]))) ∧
  (∀ url text,
     url ≠ EmptyString →
     fault (store s) = None →
     raw_content (store s) url = Some (inl text) →
     JSON_parse text = None →
     getProfile JSON_parse raw_content (Some url) s =
       (Thrown (Error message),
        mkService (masterId s) (store s)
          (trace s ++ [Request GET url None;
                       LoggerDebugObject origin;
                       LoggerError message origin true]))).
Proof.
  destruct s as [mi st tr]; simpl. split.
  - intros rawUrl Hurl. unfold getProfile, handleGistError.
    unfold bind, try_catch, emit, modify, ret, throw; simpl.
    rewrite Hurl. simpl. by rewrite <- app_assoc.
  - intros url text Hurl Hf Hraw Hparse.
    unfold getProfile, axios_get_raw, handleGistError.
    unfold bind, try_catch, gets, emit, modify, ret, throw; simpl.
    rewrite bool_decide_eq_true_2 by done. simpl.
    rewrite Hf, Hraw, Hparse. simpl. by rewrite <- !app_assoc.
Qed.

End WithProfile.

Lemma failures_are_reported_witness :
  ∃ message origin tr,
    Error "Rate limit exceeded during delete profile Work. Please try again later."
      = Error message ∧
    trace (deleteProfile "Work" (mkService (Some "b2e9") throttled [])).2 =
      tr ++ [LoggerError message origin true].
Proof.
  destruct (failures_are_reported profile_name profile_text profile_parse no_raw
              (mkService (Some "b2e9") throttled []))
    as (_ & _ & _ & _ & _ & _ & Hdelete).
  exact (Hdelete "Work" _ eq_refl).
Defined.

Lemma createProfile_upserts_witness :
  let r := createProfile profile_name profile_text ("Home", "{ }")
             (mkService (Some "b2e9") account []) in
  ∃ g', r.1 = Returned g' ∧
        files g' !! "Home.json" = Some "Home:{ }" ∧
        files g' !! "Work.json" = Some "{ }".
Proof.
  cbv zeta.
  rewrite (createProfile_upserts profile_name profile_text
             (mkService (Some "b2e9") account []) "b2e9" 1%nat
             (mkGist "b2e9" "SyncEverything"
                     {[ "Origin.json" := "{}"; "Work.json" := "{ }" ]})
             ("Home", "{ }") eq_refl eq_refl eq_refl).
  - eexists. split; [reflexivity|]. split; reflexivity.
  - discriminate.
Defined.

Lemma deleteProfile_undoes_createProfile_witness :
  let s := mkService (Some "b2e9") account [] in
  gists (store (bind (createProfile profile_name profile_text ("Home", "{ }"))
                     (λ _, deleteProfile "Home") s).2) = gists account.
Proof.
  destruct (deleteProfile_undoes_createProfile profile_name profile_text
              (mkService (Some "b2e9") account []) "b2e9" 1%nat
              (mkGist "b2e9" "SyncEverything"
                      {[ "Origin.json" := "{}"; "Work.json" := "{ }" ]})
              ("Home", "{ }") eq_refl eq_refl eq_refl)
    as (_ & _ & Hback).
  - discriminate.
  - apply Hback. reflexivity.
Defined.

Lemma getMaster_finds_created_master_witness :
  let s := mkService None (mkStore [mkGist "a1f0" "dotfiles" ∅] None) [] in
  (bind (createMaster profile_name profile_text "d4c7" ("Origin", "{ }"))
        (λ _, getMaster) s).1 =
    Returned (Some (mkGist "d4c7" "SyncEverything"
                           {[ "Origin.json" := "Origin:{ }" ]})).
Proof.
  cbv zeta.
  rewrite (getMaster_finds_created_master profile_name profile_text
             (mkService None (mkStore [mkGist "a1f0" "dotfiles" ∅] None) [])
             "d4c7" ("Origin", "{ }") eq_refl eq_refl eq_refl).
  - reflexivity.
  - discriminate.
Defined.

Lemma getProfile_hides_the_cause_witness :
  let s := mkService (Some "b2e9") account [] in
  (getProfile profile_parse no_raw None s).1 =
    Thrown (Error "Failed to fetch profile content") ∧
  (getProfile profile_parse (raw_text "not json") (Some "https://gist/raw") s).1 =
    Thrown (Error "Failed to fetch profile content").
Proof.
  split.
  - destruct (getProfile_hides_the_cause profile_parse no_raw
                (mkService (Some "b2e9") account [])) as [Hmissing _].
    rewrite (Hmissing None eq_refl). reflexivity.
  - destruct (getProfile_hides_the_cause profile_parse (raw_text "not json")
                (mkService (Some "b2e9") account [])) as [_ Hmalformed].
    rewrite (Hmalformed "https://gist/raw" "not json"); try reflexivity.
    discriminate.
Defined.

End GistMore.

(** ** More of the local side *)

Module SyncMore.
Import SyncEverything SyncSamples.

Arguments execute : simpl never.

Lemma progress_app l1 l2 : progress (l1 ++ l2) = progress l1 ++ progress l2.
Proof. apply omap_app. Qed.
Lemma errors_app l1 l2 : errors (l1 ++ l2) = errors l1 ++ errors l2.
Proof. apply omap_app. Qed.
Lemma shown_app l1 l2 : shown (l1 ++ l2) = shown l1 ++ shown l2.
Proof. apply omap_app. Qed.

(** *** One iteration, exactly *)

Lemma mutate_rejected command verb done failed total i v s :
  i ∈ rejecting s →
  mutate command verb done failed total i v s =
    (Returned (S v.1, v.2),
     with_trace
       (trace s ++
        [ProgressReport (verb +:+ " " +:+ i +:+ "...") (S v.1) total;
         ExecuteCommand command (Some i);
         LoggerError ("Failed to " +:+ failed +:+ " " +:+ i)
                     "SyncEverything.installExtensions" false]) s).
Proof.
  intros Hrej. unfold mutate, executeCommand, logger_info, logger_error.
  unfold bind, try_catch, gets, emit, modify, ret, throw; simpl.
  rewrite decide_True by done. simpl. by rewrite <- !app_assoc.
Qed.

Lemma mutate_uninstalled verb done failed total i v s :
  i ∉ rejecting s →
  mutate uninstallExtension verb done failed total i v s =
    (Returned (S v.1, true),
     with_trace
       (trace s ++
        [ProgressReport (verb +:+ " " +:+ i +:+ "...") (S v.1) total;
         ExecuteCommand uninstallExtension (Some i);
         LoggerInfo (done +:+ " extension: " +:+ i)])
       (with_all (filter (λ e, ext_id e ≠ i) (all s)) s)).
Proof.
  intros Hrej. unfold mutate, executeCommand, logger_info, logger_error.
  unfold bind, try_catch, gets, emit, modify, ret, throw; simpl.
  rewrite decide_False by done. simpl. by rewrite <- !app_assoc.
Qed.

Lemma mutate_installed verb done failed total i v s :
  i ∉ rejecting s →
  mutate installExtension verb done failed total i v s =
    (Returned (S v.1, true),
     with_trace
       (trace s ++
        [ProgressReport (verb +:+ " " +:+ i +:+ "...") (S v.1) total;
         ExecuteCommand installExtension (Some i);
         LoggerInfo (done +:+ " extension: " +:+ i)])
       (with_all (all s ++ [mkExtension i false]) s)).
Proof.
  intros Hrej. unfold mutate, executeCommand, logger_info, logger_error.
  unfold bind, try_catch, gets, emit, modify, ret, throw; simpl.
  rewrite decide_False by done. simpl. by rewrite <- !app_assoc.
Qed.

(** *** The loops *)

(** Whatever the commands do, a loop counts one step per element, reports
    each step, shows no message, and leaves everything but the trace and
    the installed extensions as it was; [needsReload] is never reset, and
    is set as soon as one command succeeds. *)
Lemma for_of_shape command verb done failed total l :
  command = uninstallExtension ∨ command = installExtension →
  ∀ v s, ∃ a evs b,
    for_of l (mutate command verb done failed total) v s =
      (Returned ((v.1 + length l)%nat, b),
       with_trace (trace s ++ evs) (with_all a s)) ∧
    progress evs = (λ k, (k, total)) <$> seq (S v.1) (length l) ∧
    shown evs = [] ∧
    commands evs = (λ i, (command, Some i)) <$> l ∧
    (v.2 = true → b = true) ∧
    (Exists (λ i, i ∉ rejecting s) l → b = true).
Proof.
  intros Hcmd. induction l as [|i l IH]; intros v s; simpl.
  - exists (all s), [], v.2. unfold ret.
    split; [|split; [done|split; [done|split; [done|split; [done|]]]]].
    + destruct s, v; simpl. by rewrite Nat.add_0_r, app_nil_r.
    + by intros ?%Exists_nil.
  - destruct (decide (i ∈ rejecting s)) as [Hrej|Hrej].
    + destruct (IH (S v.1, v.2)
                  (with_trace
                     (trace s ++
                      [ProgressReport (verb +:+ " " +:+ i +:+ "...") (S v.1) total;
                       ExecuteCommand command (Some i);
                       LoggerError ("Failed to " +:+ failed +:+ " " +:+ i)
                                   "SyncEverything.installExtensions" false]) s))
        as (a & evs & b & Hrun & Hp & Hs & Hc & Hb & Hex).
      eexists a, (_ ++ evs), b.
      erewrite bind_returned; [|by apply mutate_rejected].
      rewrite Hrun. simpl in *.
      split; [by rewrite <- app_assoc, Nat.add_succ_r|].
      rewrite progress_app, shown_app, SyncFacts.commands_app, Hp, Hs, Hc.
      split; [done|]. split; [done|]. split; [done|]. split; [done|].
      intros [?|?]%Exists_cons; [done|]. by apply Hex.
    + destruct Hcmd as [-> | ->].
      * destruct (IH (S v.1, true)
                    (with_trace
                       (trace s ++
                        [ProgressReport (verb +:+ " " +:+ i +:+ "...") (S v.1) total;
                         ExecuteCommand uninstallExtension (Some i);
                         LoggerInfo (done +:+ " extension: " +:+ i)])
                       (with_all (filter (λ e, ext_id e ≠ i) (all s)) s)))
          as (a & evs & b & Hrun & Hp & Hs & Hc & Hb & Hex).
        eexists a, (_ ++ evs), b.
        erewrite bind_returned; [|by apply mutate_uninstalled].
        rewrite Hrun. simpl in *.
        split; [by rewrite <- app_assoc, Nat.add_succ_r|].
        rewrite progress_app, shown_app, SyncFacts.commands_app, Hp, Hs, Hc.
        rewrite Hb by done. done.
      * destruct (IH (S v.1, true)
                    (with_trace
                       (trace s ++
                        [ProgressReport (verb +:+ " " +:+ i +:+ "...") (S v.1) total;
                         ExecuteCommand installExtension (Some i);
                         LoggerInfo (done +:+ " extension: " +:+ i)])
                       (with_all (all s ++ [mkExtension i false]) s)))
          as (a & evs & b & Hrun & Hp & Hs & Hc & Hb & Hex).
        eexists a, (_ ++ evs), b.
        erewrite bind_returned; [|by apply mutate_installed].
        rewrite Hrun. simpl in *.
        split; [by rewrite <- app_assoc, Nat.add_succ_r|].
        rewrite progress_app, shown_app, SyncFacts.commands_app, Hp, Hs, Hc.
        rewrite Hb by done. done.
Qed.

(** When every command rejects, a loop logs one error per element, for
    the log only, and changes nothing else. *)
Lemma for_of_all_rejected command verb done failed total l : ∀ v s,
  Forall (λ i, i ∈ rejecting s) l →
  ∃ evs,
    for_of l (mutate command verb done failed total) v s =
      (Returned ((v.1 + length l)%nat, v.2), with_trace (trace s ++ evs) s) ∧
    errors evs = (λ i, ("Failed to " +:+ failed +:+ " " +:+ i, false)) <$> l.
Proof.
  induction l as [|i l IH]; intros v s Hall; simpl.
  - exists []. unfold ret. split; [|done].
    destruct s, v; simpl. by rewrite Nat.add_0_r, app_nil_r.
  - apply Forall_cons in Hall as [Hi Hl].
    destruct (IH (S v.1, v.2)
                (with_trace
                   (trace s ++
                    [ProgressReport (verb +:+ " " +:+ i +:+ "...") (S v.1) total;
                     ExecuteCommand command (Some i);
                     LoggerError ("Failed to " +:+ failed +:+ " " +:+ i)
                                 "SyncEverything.installExtensions" false]) s))
      as (evs & Hrun & He); [done|].
    eexists (_ ++ evs).
    erewrite bind_returned; [|by apply mutate_rejected].
    rewrite Hrun. simpl in *.
    split; [by rewrite <- app_assoc, Nat.add_succ_r|].
    by rewrite errors_app, He.
Qed.

Lemma filter_not_in_cons (a : list Extension) i (l : list string) :
  filter (λ e, ext_id e ∉ l) (filter (λ e, ext_id e ≠ i) a) =
  filter (λ e, ext_id e ∉ i :: l) a.
Proof.
  induction a as [|e a IH]; [done|].
  rewrite !(filter_cons _ e).
  destruct (decide (ext_id e ≠ i)) as [Hne|Heq].
  - rewrite filter_cons, IH.
    destruct (decide (ext_id e ∉ l)) as [Hl|Hl].
    + rewrite decide_True; [done|]. rewrite not_elem_of_cons. done.
    + rewrite decide_False; [done|]. rewrite not_elem_of_cons. tauto.
  - rewrite IH, decide_False; [done|].
    rewrite not_elem_of_cons. tauto.
Qed.

Lemma filter_not_in_nil (a : list Extension) :
  filter (λ e, ext_id e ∉ ([] : list string)) a = a.
Proof.
  induction a as [|e a IH]; [done|].
  rewrite filter_cons, decide_True, IH; [done|]. apply not_elem_of_nil.
Qed.

(** When no command rejects, the uninstall loop removes the extensions of
    the list, and logs no error. *)
Lemma for_of_uninstalled verb done failed total l : ∀ v s,
  Forall (λ i, i ∉ rejecting s) l →
  ∃ evs b,
    for_of l (mutate uninstallExtension verb done failed total) v s =
      (Returned ((v.1 + length l)%nat, b),
       with_trace (trace s ++ evs)
         (with_all (filter (λ e, ext_id e ∉ l) (all s)) s)) ∧
    errors evs = [].
Proof.
  induction l as [|i l IH]; intros v s Hall; simpl.
  - exists [], v.2. unfold ret. split; [|done].
    rewrite filter_not_in_nil.
    destruct s, v; simpl. by rewrite Nat.add_0_r, app_nil_r.
  - apply Forall_cons in Hall as [Hi Hl].
    destruct (IH (S v.1, true)
                (with_trace
                   (trace s ++
                    [ProgressReport (verb +:+ " " +:+ i +:+ "...") (S v.1) total;
                     ExecuteCommand uninstallExtension (Some i);
                     LoggerInfo (done +:+ " extension: " +:+ i)])
                   (with_all (filter (λ e, ext_id e ≠ i) (all s)) s)))
      as (evs & b & Hrun & He); [done|].
    eexists (_ ++ evs), b.
    erewrite bind_returned; [|by apply mutate_uninstalled].
    rewrite Hrun. simpl in *. rewrite filter_not_in_cons.
    split; [by rewrite <- app_assoc, Nat.add_succ_r|].
    by rewrite errors_app, He.
Qed.

(** And the install loop adds the extensions of the list. *)
Lemma for_of_installed verb done failed total l : ∀ v s,
  Forall (λ i, i ∉ rejecting s) l →
  ∃ evs b,
    for_of l (mutate installExtension verb done failed total) v s =
      (Returned ((v.1 + length l)%nat, b),
       with_trace (trace s ++ evs)
         (with_all (all s ++ ((λ i, mkExtension i false) <$> l)) s)) ∧
    errors evs = [].
Proof.
  induction l as [|i l IH]; intros v s Hall; simpl.
  - exists [], v.2. unfold ret. split; [|done].
    destruct s, v; simpl. by rewrite Nat.add_0_r, !app_nil_r.
  - apply Forall_cons in Hall as [Hi Hl].
    destruct (IH (S v.1, true)
                (with_trace
                   (trace s ++
                    [ProgressReport (verb +:+ " " +:+ i +:+ "...") (S v.1) total;
                     ExecuteCommand installExtension (Some i);
                     LoggerInfo (done +:+ " extension: " +:+ i)])
                   (with_all (all s ++ [mkExtension i false]) s)))
      as (evs & b & Hrun & He); [done|].
    exists ([ProgressReport (verb +:+ " " +:+ i +:+ "...") (S v.1) total;
             ExecuteCommand installExtension (Some i);
             LoggerInfo (done +:+ " extension: " +:+ i)] ++ evs), b.
    erewrite bind_returned; [|by apply mutate_installed].
    rewrite Hrun. simpl in *.
    split; [by rewrite <- !app_assoc, Nat.add_succ_r|].
    by rewrite He.
Qed.

(** *** The commands of a batch *)

Lemma state_agrees s a evs a' evs' :
  with_trace (trace s ++ evs) (with_all a s) =
  with_trace (trace s ++ evs') (with_all a' s) →
  a = a' ∧ evs = evs'.
Proof.
  intros H. split.
  - by apply (f_equal all) in H.
  - apply (f_equal trace) in H. simpl in H. by apply app_inv_head in H.
Qed.

Lemma Forall_Exists_rejecting (rj : gset string) (l : list string) :
  Forall (λ i, i ∈ rj) l ∨ Exists (λ i, i ∉ rj) l.
Proof.
  induction l as [|i l [IH|IH]].
  - left. constructor.
  - destruct (decide (i ∈ rj)); [left; by constructor | right; by left].
  - right. by right.
Qed.

(** From the first command to the end of the method. *)
Lemma execute_shape I D s :
  let total := (length I + length D)%nat in
  let r := execute I D s in
  ∃ a evs b,
    r.1 = Returned tt ∧
    trace r.2 = trace s ++ evs ++ closing b (default None (head (user s))) ∧
    all r.2 = a ∧
    excludeExtensions r.2 = excludeExtensions s ∧
    progress evs = (λ k, (k, total)) <$> seq 1 total ∧
    shown evs = [] ∧
    commands evs = (uninstall <$> D) ++ (install <$> I) ∧
    (Exists (λ i, i ∉ rejecting s) (D ++ I) → b = true) ∧
    (Forall (λ i, i ∈ rejecting s) (D ++ I) →
     b = false ∧ a = all s ∧
     errors evs =
       ((λ i, ("Failed to uninstall " +:+ i, false)) <$> D) ++
       ((λ i, ("Failed to install " +:+ i, false)) <$> I)) ∧
    (Forall (λ i, i ∉ rejecting s) (D ++ I) →
     a = filter (λ e, ext_id e ∉ D) (all s) ++ ((λ i, mkExtension i false) <$> I) ∧
     errors evs = []).
Proof.
  simpl. set (total := (length I + length D)%nat).
  destruct (for_of_shape uninstallExtension "Uninstalling" "Uninstalled"
              "uninstall" total D (or_introl eq_refl) (0%nat, false) s)
    as (a1 & e1 & b1 & Hrun1 & Hp1 & Hs1 & Hc1 & _ & Hex1).
  set (s1 := with_trace (trace s ++ e1) (with_all a1 s)) in *.
  destruct (for_of_shape installExtension "Installing" "Installed"
              "install" total I (or_intror eq_refl) ((0 + length D)%nat, b1) s1)
    as (a2 & e2 & b2 & Hrun2 & Hp2 & Hs2 & Hc2 & Hmono & Hex2).
  simpl in Hp1, Hp2, Hmono, Hex2.
  exists a2, (e1 ++ e2), b2.
  assert (execute I D s =
          (if b2 then
             (reload <- showInformationMessage
                "Extension sync complete. Reload window to apply all changes?"
                false ["Reload"; "Later"];;
              if decide (reload = Some "Reload")
              then executeCommand reloadWindow None else ret tt)
           else ret tt)
            (with_trace (trace s1 ++ e2) (with_all a2 s1))) as Hexec.
  { unfold execute. fold total.
    erewrite bind_returned; [|exact Hrun1].
    erewrite bind_returned; [|exact Hrun2]. by destruct b2. }
  rewrite Hexec.
  assert (progress (e1 ++ e2) = (λ k, (k, total)) <$> seq 1 total) as Hp.
  { rewrite progress_app, Hp1, Hp2. unfold total.
    rewrite (Nat.add_comm (length I)), seq_app, fmap_app. done. }
  assert (Exists (λ i, i ∉ rejecting s) (D ++ I) → b2 = true) as Hex.
  { intros [H|H]%Exists_app; [by apply Hmono, Hex1 | by apply Hex2]. }
  assert (Forall (λ i, i ∈ rejecting s) (D ++ I) →
          b2 = false ∧ a2 = all s ∧
          errors (e1 ++ e2) =
            ((λ i, ("Failed to uninstall " +:+ i, false)) <$> D) ++
            ((λ i, ("Failed to install " +:+ i, false)) <$> I)) as Hrej.
  { intros [HD HI]%Forall_app. subst s1.
    destruct (for_of_all_rejected uninstallExtension "Uninstalling"
                "Uninstalled" "uninstall" total D (0%nat, false) s HD)
      as (e1' & Hrun1' & He1).
    rewrite Hrun1 in Hrun1'.
    pose proof (f_equal fst Hrun1') as Hb1.
    pose proof (f_equal snd Hrun1') as Hst1. clear Hrun1'.
    cbn [fst snd] in Hb1, Hst1. injection Hb1 as Hb1.
    assert (a1 = all s ∧ e1 = e1') as [-> ->].
    { apply (state_agrees s). rewrite Hst1. by destruct s. }
    match type of Hrun2 with
    | for_of _ _ _ ?st = _ =>
        destruct (for_of_all_rejected installExtension "Installing"
                    "Installed" "install" total I ((0 + length D)%nat, b1) st HI)
          as (e2' & Hrun2' & He2)
    end.
    rewrite Hrun2 in Hrun2'.
    pose proof (f_equal fst Hrun2') as Hb2.
    pose proof (f_equal snd Hrun2') as Hst2. clear Hrun2'.
    cbn [fst snd] in Hb2, Hst2. injection Hb2 as Hb2.
    match type of Hst2 with
    | with_trace (trace ?st ++ _) _ = _ =>
        assert (a2 = all st ∧ e2 = e2') as [-> ->];
          [apply (state_agrees st); rewrite Hst2; by destruct s|]
    end.
    split; [by rewrite Hb2, <- Hb1|]. split; [done|].
    by rewrite errors_app, He1, He2. }
  assert (Forall (λ i, i ∉ rejecting s) (D ++ I) →
          a2 = filter (λ e, ext_id e ∉ D) (all s) ++
               ((λ i, mkExtension i false) <$> I) ∧
          errors (e1 ++ e2) = []) as Hok.
  { intros [HD HI]%Forall_app. subst s1.
    destruct (for_of_uninstalled "Uninstalling" "Uninstalled" "uninstall"
                total D (0%nat, false) s HD) as (e1' & b1' & Hrun1' & He1).
    rewrite Hrun1 in Hrun1'.
    pose proof (f_equal snd Hrun1') as Hst1. clear Hrun1'.
    cbn [snd] in Hst1. apply state_agrees in Hst1 as [-> ->].
    match type of Hrun2 with
    | for_of _ _ _ ?st = _ =>
        destruct (for_of_installed "Installing" "Installed" "install"
                    total I ((0 + length D)%nat, b1) st HI)
          as (e2' & b2' & Hrun2' & He2)
    end.
    rewrite Hrun2 in Hrun2'.
    pose proof (f_equal snd Hrun2') as Hst2. clear Hrun2'.
    cbn [snd] in Hst2. apply state_agrees in Hst2 as [-> ->].
    split; [done|]. by rewrite errors_app, He1, He2. }
  assert (shown (e1 ++ e2) = []) as Hs by by rewrite shown_app, Hs1, Hs2.
  assert (commands (e1 ++ e2) = (uninstall <$> D) ++ (install <$> I)) as Hc
    by by rewrite SyncFacts.commands_app, Hc1, Hc2.
  assert (∀ (o : outcome unit) (tr : list event) (a : list Extension)
            (x : option (list string)) P,
            o = Returned tt → P tr → a = a2 → x = excludeExtensions s →
            o = Returned tt ∧ P tr ∧ a = a2 ∧ x = excludeExtensions s ∧
            progress (e1 ++ e2) = (λ k, (k, total)) <$> seq 1 total ∧
            shown (e1 ++ e2) = [] ∧
            commands (e1 ++ e2) = (uninstall <$> D) ++ (install <$> I) ∧
            (Exists (λ i, i ∉ rejecting s) (D ++ I) → b2 = true) ∧
            (Forall (λ i, i ∈ rejecting s) (D ++ I) →
             b2 = false ∧ a2 = all s ∧
             errors (e1 ++ e2) =
               ((λ i, ("Failed to uninstall " +:+ i, false)) <$> D) ++
               ((λ i, ("Failed to install " +:+ i, false)) <$> I)) ∧
            (Forall (λ i, i ∉ rejecting s) (D ++ I) →
             a2 = filter (λ e, ext_id e ∉ D) (all s) ++
                  ((λ i, mkExtension i false) <$> I) ∧
             errors (e1 ++ e2) = [])) as Hfinish.
  { intros. by repeat (split; [assumption|]). }
  subst s1. clear Hexec Hrun1 Hrun2.
  destruct b2.
  - unfold showInformationMessage, next_reply, executeCommand.
    unfold bind, gets, emit, modify, ret; simpl.
    destruct (user s) as [|reply rest] eqn:Hu; simpl.
    + apply (Hfinish _ _ _ _ (λ tr, tr = _)); try done.
      by rewrite <- !app_assoc.
    + destruct (decide (reply = Some "Reload")); simpl;
        apply (Hfinish _ _ _ _ (λ tr, tr = _)); try done;
        by rewrite <- !app_assoc.
  - unfold ret; simpl.
    apply (Hfinish _ _ _ _ (λ tr, tr = _)); try done.
    by rewrite app_nil_r, <- app_assoc.
Qed.

(** *** The batch, from the prompt on *)

Lemma installExtensions_runs R w :
  ¬ (toInstall (getExtensions w) R = [] ∧ toDelete (getExtensions w) R = []) →
  confirmed w →
  installExtensions R w =
    execute (toInstall (getExtensions w) R) (toDelete (getExtensions w) R)
            (at_start R w).
Proof.
  intros Hne Hgo. unfold at_start. unfold confirmed in Hgo.
  destruct (default true (confirmBeforeSync w)) eqn:Hc.
  - destruct Hgo as [?|Hyes]; [done|].
    rewrite (SyncFacts.installExtensions_confirmed R w Hne Hc). simpl.
    rewrite Hyes. rewrite decide_False by done. by rewrite decide_False by auto.
  - by apply SyncFacts.installExtensions_unconfirmed.
Qed.

Lemma at_start_frame R w :
  trace (at_start R w) = trace w ++ opening R w ∧
  all (at_start R w) = all w ∧
  rejecting (at_start R w) = rejecting w ∧
  excludeExtensions (at_start R w) = excludeExtensions w ∧
  fs (at_start R w) = fs w.
Proof.
  unfold at_start, opening.
  destruct (default true (confirmBeforeSync w)); simpl; [done|].
  by rewrite app_nil_r.
Qed.

Lemma run_shape R w :
  let I := toInstall (getExtensions w) R in
  let D := toDelete (getExtensions w) R in
  let total := (length I + length D)%nat in
  let r := installExtensions R w in
  ¬ (I = [] ∧ D = []) →
  confirmed w →
  ∃ a evs b,
    r.1 = Returned tt ∧
    new_events (installExtensions R) w =
      opening R w ++ evs ++
      closing b (default None (head (user (at_start R w)))) ∧
    all r.2 = a ∧
    excludeExtensions r.2 = excludeExtensions w ∧
    progress evs = (λ k, (k, total)) <$> seq 1 total ∧
    shown evs = [] ∧
    commands evs = (uninstall <$> D) ++ (install <$> I) ∧
    (Exists (λ i, i ∉ rejecting w) (D ++ I) → b = true) ∧
    (Forall (λ i, i ∈ rejecting w) (D ++ I) →
     b = false ∧ a = all w ∧
     errors evs =
       ((λ i, ("Failed to uninstall " +:+ i, false)) <$> D) ++
       ((λ i, ("Failed to install " +:+ i, false)) <$> I)) ∧
    (Forall (λ i, i ∉ rejecting w) (D ++ I) →
     a = filter (λ e, ext_id e ∉ D) (all w) ++ ((λ i, mkExtension i false) <$> I) ∧
     errors evs = []).
Proof.
  simpl. intros Hne Hgo.
  destruct (at_start_frame R w) as (Ht & Ha & Hrj & Hex & _).
  destruct (execute_shape (toInstall (getExtensions w) R)
              (toDelete (getExtensions w) R) (at_start R w))
    as (a & evs & b & H1 & H2 & H3 & H4 & H5 & H6 & H7 & H8 & H9 & H10).
  rewrite Hrj in H8, H9, H10. rewrite Ha in H9, H10. rewrite Hex in H4.
  rewrite Ht in H2.
  exists a, evs, b. unfold new_events.
  rewrite (installExtensions_runs R w Hne Hgo).
  split; [done|]. split; [|done].
  by rewrite H2, <- app_assoc, drop_app_length.
Qed.

Lemma opening_silent R w :
  progress (opening R w) = [] ∧ shown (opening R w) = [] ∧
  errors (opening R w) = [] ∧ commands (opening R w) = [] ∧
  writes (opening R w) = [].
Proof. unfold opening. by destruct (default true (confirmBeforeSync w)). Qed.

Lemma closing_silent b reply :
  progress (closing b reply) = [] ∧ errors (closing b reply) = [] ∧
  writes (closing b reply) = [].
Proof. unfold closing. destruct b; [|done]. by case_decide. Qed.

(** A batch that runs reports its progress one step per command, counting
    from one to the number of commands, removals and installations
    together, whatever the commands do. *)
Theorem progress_counts_every_command R w :
  let I := toInstall (getExtensions w) R in
  let D := toDelete (getExtensions w) R in
  let total := (length I + length D)%nat in
  ¬ (I = [] ∧ D = []) →
  confirmed w →
  progress (new_events (installExtensions R) w) =
    (λ k, (k, total)) <$> seq 1 total.
Proof.
  simpl. intros Hne Hgo.
  destruct (run_shape R w Hne Hgo) as (a & evs & b & _ & Hnew & _ & _ & Hp & _).
  rewrite Hnew, !progress_app, Hp.
  destruct (opening_silent R w) as (-> & _).
  destruct (closing_silent b (default None (head (user (at_start R w)))))
    as (-> & _).
  by rewrite app_nil_r.
Qed.

Lemma progress_counts_every_command_witness :
  progress (new_events (installExtensions ["B"; "C"; "D"; "E"])
                       (with_user [Some "Yes"] desk)) =
    [(1, 3); (2, 3); (3, 3)]%nat.
Proof.
  rewrite (progress_counts_every_command ["B"; "C"; "D"; "E"]
             (with_user [Some "Yes"] desk)).
  - reflexivity.
  - vm_compute. intros [H _]. discriminate H.
  - right. reflexivity.
Defined.

(** Past the prompt nothing warns: neither loop nor the question about
    the reload adds a warning to the trace. *)
Lemma warnings_app l1 l2 : warnings (l1 ++ l2) = warnings l1 ++ warnings l2.
Proof. apply omap_app. Qed.

Lemma mutate_no_warning command verb done failed total i v s :
  warnings (trace (mutate command verb done failed total i v s).2) =
  warnings (trace s).
Proof.
  unfold mutate, executeCommand, logger_info, logger_error.
  unfold bind, try_catch, gets, emit, modify, ret, throw; simpl.
  destruct (decide (i ∈ rejecting s)); simpl;
    [|destruct (decide (command = uninstallExtension)); simpl;
      [|destruct (decide (command = installExtension)); simpl]];
    rewrite !warnings_app; simpl; by rewrite !app_nil_r.
Qed.

Lemma for_of_no_warning command verb done failed total l : ∀ v s,
  warnings (trace (for_of l (mutate command verb done failed total) v s).2) =
  warnings (trace s).
Proof.
  induction l as [|i l IH]; intros v s; simpl; [done|].
  destruct (SyncFacts.mutate_spec command verb done failed total i v s)
    as (v1 & s1 & evs1 & Hm & _).
  pose proof (mutate_no_warning command verb done failed total i v s) as Hw.
  unfold bind. rewrite Hm in Hw |- *. simpl in Hw. by rewrite IH.
Qed.

Lemma execute_no_warning I D s :
  warnings (trace (execute I D s).2) = warnings (trace s).
Proof.
  unfold execute.
  destruct (SyncFacts.for_of_mutate_spec uninstallExtension "Uninstalling"
              "Uninstalled" "uninstall" (length I + length D) D
              (0%nat, false) s) as (v1 & s1 & evs1 & H1 & _).
  pose proof (for_of_no_warning uninstallExtension "Uninstalling"
                "Uninstalled" "uninstall" (length I + length D) D
                (0%nat, false) s) as Hw1.
  rewrite H1 in Hw1. simpl in Hw1.
  destruct (SyncFacts.for_of_mutate_spec installExtension "Installing"
              "Installed" "install" (length I + length D) I v1 s1)
    as (v2 & s2 & evs2 & H2 & _).
  pose proof (for_of_no_warning installExtension "Installing" "Installed"
                "install" (length I + length D) I v1 s1) as Hw2.
  rewrite H2 in Hw2. simpl in Hw2.
  unfold bind at 1. rewrite H1. unfold bind at 1. rewrite H2.
  rewrite <- Hw1, <- Hw2.
  destruct v2 as [completed [|]]; simpl; [|done].
  unfold showInformationMessage, next_reply, executeCommand.
  unfold bind, gets, emit, modify, ret; simpl.
  destruct (user s2) as [|reply rest]; simpl.
  - rewrite warnings_app. simpl. by rewrite app_nil_r.
  - case_decide; simpl; rewrite !warnings_app; simpl; by rewrite !app_nil_r.
Qed.

(** The only warning of a batch that runs is its prompt. *)
Lemma batch_warnings R w :
  ¬ (toInstall (getExtensions w) R = [] ∧ toDelete (getExtensions w) R = []) →
  confirmed w →
  warnings (new_events (installExtensions R) w) = warnings (opening R w).
Proof.
  intros Hne Hgo.
  destruct (at_start_frame R w) as (Ht & _).
  destruct (execute_shape (toInstall (getExtensions w) R)
              (toDelete (getExtensions w) R) (at_start R w))
    as (a & evs & b & _ & Htr & _).
  pose proof (execute_no_warning (toInstall (getExtensions w) R)
                (toDelete (getExtensions w) R) (at_start R w)) as Hw.
  simpl in Htr. rewrite Htr, warnings_app in Hw.
  rewrite <- (app_nil_r (warnings (trace (at_start R w)))) in Hw at 2.
  apply app_inv_head in Hw.
  unfold new_events. rewrite (installExtensions_runs R w Hne Hgo).
  rewrite Htr, Ht, <- app_assoc, drop_app_length.
  by rewrite warnings_app, Hw, app_nil_r.
Qed.

(** A batch in which every command rejects still returns: the commands
    are all issued, each failure is logged, for the log only, and the
    installed extensions are what they were.  No information message is
    shown, in particular not the question about the reload; the one
    dialog of the batch is the prompt it began with, when confirmation
    is asked for. *)
Theorem rejected_batch_completes_quietly R w :
  let I := toInstall (getExtensions w) R in
  let D := toDelete (getExtensions w) R in
  let r := installExtensions R w in
  ¬ (I = [] ∧ D = []) →
  confirmed w →
  Forall (λ i, i ∈ rejecting w) (D ++ I) →
  r.1 = Returned tt ∧
  all r.2 = all w ∧
  commands (new_events (installExtensions R) w) =
    (uninstall <$> D) ++ (install <$> I) ∧
  errors (new_events (installExtensions R) w) =
    ((λ i, ("Failed to uninstall " +:+ i, false)) <$> D) ++
    ((λ i, ("Failed to install " +:+ i, false)) <$> I) ∧
  shown (new_events (installExtensions R) w) = [] ∧
  warnings (new_events (installExtensions R) w) =
    (if default true (confirmBeforeSync w)
     then [(confirm_message I D, ["Yes"; "Show Details"; "Cancel"])]
     else []).
Proof.
  simpl. intros Hne Hgo Hrej.
  destruct (run_shape R w Hne Hgo)
    as (a & evs & b & Hr & Hnew & Ha & _ & _ & Hs & Hc & _ & Hall & _).
  destruct (Hall Hrej) as (-> & -> & He).
  destruct (opening_silent R w) as (_ & Hos & Hoe & Hoc & _).
  split; [done|]. split; [done|].
  rewrite (batch_warnings R w Hne Hgo).
  rewrite Hnew. unfold closing.
  rewrite !SyncFacts.commands_app, !errors_app, !shown_app.
  rewrite Hos, Hoe, Hoc, Hs, Hc, He. simpl. rewrite !app_nil_r.
  split; [done|]. split; [done|]. split; [done|].
  unfold opening. by destruct (default true (confirmBeforeSync w)).
Qed.

Lemma rejected_batch_completes_quietly_witness :
  let w := mk (globalState desk) (fs desk) ∅ (all desk) None None
              {[ "A"; "D" ]} [Some "Yes"] [] in
  let r := installExtensions ["B"; "C"; "D"] w in
  r.1 = Returned tt ∧ all r.2 = all w ∧
  errors (new_events (installExtensions ["B"; "C"; "D"]) w) =
    [("Failed to uninstall A", false); ("Failed to install D", false)] ∧
  shown (new_events (installExtensions ["B"; "C"; "D"]) w) = [] ∧
  warnings (new_events (installExtensions ["B"; "C"; "D"]) w) =
    [(confirm_message ["D"] ["A"], ["Yes"; "Show Details"; "Cancel"])].
Proof.
  destruct (rejected_batch_completes_quietly ["B"; "C"; "D"]
              (mk (globalState desk) (fs desk) ∅ (all desk) None None
                  {[ "A"; "D" ]} [Some "Yes"] []))
    as (Hr & Ha & _ & He & Hs & Hw).
  - vm_compute. intros [H _]. discriminate H.
  - right. reflexivity.
  - apply (bool_decide_unpack _). vm_compute. exact I.
  - split; [exact Hr|]. split; [exact Ha|]. split; [exact He|].
    split; [exact Hs | exact Hw].
Defined.

(** As soon as one command of a batch succeeds the user is asked about
    the reload, once and after the last command; the window is reloaded
    when the reply is [Reload] and on no other reply. *)
Theorem successful_command_asks_for_reload R w :
  let I := toInstall (getExtensions w) R in
  let D := toDelete (getExtensions w) R in
  let reply := default None (head (user (at_start R w))) in
  ¬ (I = [] ∧ D = []) →
  confirmed w →
  Exists (λ i, i ∉ rejecting w) (D ++ I) →
  shown (new_events (installExtensions R) w) =
    ["Extension sync complete. Reload window to apply all changes?"] ∧
  commands (new_events (installExtensions R) w) =
    (uninstall <$> D) ++ (install <$> I) ++
    (if decide (reply = Some "Reload") then [(reloadWindow, None)] else []).
Proof.
  simpl. intros Hne Hgo Hok.
  destruct (run_shape R w Hne Hgo)
    as (a & evs & b & _ & Hnew & _ & _ & _ & Hs & Hc & Hex & _).
  rewrite (Hex Hok) in Hnew.
  destruct (opening_silent R w) as (_ & Hos & _ & Hoc & _).
  rewrite Hnew. unfold closing.
  rewrite !SyncFacts.commands_app, !shown_app, Hos, Hoc, Hs, Hc. simpl.
  split; [by case_decide|].
  rewrite <- app_assoc. by case_decide.
Qed.

Lemma successful_command_asks_for_reload_witness :
  commands (new_events (installExtensions ["B"; "C"; "D"])
                       (with_user [Some "Yes"; Some "Reload"] desk)) =
    [uninstall "A"; install "D"; (reloadWindow, None)].
Proof.
  destruct (successful_command_asks_for_reload ["B"; "C"; "D"]
              (with_user [Some "Yes"; Some "Reload"] desk)) as [_ Hc].
  - vm_compute. intros [H _]. discriminate H.
  - right. reflexivity.
  - apply (bool_decide_unpack _). vm_compute. exact I.
  - exact Hc.
Defined.

(** *** What a batch reaches *)

Lemma installExtensions_appended R w :
  ∃ s' evs, installExtensions R w = (Returned tt, s') ∧ appended w s' evs.
Proof.
  destruct (decide (toInstall (getExtensions w) R = [] ∧
                    toDelete (getExtensions w) R = [])) as [[HI HD]|Hne].
  { rewrite (SyncFacts.installExtensions_in_sync R w HI HD).
    eexists _, _. split; [done|]. SyncFacts.solve_appended. }
  destruct (default true (confirmBeforeSync w)) eqn:Hc.
  - rewrite (SyncFacts.installExtensions_confirmed R w Hne Hc). simpl.
    repeat case_decide.
    + eexists _, _. split; [done|]. SyncFacts.solve_appended.
    + eexists _, _. split; [done|]. SyncFacts.solve_appended.
    + destruct (SyncFacts.execute_spec (toInstall (getExtensions w) R)
                  (toDelete (getExtensions w) R)
                  (with_user (tail (user w))
                     (with_trace (trace w ++ [prompt (getExtensions w) R]) w)))
        as (s' & evs & reload & He & Ha & _).
      exists s', ([prompt (getExtensions w) R] ++ evs). split; [done|].
      eapply SyncFacts.appended_trans; [|exact Ha]. SyncFacts.solve_appended.
  - rewrite (SyncFacts.installExtensions_unconfirmed R w Hne Hc).
    destruct (SyncFacts.execute_spec (toInstall (getExtensions w) R)
                (toDelete (getExtensions w) R) w)
      as (s' & evs & reload & He & Ha & _).
    by exists s', evs.
Qed.

Lemma elem_of_getExtensions s x :
  x ∈ getExtensions s ↔
  (¬ (x ∈ default [] (excludeExtensions s)) ∧
   ∃ e, e ∈ all s ∧ ext_id e = x ∧ isBuiltin e = false).
Proof.
  unfold getExtensions.
  rewrite list_elem_of_filter, list_elem_of_fmap.
  split.
  - intros (Hex & e & -> & He). split; [done|].
    apply list_elem_of_filter in He as [Hb He].
    exists e. split; [done|]. split; [done|]. by destruct (isBuiltin e).
  - intros (Hex & e & He & <- & Hb). split; [done|].
    exists e. split; [done|]. apply list_elem_of_filter. split; [|done].
    rewrite Hb. intros H. exact H.
Qed.

(** A batch that runs with no command rejecting, for a remote list free
    of excluded identifiers, brings the local list to the remote one:
    computed again afterwards, [toInstall] and [toDelete] are empty, and
    a second batch for the same list issues no command. *)
Theorem reconciled_batch_is_in_sync R w :
  let I := toInstall (getExtensions w) R in
  let D := toDelete (getExtensions w) R in
  let w' := (installExtensions R w).2 in
  confirmed w →
  Forall (λ i, i ∉ rejecting w) (D ++ I) →
  Forall (λ i, i ∉ default [] (excludeExtensions w)) R →
  toInstall (getExtensions w') R = [] ∧
  toDelete (getExtensions w') R = [] ∧
  commands (new_events (installExtensions R) w') = [].
Proof.
  simpl. intros Hgo Hok Hfree.
  set (w' := (installExtensions R w).2).
  assert (∀ x, x ∈ getExtensions w' ↔ x ∈ R) as Hsame.
  { destruct (decide (toInstall (getExtensions w) R = [] ∧
                      toDelete (getExtensions w) R = [])) as [[HI HD]|Hne].
    - assert (getExtensions w' = getExtensions w) as ->.
      { unfold w'. by rewrite (SyncFacts.installExtensions_in_sync R w HI HD). }
      intros x. split; intros Hx.
      + destruct (decide (x ∈ R)) as [|Hn]; [done|].
        assert (x ∈ toDelete (getExtensions w) R) as Hd
          by by apply SyncFacts.elem_of_toDelete.
        rewrite HD in Hd. by apply elem_of_nil in Hd.
      + destruct (decide (x ∈ getExtensions w)) as [|Hn]; [done|].
        assert (x ∈ toInstall (getExtensions w) R) as Hi
          by by apply SyncFacts.elem_of_toInstall.
        rewrite HI in Hi. by apply elem_of_nil in Hi.
    - destruct (run_shape R w Hne Hgo)
        as (a & evs & b & _ & _ & Ha & Hex & _ & _ & _ & _ & _ & Hall).
      destruct (Hall Hok) as [-> _]. fold w' in Ha, Hex.
      intros x. rewrite elem_of_getExtensions, Hex, Ha. split.
      + intros (Hnex & e & He & <- & Hb).
        apply elem_of_app in He as [He|He].
        * apply list_elem_of_filter in He as [Hnd He].
          destruct (decide (ext_id e ∈ R)) as [|Hn]; [done|].
          destruct Hnd. apply SyncFacts.elem_of_toDelete. split; [|done].
          apply elem_of_getExtensions. eauto.
        * apply list_elem_of_fmap in He as (i & -> & Hi).
          by apply SyncFacts.elem_of_toInstall in Hi as [Hi _].
      + intros Hx.
        assert (x ∉ default [] (excludeExtensions w)) as Hnex.
        { rewrite Forall_forall in Hfree. by apply Hfree. }
        split; [done|].
        destruct (decide (x ∈ getExtensions w)) as [Hl|Hl].
        * apply elem_of_getExtensions in Hl as (_ & e & He & <- & Hb).
          exists e. split; [|done]. apply elem_of_app. left.
          apply list_elem_of_filter. split; [|done].
          intros Hd. by apply SyncFacts.elem_of_toDelete in Hd as [_ Hd].
        * exists (mkExtension x false). split; [|done].
          apply elem_of_app. right.
          apply (list_elem_of_fmap_2 (λ i, mkExtension i false)).
          by apply SyncFacts.elem_of_toInstall. }
  assert (toInstall (getExtensions w') R = []) as HI.
  { apply SyncFacts.nil_no_elem. intros x.
    rewrite SyncFacts.elem_of_toInstall, Hsame. tauto. }
  assert (toDelete (getExtensions w') R = []) as HD.
  { apply SyncFacts.nil_no_elem. intros x.
    rewrite SyncFacts.elem_of_toDelete, Hsame. tauto. }
  split; [done|]. split; [done|].
  erewrite SyncFacts.new_events_appended;
    [|by rewrite (SyncFacts.installExtensions_in_sync R w' HI HD)].
  reflexivity.
Qed.

Lemma reconciled_batch_is_in_sync_witness :
  let w' := (installExtensions ["B"; "C"; "D"] (with_user [Some "Yes"] desk)).2 in
  getExtensions w' = ["B"; "C"; "D"] ∧
  commands (new_events (installExtensions ["B"; "C"; "D"]) w') = [].
Proof.
  split; [reflexivity|].
  destruct (reconciled_batch_is_in_sync ["B"; "C"; "D"]
              (with_user [Some "Yes"] desk)) as (_ & _ & Hc).
  - right. reflexivity.
  - apply (bool_decide_unpack _). vm_compute. exact I.
  - apply (bool_decide_unpack _). vm_compute. exact I.
  - exact Hc.
Defined.

(** An excluded extension is never removed: it is not in the local list,
    so not in [toDelete], and no batch issues an uninstall command for
    it, whatever the remote list holds. *)
Theorem excluded_is_never_uninstalled R w x :
  x ∈ default [] (excludeExtensions w) →
  (x ∉ getExtensions w) ∧
  (x ∉ toDelete (getExtensions w) R) ∧
  (uninstall x ∉ commands (new_events (installExtensions R) w)).
Proof.
  intros Hx.
  split; [by apply SyncFacts.excluded_not_local|].
  split; [by apply SyncFacts.excluded_not_removed|].
  intros Hin.
  destruct (SyncFacts.installExtensions_commands R w)
    as [Hnil|(reload & Hcmds & Hreload)]; simpl in *.
  { rewrite Hnil in Hin. by apply elem_of_nil in Hin. }
  rewrite Hcmds in Hin.
  apply elem_of_app in Hin as [Hin|Hin].
  - apply list_elem_of_fmap in Hin as (y & Hy & Hd).
    injection Hy as <-. by apply (SyncFacts.excluded_not_removed w R x).
  - apply elem_of_app in Hin as [Hin|Hin].
    + apply list_elem_of_fmap in Hin as (y & Hy & _). SyncFacts.clash Hy.
    + destruct Hreload as [-> | ->].
      * by apply elem_of_nil in Hin.
      * apply list_elem_of_singleton in Hin. SyncFacts.clash Hin.
Qed.

Lemma excluded_is_never_uninstalled_witness :
  let w := with_options (Some ["A"]) (Some false) desk in
  commands (new_events (installExtensions ["B"; "C"; "D"]) w) = [install "D"] ∧
  uninstall "A" ∉ commands (new_events (installExtensions ["B"; "C"; "D"]) w).
Proof.
  split; [reflexivity|].
  apply (excluded_is_never_uninstalled ["B"; "C"; "D"]
           (with_options (Some ["A"]) (Some false) desk) "A").
  apply (bool_decide_unpack _). vm_compute. exact I.
Defined.

(** *** The configuration files *)

Section WithJSON.
Context {J : Type}.
Variable JSON5_parse : string → option J.
Variable JSON_stringify : J → string.

Lemma getActiveProfile_run w :
  let settings := on_disk JSON5_parse Settings w in
  let keybinds := on_disk JSON5_parse Keybindings w in
  let missing (f : ConfigFile) (v : option J) :=
    match v with
    | Some _ => []
    | None =>
        [LoggerError ("Failed to read " +:+ name f +:+ " file: " +:+
                      interpolate (globalState w !! (name f +:+ "Path")))
                     "SyncEverything.readConfigFile" true]
    end in
  getActiveProfile JSON5_parse w =
    (Returned (mkPartial None settings (Some (getExtensions w)) keybinds),
     with_trace (trace w ++ missing Settings settings ++
                 missing Keybindings keybinds) w).
Proof.
  simpl. unfold getActiveProfile.
  unfold bind at 1. rewrite SyncFacts.readConfigFile_spec.
  destruct (on_disk JSON5_parse Settings w) as [js|] eqn:Hs.
  - unfold bind at 1. rewrite SyncFacts.readConfigFile_spec.
    destruct (on_disk JSON5_parse Keybindings w) as [jk|] eqn:Hk;
      rewrite bind_gets; unfold ret; destruct w; simpl;
      by rewrite ?app_nil_r.
  - unfold bind at 1.
    rewrite SyncFacts.readConfigFile_spec, SyncFacts.on_disk_with_trace.
    destruct (on_disk JSON5_parse Keybindings w) as [jk|] eqn:Hk;
      rewrite bind_gets; unfold ret; destruct w; simpl;
      by rewrite <- ?app_assoc.
Qed.

(** [getActiveProfile] never throws and changes nothing but the log: the
    profile it returns has no name, the extensions of [getExtensions],
    and for each configuration file what the file holds; a file that
    holds nothing makes one error, shown to the user, and an absent
    field. *)
Theorem getActiveProfile_mirrors_disk w :
  let settings := on_disk JSON5_parse Settings w in
  let keybinds := on_disk JSON5_parse Keybindings w in
  let missing (f : ConfigFile) (v : option J) :=
    match v with
    | Some _ => []
    | None =>
        [LoggerError ("Failed to read " +:+ name f +:+ " file: " +:+
                      interpolate (globalState w !! (name f +:+ "Path")))
                     "SyncEverything.readConfigFile" true]
    end in
  getActiveProfile JSON5_parse w =
    (Returned (mkPartial None settings (Some (getExtensions w)) keybinds),
     with_trace (trace w ++ missing Settings settings ++
                 missing Keybindings keybinds) w).
Proof.
  simpl. unfold getActiveProfile.
  unfold bind at 1. rewrite SyncFacts.readConfigFile_spec.
  destruct (on_disk JSON5_parse Settings w) as [js|] eqn:Hs.
  - unfold bind at 1. rewrite SyncFacts.readConfigFile_spec.
    destruct (on_disk JSON5_parse Keybindings w) as [jk|] eqn:Hk;
      rewrite bind_gets; unfold ret; destruct w; simpl;
      by rewrite ?app_nil_r.
  - unfold bind at 1.
    rewrite SyncFacts.readConfigFile_spec, SyncFacts.on_disk_with_trace.
    destruct (on_disk JSON5_parse Keybindings w) as [jk|] eqn:Hk;
      rewrite bind_gets; unfold ret; destruct w; simpl;
      by rewrite <- ?app_assoc.
Qed.

(** With no settings path stored, [updateLocalProfile] throws before any
    file is written: the failure is logged with [undefined] for the path,
    and neither the keybindings nor the extensions are looked at. *)
Theorem updateLocalProfile_without_settings_path w profile :
  globalState w !! "settingsPath" = None →
  ∃ e, updateLocalProfile JSON_stringify profile w =
         (Thrown e,
          with_trace
            (trace w ++
             [LoggerError "Failed to write settings file: undefined"
                          "SyncEverything.writeConfigFile" true]) w).
Proof.
  intros Hsp. unfold updateLocalProfile. rewrite bind_gets, Hsp.
  eexists. erewrite bind_thrown; [done|].
  unfold writeConfigFile, writeFile, logger_error.
  unfold bind, try_catch, emit, modify, throw. reflexivity.
Qed.

(** A profile applied is the profile read back: once [updateLocalProfile]
    has returned, [getActiveProfile] returns the settings and keybindings
    of the profile, whatever the reconciliation in between did, provided
    the two paths differ, both files can be written and what is written
    parses back. *)
Theorem applied_profile_reads_back w profile sp kp js jk :
  globalState w !! "settingsPath" = Some sp →
  globalState w !! "keybindingsPath" = Some kp →
  sp ≠ kp →
  sp ∉ readonly w → kp ∉ readonly w →
  JSON5_parse (content_of JSON_stringify (settings profile)) = Some js →
  JSON5_parse (content_of JSON_stringify (keybindings profile)) = Some jk →
  let r := bind (updateLocalProfile JSON_stringify profile)
                (λ _, getActiveProfile JSON5_parse) w in
  r.1 = Returned (mkPartial None (Some js) (Some (getExtensions r.2)) (Some jk)) ∧
  fs r.2 !! sp = Some (content_of JSON_stringify (settings profile)) ∧
  fs r.2 !! kp = Some (content_of JSON_stringify (keybindings profile)).
Proof.
  intros Hsp Hkp Hne Hws Hwk Hjs Hjk. simpl.
  set (c1 := content_of JSON_stringify (settings profile)) in *.
  set (c2 := content_of JSON_stringify (keybindings profile)) in *.
  set (w2 := with_trace
               (trace w ++
                [WriteFile sp c1;
                 LoggerInfo ("Configuration file updated: " +:+ sp);
                 WriteFile kp c2;
                 LoggerInfo ("Configuration file updated: " +:+ kp)])
               (with_fs (<[kp := c2]> (<[sp := c1]> (fs w))) w)).
  assert (updateLocalProfile JSON_stringify profile w =
          installExtensions (extensions profile) w2) as Hupdate.
  { unfold updateLocalProfile. rewrite bind_gets, Hsp.
    erewrite bind_returned; [|by apply SyncFacts.writeConfigFile_writable].
    rewrite bind_gets. simpl globalState. rewrite Hkp.
    erewrite bind_returned; [|by apply SyncFacts.writeConfigFile_writable].
    unfold w2. simpl. by rewrite <- app_assoc. }
  destruct (installExtensions_appended (extensions profile) w2)
    as (s' & evs & Hrun & Ht & _ & Hf & Hg & _).
  simpl in Hf, Hg.
  assert (fs s' !! sp = Some c1) as Hfs.
  { by rewrite Hf, lookup_insert_ne, lookup_insert_eq. }
  assert (fs s' !! kp = Some c2) as Hfk.
  { by rewrite Hf, lookup_insert_eq. }
  assert (on_disk JSON5_parse Settings s' = Some js) as Hos.
  { unfold on_disk. change (name Settings +:+ "Path") with "settingsPath".
    rewrite Hg, Hsp. simpl. rewrite Hfs. done. }
  assert (on_disk JSON5_parse Keybindings s' = Some jk) as Hok.
  { unfold on_disk. change (name Keybindings +:+ "Path") with "keybindingsPath".
    rewrite Hg, Hkp. simpl. rewrite Hfk. done. }
  erewrite bind_returned; [|by rewrite Hupdate].
  rewrite getActiveProfile_run, Hos, Hok. simpl.
  by rewrite app_nil_r.
Qed.

End WithJSON.

Lemma updateLocalProfile_without_settings_path_witness :
  let w := mk {[ "keybindingsPath" := keybindings_json ]} (fs desk) ∅
              (all desk) None None ∅ [] [] in
  ∃ e, updateLocalProfile stringify remote_profile w =
         (Thrown e,
          with_trace
            [LoggerError "Failed to write settings file: undefined"
                         "SyncEverything.writeConfigFile" true] w).
Proof.
  apply (updateLocalProfile_without_settings_path stringify
           (mk {[ "keybindingsPath" := keybindings_json ]} (fs desk) ∅
               (all desk) None None ∅ [] []) remote_profile).
  reflexivity.
Defined.

Lemma applied_profile_reads_back_witness :
  (bind (updateLocalProfile stringify remote_profile)
        (λ _, getActiveProfile parse) (with_user [Some "Yes"] desk)).1 =
    Returned (mkPartial None (Some "{ tabSize: 2 }") (Some ["B"; "C"; "D"])
                        (Some "[ ]")).
Proof.
  destruct (applied_profile_reads_back parse stringify
              (with_user [Some "Yes"] desk) remote_profile
              settings_json keybindings_json "{ tabSize: 2 }" "[ ]"
              eq_refl eq_refl) as (Hr & _).
  - discriminate.
  - apply (bool_decide_unpack _). vm_compute. exact I.
  - apply (bool_decide_unpack _). vm_compute. exact I.
  - reflexivity.
  - reflexivity.
  - rewrite Hr. reflexivity.
Defined.

End SyncMore.

(** ** Finding the configuration files, and start-up *)

Module StartupFacts.
Import SyncEverything Utils Startup SyncSamples StartupSamples.

Section WithPath.
Variable join : string → string → string.
Variable fsPath : string → string.
Variable resolve_up_two : string → string.

Lemma pathExists_spec path w :
  pathExists path w =
    match fs w !! path with
    | Some _ => (Returned true,
                 with_trace (trace w ++ [LoggerInfo ("Found file at: " +:+ path)]) w)
    | None => (Returned false, w)
    end.
Proof.
  unfold pathExists. rewrite bind_gets. by destruct (fs w !! path).
Qed.

(** The loop stops at the first path that exists, having logged it, and
    otherwise leaves no trace. *)
Lemma search_found paths w i path :
  paths !! i = Some path →
  is_Some (fs w !! path) →
  (∀ j q, (j < i)%nat → paths !! j = Some q → fs w !! q = None) →
  search fsPath paths w =
    (Returned (Some (fsPath path)),
     with_trace (trace w ++ [LoggerInfo ("Found file at: " +:+ path)]) w).
Proof.
  revert i. induction paths as [|p rest IH]; intros i Hi [text Hthere] Hfirst;
    [done|].
  simpl. unfold bind at 1. rewrite pathExists_spec.
  destruct i as [|i]; simpl in Hi.
  - injection Hi as ->. by rewrite Hthere.
  - rewrite (Hfirst 0%nat p) by (done || lia).
    apply (IH i); [done|by eexists|].
    intros j q Hj Hq. apply (Hfirst (S j) q); [lia|done].
Qed.

Lemma search_nothing paths w :
  (∀ q, q ∈ paths → fs w !! q = None) →
  search fsPath paths w = (Returned None, w).
Proof.
  induction paths as [|p rest IH]; intros Hnone; [done|].
  simpl. unfold bind at 1. rewrite pathExists_spec.
  rewrite (Hnone p) by left. apply IH. intros q Hq. apply Hnone. by right.
Qed.

Lemma findConfigFile_found p app file dir w i path :
  possiblePaths join p app file dir !! i = Some path →
  is_Some (fs w !! path) →
  (∀ j q, (j < i)%nat → possiblePaths join p app file dir !! j = Some q →
          fs w !! q = None) →
  findConfigFile join fsPath p app file dir w =
    (Returned (fsPath path),
     with_trace (trace w ++ [LoggerInfo ("Found file at: " +:+ path)]) w).
Proof.
  intros Hi Hthere Hfirst. unfold findConfigFile.
  erewrite bind_returned; [|by eapply (search_found _ w i path)].
  reflexivity.
Qed.

(** [findConfigFile] tries its candidates in order, the preferred
    directory first, and returns the first one that exists: the paths
    before it are not there, the ones after it are not looked at, and
    the only trace is the note of the file found. *)
Theorem findConfigFile_returns_first_existing p app file dir w i path :
  possiblePaths join p app file dir !! i = Some path →
  is_Some (fs w !! path) →
  (∀ j q, (j < i)%nat → possiblePaths join p app file dir !! j = Some q →
          fs w !! q = None) →
  findConfigFile join fsPath p app file dir w =
    (Returned (fsPath path),
     with_trace (trace w ++ [LoggerInfo ("Found file at: " +:+ path)]) w).
Proof.
  intros Hi Hthere Hfirst. unfold findConfigFile.
  erewrite bind_returned; [|by eapply (search_found _ w i path)].
  reflexivity.
Qed.

Lemma findConfigFile_preferred p app file dir w :
  dir ≠ EmptyString →
  is_Some (fs w !! join dir file) →
  findConfigFile join fsPath p app file (Some dir) w =
    (Returned (fsPath (join dir file)),
     with_trace (trace w ++ [LoggerInfo ("Found file at: " +:+ join dir file)]) w).
Proof.
  intros Hdir Hthere.
  apply (findConfigFile_found p app file (Some dir) w 0%nat).
  - unfold possiblePaths, truthy. by rewrite bool_decide_eq_true_2.
  - done.
  - intros j q Hj. lia.
Qed.

(** A file in the preferred directory wins over every default location,
    on every platform. *)
Theorem findConfigFile_prefers_user_dir p app file dir w :
  dir ≠ EmptyString →
  is_Some (fs w !! join dir file) →
  findConfigFile join fsPath p app file (Some dir) w =
    (Returned (fsPath (join dir file)),
     with_trace (trace w ++ [LoggerInfo ("Found file at: " +:+ join dir file)]) w).
Proof.
  intros Hdir Hthere.
  apply (findConfigFile_found p app file (Some dir) w 0%nat).
  - unfold possiblePaths, truthy. by rewrite bool_decide_eq_true_2.
  - done.
  - intros j q Hj. lia.
Qed.

Lemma findConfigFile_nothing p app file dir w :
  (∀ q, q ∈ possiblePaths join p app file dir → fs w !! q = None) →
  findConfigFile join fsPath p app file dir w =
    (Thrown (FileSystemError
               (file +:+ " does not exist in any of the configuration directories")),
     with_trace
       (trace w ++
        [LoggerError ("Could not find " +:+ file +:+ " in any default location")
                     "utils.findConfigFile" true]) w).
Proof.
  intros Hnone. unfold findConfigFile.
  erewrite bind_returned; [|by apply search_nothing].
  reflexivity.
Qed.

(** When no candidate exists, [findConfigFile] tells the user and throws
    a file-not-found error that names the file; nothing else happens. *)
Theorem findConfigFile_fails_when_nothing_exists p app file dir w :
  (∀ q, q ∈ possiblePaths join p app file dir → fs w !! q = None) →
  findConfigFile join fsPath p app file dir w =
    (Thrown (FileSystemError
               (file +:+ " does not exist in any of the configuration directories")),
     with_trace
       (trace w ++
        [LoggerError ("Could not find " +:+ file +:+ " in any default location")
                     "utils.findConfigFile" true]) w).
Proof.
  intros Hnone. unfold findConfigFile.
  erewrite bind_returned; [|by apply search_nothing].
  reflexivity.
Qed.

(** *** initialize *)

Lemma findConfigFile_frame p app file dir w :
  ∃ o evs, findConfigFile join fsPath p app file dir w =
             (o, with_trace (trace w ++ evs) w).
Proof.
  assert (∀ paths, ∃ r evs,
            search fsPath paths w = (Returned r, with_trace (trace w ++ evs) w))
    as Hsearch.
  { induction paths as [|q rest (r & evs & IH)]; simpl.
    - exists None, []. unfold ret. destruct w; simpl. by rewrite app_nil_r.
    - unfold bind at 1. rewrite pathExists_spec.
      destruct (fs w !! q); [by eexists _, _ | by exists r, evs]. }
  unfold findConfigFile.
  destruct (Hsearch (possiblePaths join p app file dir)) as (r & evs & Hrun).
  erewrite bind_returned; [|exact Hrun].
  destruct r as [path|]; [by eexists _, _|].
  eexists _, (evs ++ _). unfold logger_error, bind, emit, modify, throw. simpl.
  by rewrite <- app_assoc.
Qed.

(** One block either finds its path stored and does nothing, or stores a
    path under its own key, or gives up; it touches no other key and no
    file. *)
Lemma locate_spec p app dir f w :
  let key := name f +:+ "Path" in
  ∃ ok w',
    locate join fsPath p app dir f w = (Returned ok, w') ∧
    fs w' = fs w ∧
    (∀ k, k ≠ key → globalState w' !! k = globalState w !! k) ∧
    (truthy (globalState w !! key) = true → ok = true ∧ w' = w) ∧
    (ok = true → is_Some (globalState w' !! key)).
Proof.
  simpl. unfold locate. rewrite bind_gets.
  destruct (truthy (globalState w !! (name f +:+ "Path"))) eqn:Hstored.
  { exists true, w. unfold ret. repeat split; try done.
    destruct (globalState w !! (name f +:+ "Path")); [by eexists|done]. }
  destruct (findConfigFile_frame p app (name f +:+ ".json") dir w)
    as ([path|e] & evs & Hfind).
  - eexists true, _. unfold try_catch.
    erewrite bind_returned; [|exact Hfind].
    unfold globalState_update, bind, modify, ret. simpl.
    split; [reflexivity|]. simpl.
    split; [done|]. split; [|split; [done|]].
    + intros k Hk. by rewrite lookup_insert_ne.
    + intros _. rewrite lookup_insert_eq. by eexists.
  - unfold try_catch at 1. erewrite bind_thrown; [|exact Hfind].
    unfold logger_error, setManualPath, next_reply, globalState_update.
    unfold bind, try_catch, gets, emit, modify, ret, throw. simpl.
    destruct (user w) as [|[picked|] rest]; simpl.
    + exists false, (with_trace
                      (((trace w ++ evs) ++
                        [LoggerError
                           ("Failed to automatically find " +:+ name f +:+
                            ".json file - opening file picker")
                           "SyncEverything.initialize" true]) ++
                       [LoggerError
                          "Configuration files are required for SyncEverything to work, please reactivate extension and select correct configuration files."
                          "SyncEverything.initialize" true]) w).
      by repeat split.
    + eexists true, _. split; [reflexivity|]. simpl.
      split; [done|]. split; [|split; [done|]].
      * intros k Hk. by rewrite lookup_insert_ne.
      * intros _. rewrite lookup_insert_eq. by eexists.
    + eexists false, _. split; [reflexivity|]. simpl. by repeat split.
Qed.

Lemma locate_stored p app dir f w :
  truthy (globalState w !! (name f +:+ "Path")) = true →
  locate join fsPath p app dir f w = (Returned true, w).
Proof. intros H. unfold locate. by rewrite bind_gets, H. Qed.

Lemma locate_preferred p app dir f w :
  truthy (globalState w !! (name f +:+ "Path")) = false →
  dir ≠ EmptyString →
  is_Some (fs w !! join dir (name f +:+ ".json")) →
  ∃ w',
    locate join fsPath p app (Some dir) f w = (Returned true, w') ∧
    globalState w' =
      <[name f +:+ "Path" := fsPath (join dir (name f +:+ ".json"))]>
        (globalState w) ∧
    fs w' = fs w.
Proof.
  intros Hstored Hdir Hthere. unfold locate. rewrite bind_gets, Hstored.
  unfold try_catch.
  erewrite bind_returned; [|by apply findConfigFile_preferred].
  unfold globalState_update, bind, modify, ret. simpl. by eexists.
Qed.

Lemma locate_cancelled p app dir f w :
  truthy (globalState w !! (name f +:+ "Path")) = false →
  (∀ q, q ∈ possiblePaths join p app (name f +:+ ".json") dir →
        fs w !! q = None) →
  default None (head (user w)) = None →
  locate join fsPath p app dir f w =
    (Returned false,
     with_user (tail (user w))
       (with_trace
          (trace w ++
           [LoggerError ("Could not find " +:+ (name f +:+ ".json") +:+
                         " in any default location")
                        "utils.findConfigFile" true;
            LoggerError ("Failed to automatically find " +:+ name f +:+
                         ".json file - opening file picker")
                        "SyncEverything.initialize" true;
            LoggerError
              "Configuration files are required for SyncEverything to work, please reactivate extension and select correct configuration files."
              "SyncEverything.initialize" true]) w)).
Proof.
  intros Hstored Hnone Hreply. unfold locate. rewrite bind_gets, Hstored.
  unfold try_catch at 1.
  erewrite bind_thrown; [|by apply findConfigFile_nothing].
  unfold logger_error, setManualPath, next_reply, globalState_update.
  unfold bind, try_catch, gets, emit, modify, ret, throw. simpl.
  destruct w as [gs f0 ro al ex cf rj [|[picked|] rest] tr]; simpl in *;
    try done; by rewrite <- !app_assoc.
Qed.

(** With both paths stored, start-up looks for nothing and changes
    nothing. *)
Theorem initialize_keeps_stored_paths p env_appName globalStorage w :
  truthy (globalState w !! "settingsPath") = true →
  truthy (globalState w !! "keybindingsPath") = true →
  initialize join fsPath resolve_up_two p env_appName globalStorage w =
    (Returned (Some tt), w).
Proof.
  intros Hs Hk. unfold initialize. cbv zeta.
  erewrite bind_returned; [|apply locate_stored; exact Hs].
  cbv beta iota.
  erewrite bind_returned; [|apply locate_stored; exact Hk].
  reflexivity.
Qed.

(** Start-up never throws and writes no file.  When it returns an
    instance both paths are stored; and whatever it returns, every entry
    of the persisted state that had a non-empty value has it still: a
    stored path is never replaced. *)
Theorem initialize_settles_paths p env_appName globalStorage w :
  ∃ r w',
    initialize join fsPath resolve_up_two p env_appName globalStorage w =
      (Returned r, w') ∧
    fs w' = fs w ∧
    (r = Some tt →
     is_Some (globalState w' !! "settingsPath") ∧
     is_Some (globalState w' !! "keybindingsPath")) ∧
    (∀ key v, globalState w !! key = Some v → v ≠ EmptyString →
              globalState w' !! key = Some v).
Proof.
  unfold initialize. cbv zeta.
  destruct (locate_spec p (appName env_appName)
              (getUserConfigDir resolve_up_two globalStorage) Settings w)
    as (ok1 & w1 & Hrun1 & Hfs1 & Hother1 & Hkept1 & Hset1).
  change (name Settings +:+ "Path") with "settingsPath" in *.
  assert (∀ key v, globalState w !! key = Some v → v ≠ EmptyString →
                   globalState w1 !! key = Some v) as Hkeep1.
  { intros key v Hv Hne.
    destruct (decide (key = "settingsPath")) as [->|Hkey].
    - destruct Hkept1 as [_ ->]; [|done].
      rewrite Hv. simpl. by apply bool_decide_eq_true.
    - by rewrite Hother1. }
  erewrite bind_returned; [|exact Hrun1].
  destruct ok1; cbv beta iota.
  - destruct (locate_spec p (appName env_appName)
                (getUserConfigDir resolve_up_two globalStorage) Keybindings w1)
      as (ok2 & w2 & Hrun2 & Hfs2 & Hother2 & Hkept2 & Hset2).
    change (name Keybindings +:+ "Path") with "keybindingsPath" in *.
    assert (∀ key v, globalState w !! key = Some v → v ≠ EmptyString →
                     globalState w2 !! key = Some v) as Hkeep2.
    { intros key v Hv Hne. specialize (Hkeep1 key v Hv Hne).
      destruct (decide (key = "keybindingsPath")) as [->|Hkey].
      - destruct Hkept2 as [_ ->]; [|done].
        rewrite Hkeep1. simpl. by apply bool_decide_eq_true.
      - by rewrite Hother2. }
    erewrite bind_returned; [|exact Hrun2].
    destruct ok2; unfold ret.
    + exists (Some tt), w2. split; [done|]. split; [congruence|].
      split; [|done]. intros _. split; [|by apply Hset2].
      rewrite Hother2 by done. by apply Hset1.
    + exists None, w2. split; [done|]. split; [congruence|]. by split.
  - exists None, w1. unfold ret. split; [done|]. split; [done|]. by split.
Qed.

(** On a fresh installation whose user data directory holds both files,
    start-up stores the paths of those files, whatever the platform's
    default locations hold. *)
Theorem initialize_prefers_user_data_dir p env_appName globalStorage w :
  let dir := resolve_up_two globalStorage in
  truthy (globalState w !! "settingsPath") = false →
  truthy (globalState w !! "keybindingsPath") = false →
  dir ≠ EmptyString →
  is_Some (fs w !! join dir "settings.json") →
  is_Some (fs w !! join dir "keybindings.json") →
  let r := initialize join fsPath resolve_up_two p env_appName globalStorage w in
  r.1 = Returned (Some tt) ∧
  globalState r.2 !! "settingsPath" = Some (fsPath (join dir "settings.json")) ∧
  globalState r.2 !! "keybindingsPath" =
    Some (fsPath (join dir "keybindings.json")).
Proof.
  simpl. intros Hs Hk Hdir Hsf Hkf. unfold initialize, getUserConfigDir.
  cbv zeta.
  destruct (locate_preferred p (appName env_appName)
              (resolve_up_two globalStorage) Settings w Hs Hdir Hsf)
    as (w1 & Hrun1 & Hg1 & Hf1).
  change (name Settings +:+ "Path") with "settingsPath" in Hg1.
  change (name Settings +:+ ".json") with "settings.json" in Hg1.
  destruct (locate_preferred p (appName env_appName)
              (resolve_up_two globalStorage) Keybindings w1)
    as (w2 & Hrun2 & Hg2 & Hf2).
  { change (name Keybindings +:+ "Path") with "keybindingsPath".
    by rewrite Hg1, lookup_insert_ne. }
  { done. }
  { by rewrite Hf1. }
  change (name Keybindings +:+ "Path") with "keybindingsPath" in Hg2.
  change (name Keybindings +:+ ".json") with "keybindings.json" in Hg2.
  erewrite bind_returned; [|exact Hrun1].
  cbv beta iota.
  erewrite bind_returned; [|exact Hrun2].
  unfold ret. simpl. rewrite Hg2, Hg1.
  split; [done|]. split.
  - rewrite lookup_insert_ne by done. by rewrite lookup_insert_eq.
  - by rewrite lookup_insert_eq.
Qed.

(** When the settings file is nowhere to be found and the file dialog is
    cancelled, start-up gives up: it returns [undefined], having told the
    user three times, stores nothing and does not go on to the
    keybindings. *)
Theorem initialize_gives_up_when_cancelled p env_appName globalStorage w :
  truthy (globalState w !! "settingsPath") = false →
  (∀ q, q ∈ possiblePaths join p (appName env_appName) "settings.json"
                          (getUserConfigDir resolve_up_two globalStorage) →
        fs w !! q = None) →
  default None (head (user w)) = None →
  initialize join fsPath resolve_up_two p env_appName globalStorage w =
    (Returned None,
     with_user (tail (user w))
       (with_trace
          (trace w ++
           [LoggerError "Could not find settings.json in any default location"
                        "utils.findConfigFile" true;
            LoggerError
              "Failed to automatically find settings.json file - opening file picker"
              "SyncEverything.initialize" true;
            LoggerError
              "Configuration files are required for SyncEverything to work, please reactivate extension and select correct configuration files."
              "SyncEverything.initialize" true]) w)).
Proof.
  intros Hs Hnone Hreply. unfold initialize. cbv zeta.
  erewrite bind_returned;
    [|apply locate_cancelled; [exact Hs | exact Hnone | exact Hreply]].
  reflexivity.
Qed.

End WithPath.

Lemma findConfigFile_returns_first_existing_witness :
  (findConfigFile join fsPath linux "Code" "settings.json" None desk).1 =
    Returned settings_json.
Proof.
  rewrite (findConfigFile_returns_first_existing join fsPath linux "Code"
             "settings.json" None desk 0%nat settings_json eq_refl).
  - reflexivity.
  - by eexists.
  - intros j q Hj. lia.
Defined.

Lemma findConfigFile_prefers_user_dir_witness :
  (findConfigFile join fsPath linux "Code" "settings.json"
                  (Some user_data_dir) fresh).1 =
    Returned "/tmp/user-data-e2e/User/settings.json".
Proof.
  rewrite (findConfigFile_prefers_user_dir join fsPath linux "Code"
             "settings.json" user_data_dir fresh).
  - reflexivity.
  - discriminate.
  - by eexists.
Defined.

Lemma findConfigFile_fails_when_nothing_exists_witness :
  (findConfigFile join fsPath linux "Code" "settings.json" None bare).1 =
    Thrown (FileSystemError
              "settings.json does not exist in any of the configuration directories").
Proof.
  rewrite (findConfigFile_fails_when_nothing_exists join fsPath linux "Code"
             "settings.json" None bare).
  - reflexivity.
  - intros q _. reflexivity.
Defined.

Lemma initialize_keeps_stored_paths_witness :
  initialize join fsPath resolve_up_two linux "Visual Studio Code"
             "/tmp/user-data-e2e/User/globalStorage/sync-everything" desk =
    (Returned (Some tt), desk).
Proof.
  apply (initialize_keeps_stored_paths join fsPath resolve_up_two linux
           "Visual Studio Code"
           "/tmp/user-data-e2e/User/globalStorage/sync-everything" desk);
    reflexivity.
Defined.

Lemma initialize_settles_paths_witness :
  ∃ r w',
    initialize join fsPath resolve_up_two linux "Visual Studio Code"
               "/tmp/user-data-e2e/User/globalStorage/sync-everything" fresh =
      (Returned r, w') ∧
    fs w' = fs fresh.
Proof.
  destruct (initialize_settles_paths join fsPath resolve_up_two linux
              "Visual Studio Code"
              "/tmp/user-data-e2e/User/globalStorage/sync-everything" fresh)
    as (r & w' & Hrun & Hfs & _).
  exists r, w'. split; [exact Hrun | exact Hfs].
Defined.

Lemma initialize_prefers_user_data_dir_witness :
  let r := initialize join fsPath resolve_up_two linux "Visual Studio Code"
             "/tmp/user-data-e2e/User/globalStorage/sync-everything" fresh in
  globalState r.2 !! "settingsPath" =
    Some "/tmp/user-data-e2e/User/settings.json" ∧
  globalState r.2 !! "keybindingsPath" =
    Some "/tmp/user-data-e2e/User/keybindings.json".
Proof.
  destruct (initialize_prefers_user_data_dir join fsPath resolve_up_two linux
              "Visual Studio Code"
              "/tmp/user-data-e2e/User/globalStorage/sync-everything" fresh)
    as (_ & Hs & Hk).
  - reflexivity.
  - reflexivity.
  - discriminate.
  - by eexists.
  - by eexists.
  - split; [exact Hs | exact Hk].
Defined.

Lemma initialize_gives_up_when_cancelled_witness :
  (initialize join fsPath resolve_up_two linux "Cursor"
              "/tmp/user-data-e2e/User/globalStorage/sync-everything" bare).1 =
    Returned None.
Proof.
  rewrite (initialize_gives_up_when_cancelled join fsPath resolve_up_two linux
             "Cursor" "/tmp/user-data-e2e/User/globalStorage/sync-everything"
             bare).
  - reflexivity.
  - reflexivity.
  - intros q _. reflexivity.
  - reflexivity.
Defined.

End StartupFacts.

(** ** The commands' names and labels *)

Module CommandFacts.
Import Commands.

Lemma in_class_not_dot c : in_class c = true → c ≠ "."%char.
Proof. intros H ->. vm_compute in H. discriminate H. Qed.

Lemma test_forall value :
  test value = true →
  forallb in_class (String.list_ascii_of_string value) = true.
Proof. by destruct value. Qed.

Lemma remove_first_suffix name :
  forallb in_class (String.list_ascii_of_string name) = true →
  remove_first ".json" (name +:+ ".json") = name.
Proof.
  induction name as [|c name IH]; [done|].
  intros [Hc Hrest]%andb_true_iff.
  change (String c name +:+ ".json") with (String c (name +:+ ".json")).
  assert (String.prefix ".json" (String c (name +:+ ".json")) = false) as Hpre.
  { change ((if ascii_dec "."%char c
              then String.prefix "json" (name +:+ ".json") else false) = false).
    destruct (ascii_dec "."%char c) as [<-|]; [|done].
    by apply in_class_not_dot in Hc. }
  unfold remove_first; fold remove_first. rewrite Hpre.
  by rewrite IH.
Qed.

Lemma endsWith_suffix name : endsWith ".json" (name +:+ ".json") = true.
Proof.
  induction name as [|c name IH]; [done|].
  change (String c name +:+ ".json") with (String c (name +:+ ".json")).
  unfold endsWith; fold endsWith. rewrite IH. apply orb_true_r.
Qed.

(** No white space starts or ends with a byte of the class, so a name
    made of the class is its own trim. *)
Lemma after_any_guarded points c l :
  guarded points = true → in_class c = true →
  after_any points (c :: l) = None.
Proof.
  intros Hg Hc. induction points as [|point rest IH]; [done|].
  apply andb_true_iff in Hg as [Hp Hrest]. simpl.
  destruct point as [|b point]; [done|]. simpl.
  destruct (Nat.eqb (nat_of_ascii c) b) eqn:Hb; [|by apply IH].
  apply Nat.eqb_eq in Hb. subst b.
  rewrite ascii_nat_embedding, Hc in Hp. done.
Qed.

Lemma strip_guarded points fuel l :
  guarded points = true →
  forallb in_class l = true →
  strip points fuel l = l.
Proof.
  intros Hg Hall. destruct fuel as [|fuel]; [done|].
  destruct l as [|c l]; simpl.
  - destruct (after_any points []) eqn:Hrun; [|done].
    exfalso. clear Hall. induction points as [|point rest IH]; [done|].
    apply andb_true_iff in Hg as [Hp Hrest]. simpl in Hrun.
    destruct point as [|b point]; [done|]. simpl in Hrun. by apply IH.
  - apply andb_true_iff in Hall as [Hc _].
    by rewrite after_any_guarded.
Qed.

Lemma trim_in_class value :
  forallb in_class (String.list_ascii_of_string value) = true →
  trim value = value.
Proof.
  intros Hall. unfold trim, trimStart, trimEnd.
  rewrite (strip_guarded white_space _ (String.list_ascii_of_string value))
    by done.
  rewrite (strip_guarded _ _ (rev (String.list_ascii_of_string value))).
  - by rewrite rev_involutive, String.string_of_list_ascii_of_string.
  - reflexivity.
  - rewrite forallb_forall in Hall |- *. intros c Hc.
    apply Hall. by apply in_rev.
Qed.

Lemma validateInput_None value :
  validateInput value = None ↔
  value ≠ EmptyString ∧ forallb in_class (String.list_ascii_of_string value) = true.
Proof.
  unfold validateInput. split.
  - destruct (_ || _) eqn:Hempty; [done|].
    destruct (test value) eqn:Htest; [|done]. intros _.
    split; [by destruct value | by apply test_forall].
  - intros [Hne Hall].
    assert (test value = true) as -> by by destruct value.
    rewrite (trim_in_class value Hall).
    assert (truthy (Some value) = true) as ->.
    { simpl. by apply bool_decide_eq_true. }
    simpl. rewrite bool_decide_eq_false_2; [done|].
    by destruct value.
Qed.

(** A name the prompt accepts is not empty and is made of letters, digits,
    hyphens and underscores only. *)
Theorem validateInput_accepts value :
  validateInput value = None ↔
  value ≠ EmptyString ∧ forallb in_class (String.list_ascii_of_string value) = true.
Proof.
  unfold validateInput. split.
  - destruct (_ || _) eqn:Hempty; [done|].
    destruct (test value) eqn:Htest; [|done]. intros _.
    split; [by destruct value | by apply test_forall].
  - intros [Hne Hall].
    assert (test value = true) as -> by by destruct value.
    rewrite (trim_in_class value Hall).
    assert (truthy (Some value) = true) as ->.
    { simpl. by apply bool_decide_eq_true. }
    simpl. rewrite bool_decide_eq_false_2; [done|].
    by destruct value.
Qed.

(** A profile created under an accepted name is offered under that name
    and selected from the same file: its file ends in [.json] and so is
    among the names offered when the master record has it, its label is
    the name, and the label's file is the file. *)
Theorem accepted_name_round_trip name :
  validateInput name = None →
  let file := name +:+ ".json" in
  (∀ files : gmap string string,
     is_Some (files !! file) → file ∈ profileNames files) ∧
  label file = name ∧
  selected_file (label file) = file.
Proof.
  intros [_ Hall]%validateInput_None. simpl.
  split.
  - intros files [content Hfile]. unfold profileNames.
    apply list_elem_of_filter. split; [apply endsWith_suffix|].
    apply list_elem_of_fmap. exists (name +:+ ".json", content).
    split; [done|]. by apply elem_of_map_to_list.
  - unfold selected_file, label. by rewrite remove_first_suffix.
Qed.

Lemma validateInput_accepts_witness :
  validateInput "Work-2_a" = None ∧
  validateInput "my profile" =
    Some "Profile name can only contain letters, numbers, hyphens, and underscores".
Proof.
  split; [|reflexivity].
  apply validateInput_accepts. split; [discriminate | reflexivity].
Defined.

Lemma accepted_name_round_trip_witness :
  label "Work-2_a.json" = "Work-2_a".
Proof.
  destruct (accepted_name_round_trip "Work-2_a" eq_refl) as (_ & H & _).
  exact H.
Defined.

End CommandFacts.

(** ** Activation *)

Module ActivationFacts.
Import Activation ActivationSamples.

Lemma on_gist_run {A} (m : Prog GistService.t A) s o g :
  m (gist s) = (o, g) → on_gist m s = (o, mkApp g (local s)).
Proof. intros H. unfold on_gist. by rewrite H. Qed.

Lemma on_local_run {A} (m : Prog SyncEverything.t A) s o l :
  m (local s) = (o, l) → on_local m s = (o, mkApp (gist s) l).
Proof. intros H. unfold on_local. by rewrite H. Qed.

Section WithJSON.
Context {J : Type}.
Variable JSON5_parse : string → option J.
Variable JSON_stringify : SyncEverything.Partial_IProfile (J := J) → string.

Lemma createMaster_run assigned profile (s : GistService.t) :
  GistService.fault (GistService.store s) = None →
  let g := GistService.mkGist assigned GistService.description_
             (GistService.patch_files
                {[ profileName profile +:+ ".json" := JSON_stringify profile ]} ∅) in
  GistService.createMaster profileName JSON_stringify assigned profile s =
    (Returned g,
     GistService.mkService (GistService.masterId s)
       (GistService.mkStore (GistService.gists (GistService.store s) ++ [g]) None)
       (GistService.trace s ++
        [Request POST GistService.baseUrl
                 (Some {[ profileName profile +:+ ".json" :=
                            JSON_stringify profile ]})])).
Proof.
  intros Hf. simpl.
  unfold GistService.createMaster, GistService.axios_post_gist.
  unfold bind, try_catch, gets, GistService.emit, GistService.set_store,
         modify, ret, throw; simpl.
  by rewrite Hf.
Qed.

(** A first activation against a store that answers establishes the
    master record: whether it is found by the scan or has to be created,
    the block returns with the same id cached in the service and stored
    on the machine, and that id is the id of a record of the account that
    has the description. *)
Theorem activation_establishes_master assigned s :
  GistService.masterId (gist s) = None →
  GistService.fault (GistService.store (gist s)) = None →
  assigned ≠ EmptyString →
  (∀ g, g ∈ GistService.gists (GistService.store (gist s)) →
        GistService.id g ≠ EmptyString) →
  ∃ s' g,
    find_or_create_master JSON5_parse JSON_stringify assigned s =
      (Returned true, s') ∧
    GistService.masterId (gist s') = Some (GistService.id g) ∧
    SyncEverything.globalState (local s') !! "masterId" =
      Some (GistService.id g) ∧
    g ∈ GistService.gists (GistService.store (gist s')) ∧
    GistService.description g = GistService.description_.
Proof.
  intros Hid Hf Hassigned Hids. unfold find_or_create_master.
  destruct (GistService.scan (GistService.gists (GistService.store (gist s))))
    as [m|] eqn:Hscan.
  - assert (m ∈ GistService.gists (GistService.store (gist s)) ∧
            GistService.description m = GistService.description_) as [Hm Hd].
    { unfold GistService.scan in Hscan.
      apply List.find_some in Hscan as [Hin Hb].
      split; [by apply list_elem_of_In|]. by apply bool_decide_eq_true in Hb. }
    erewrite bind_returned;
      [|by apply on_gist_run, GistFacts.getMaster_scans_without_id].
    cbv beta iota.
    assert (truthy (Some (GistService.id m)) = true) as Htruthy.
    { simpl. apply bool_decide_eq_true. by apply Hids. }
    unfold on_local, Startup.globalState_update, bind, gets, modify, ret.
    simpl.
    destruct (decide (Some (GistService.id m) ≠
                      SyncEverything.globalState (local s) !! "masterId"))
      as [Hne|Heq]; simpl.
    + rewrite lookup_insert_eq, Htruthy. eexists _, m.
      split; [reflexivity|]. simpl. by rewrite lookup_insert_eq.
    + apply dec_stable in Heq. rewrite <- Heq, Htruthy. eexists _, m.
      split; [reflexivity|]. simpl. by rewrite <- Heq.
  - erewrite bind_returned;
      [|apply on_gist_run, GistMore.getMaster_nothing; [by rewrite Hid|done..]].
    cbv beta iota.
    erewrite bind_returned;
      [|erewrite bind_returned;
         [|by apply on_local_run, SyncMore.getActiveProfile_run];
        erewrite bind_returned;
         [|apply on_gist_run, createMaster_run; exact Hf];
        unfold on_local, on_gist, Startup.globalState_update,
               GistService.set_masterId, bind, modify; simpl; reflexivity].
    unfold on_local, bind, gets, ret. simpl.
    rewrite lookup_insert_eq. simpl.
    rewrite bool_decide_eq_true_2 by done.
    eexists _, (GistService.mkGist assigned GistService.description_ _).
    split; [reflexivity|]. simpl.
    split; [reflexivity|]. split; [by rewrite lookup_insert_eq|].
    split; [|reflexivity].
    apply elem_of_app. right. apply list_elem_of_singleton. reflexivity.
Qed.

End WithJSON.

Lemma activation_establishes_master_witness :
  let r := find_or_create_master SyncSamples.parse stringify_partial "d4c7"
             first_run in
  r.1 = Returned true ∧
  GistService.masterId (gist r.2) = Some "d4c7" ∧
  SyncEverything.globalState (local r.2) !! "masterId" = Some "d4c7".
Proof.
  destruct (activation_establishes_master SyncSamples.parse stringify_partial
              "d4c7" first_run eq_refl eq_refl)
    as (s' & g & Hrun & _).
  - discriminate.
  - intros g Hg. apply list_elem_of_singleton in Hg. rewrite Hg. discriminate.
  - simpl. repeat split; reflexivity.
Defined.

End ActivationFacts.

